(** * MTR normalization system: the classification-and-decision pipeline

    A shallow embedding of the decision core of the repository:

    - [src/models/models.py]            the enumerations and dataclasses,
    - [config/config.py]                [PRODUCT_CATEGORIES], [COMPLIANCE_RULES],
    - [src/utils/category_detector.py]  [CategoryDetector], [SmartCategoryDetector],
    - [src/agents/okpd2_agent.py]       [_select_best_code] and its helpers,
    - [src/agents/validation_agent.py]  [QualityValidationAgent],
    - [src/processors/mtr_processor.py] [MTRProcessor].

    Conventions of the embedding.

    - A Python [str] is a list of Unicode code points ([pystr]).  Literals are
      written as UTF-8 Rocq strings and decoded by [py].
    - Character data is classified for the Basic Latin, Latin-1 and Cyrillic
      blocks (the blocks of every keyword, unit, pattern and message of the
      program); a code point outside these blocks is a caseless symbol that is
      neither a digit nor a word character, and whitespace is the set of
      [str.isspace].
    - A Python [float] is an exact rational; every arithmetic result is kept in
      lowest terms, so that equal numbers are equal terms.
    - The [re] module is embedded as a matcher by derivatives on the regular
      expressions the program uses.
    - The LLM, the web search and the candidate discovery are oracles: they are
      section variables that return a value or raise. *)

From Stdlib Require Import List String Ascii NArith ZArith QArith Qminmax Bool Lia Lqa.
From Stdlib Require Import Permutation Sorted DecimalString Morphisms Setoid.
Import ListNotations.

Set Implicit Arguments.
Open Scope string_scope.
Open Scope list_scope.

(* ================================================================== *)
(** ** Python strings *)

Module Text.

Definition pystr := list N.

(** UTF-8 decoding, used only to write the literals of the source. *)
Fixpoint utf8_decode (bs : list N) : pystr :=
  match bs with
  | [] => []
  | b0 :: r0 =>
    if (b0 <? 128)%N then b0 :: utf8_decode r0
    else match r0 with
    | [] => [b0]
    | b1 :: r1 =>
      if (b0 <? 224)%N then ((b0 mod 32) * 64 + b1 mod 64)%N :: utf8_decode r1
      else match r1 with
      | [] => [b0; b1]
      | b2 :: r2 =>
        if (b0 <? 240)%N
        then ((b0 mod 16) * 4096 + (b1 mod 64) * 64 + b2 mod 64)%N :: utf8_decode r2
        else match r2 with
        | [] => [b0; b1; b2]
        | b3 :: r3 =>
          ((b0 mod 8) * 262144 + (b1 mod 64) * 4096 + (b2 mod 64) * 64 + b3 mod 64)%N
            :: utf8_decode r3
        end
      end
    end
  end.

Definition py (s : string) : pystr :=
  utf8_decode (map N_of_ascii (list_ascii_of_string s)).

Definition in_range (lo hi c : N) : bool := ((lo <=? c) && (c <=? hi))%N.

(** [str.isspace], which is also the class [\s] of a [str] pattern. *)
Definition is_space (c : N) : bool :=
  in_range 9 13 c || in_range 28 32 c || (c =? 133)%N || (c =? 160)%N
  || (c =? 5760)%N || in_range 8192 8202 c || (c =? 8232)%N || (c =? 8233)%N
  || (c =? 8239)%N || (c =? 8287)%N || (c =? 12288)%N.

(** The class [\d]. *)
Definition is_digit (c : N) : bool := in_range 48 57 c.

(** The class [\w]: alphanumeric code points and the underscore. *)
Definition is_word (c : N) : bool :=
  in_range 48 57 c || in_range 65 90 c || in_range 97 122 c || (c =? 95)%N
  || (c =? 170)%N || (c =? 178)%N || (c =? 179)%N || (c =? 181)%N
  || (c =? 185)%N || (c =? 186)%N || in_range 188 190 c
  || in_range 192 214 c || in_range 216 246 c || in_range 248 255 c
  || in_range 1024 1153 c || in_range 1162 1327 c.

(** [str.lower] on one code point. *)
Definition lower_char (c : N) : N :=
  if in_range 65 90 c then (c + 32)%N
  else if in_range 192 222 c && negb (c =? 215)%N then (c + 32)%N
  else if in_range 1040 1071 c then (c + 32)%N
  else if in_range 1024 1039 c then (c + 80)%N
  else c.

Definition lower (s : pystr) : pystr := map lower_char s.

Definition str_eqb (a b : pystr) : bool :=
  if list_eq_dec N.eq_dec a b then true else false.

(** [s.startswith(p)] *)
Fixpoint startswith (s p : pystr) : bool :=
  match p, s with
  | [], _ => true
  | _ :: _, [] => false
  | x :: p', y :: s' => (x =? y)%N && startswith s' p'
  end.

(** [needle in hay] *)
Fixpoint contains (hay needle : pystr) : bool :=
  startswith hay needle
  || match hay with
     | [] => false
     | _ :: hay' => contains hay' needle
     end.

(** [x in lst] for a list of strings *)
Definition str_in (x : pystr) (l : list pystr) : bool := existsb (str_eqb x) l.

(** [sep.join(parts)] *)
Fixpoint join (sep : pystr) (parts : list pystr) : pystr :=
  match parts with
  | [] => []
  | [p] => p
  | p :: rest => p ++ sep ++ join sep rest
  end.

(** [s.split(sep)] for a one-character separator. *)
Fixpoint split_on (sep : N) (s : pystr) : list pystr :=
  match s with
  | [] => [[]]
  | c :: s' =>
    if (c =? sep)%N then [] :: split_on sep s'
    else match split_on sep s' with
         | [] => [[c]]
         | w :: ws => (c :: w) :: ws
         end
  end.

(** [s.split()]: the maximal runs of non-whitespace characters. *)
Fixpoint split_ws_aux (s : pystr) : pystr * list pystr :=
  match s with
  | [] => ([], [])
  | c :: s' =>
    let '(w, ws) := split_ws_aux s' in
    if is_space c
    then ([], match w with [] => ws | _ :: _ => w :: ws end)
    else (c :: w, ws)
  end.

Definition split_ws (s : pystr) : list pystr :=
  let '(w, ws) := split_ws_aux s in
  match w with [] => ws | _ :: _ => w :: ws end.

Fixpoint lstrip (s : pystr) : pystr :=
  match s with
  | [] => []
  | c :: s' => if is_space c then lstrip s' else s
  end.

(** [s.strip()] *)
Definition strip (s : pystr) : pystr := rev (lstrip (rev (lstrip s))).

End Text.
Export Text.

(* ================================================================== *)
(** ** Regular expressions of the [re] module *)

Module Re.

Inductive regex : Type :=
| Void
| Eps
| Cls (p : N -> bool)
| Seq (r s : regex)
| Alt (r s : regex)
| Star (r : regex).

Fixpoint nullable (r : regex) : bool :=
  match r with
  | Void => false
  | Eps => true
  | Cls _ => false
  | Seq r s => nullable r && nullable s
  | Alt r s => nullable r || nullable s
  | Star _ => true
  end.

Definition seq (r s : regex) : regex :=
  match r, s with
  | Void, _ => Void
  | _, Void => Void
  | Eps, _ => s
  | _, _ => Seq r s
  end.

Definition alt (r s : regex) : regex :=
  match r, s with
  | Void, _ => s
  | _, Void => r
  | _, _ => Alt r s
  end.

Fixpoint deriv (c : N) (r : regex) : regex :=
  match r with
  | Void => Void
  | Eps => Void
  | Cls p => if p c then Eps else Void
  | Seq r s =>
    if nullable r then alt (seq (deriv c r) s) (deriv c s)
    else seq (deriv c r) s
  | Alt r s => alt (deriv c r) (deriv c s)
  | Star r => seq (deriv c r) (Star r)
  end.

(** The whole string is in the language of [r]. *)
Fixpoint fullmatch (r : regex) (s : pystr) : bool :=
  match s with
  | [] => nullable r
  | c :: s' => fullmatch (deriv c r) s'
  end.

Definition any : regex := Cls (fun _ => true).

(** [re.search(r, s)]: some substring of [s] is in the language of [r]. *)
Definition search (r : regex) (s : pystr) : bool :=
  fullmatch (Seq (Star any) (Seq r (Star any))) s.

(** The pattern pieces.  [ichr] and [istr] are literals under
    [re.IGNORECASE]; [chr] and [str] are case-sensitive literals. *)
Definition chr (c : N) : regex := Cls (fun x => (x =? c)%N).
Definition ichr (c : N) : regex := Cls (fun x => (lower_char x =? lower_char c)%N).
Definition dot : regex := Cls (fun x => negb (x =? 10)%N).
Definition digit : regex := Cls is_digit.
Definition space : regex := Cls is_space.

Fixpoint cat (rs : list regex) : regex :=
  match rs with
  | [] => Eps
  | [r] => r
  | r :: rs' => Seq r (cat rs')
  end.

Fixpoint alts (rs : list regex) : regex :=
  match rs with
  | [] => Void
  | [r] => r
  | r :: rs' => Alt r (alts rs')
  end.

Definition str (s : string) : regex := cat (map chr (py s)).
Definition istr (s : string) : regex := cat (map ichr (py s)).
Definition plus (r : regex) : regex := Seq r (Star r).
Definition opt (r : regex) : regex := Alt Eps r.
Fixpoint rep (n : nat) (r : regex) : regex :=
  match n with
  | O => Eps
  | S n' => match n' with O => r | S _ => Seq r (rep n' r) end
  end.

End Re.

(* ================================================================== *)
(** ** Python floats *)

Module Float.

Abbreviation float := Q (only parsing).

Definition of_int (z : Z) : float := inject_Z z.
Definition of_nat (n : nat) : float := inject_Z (Z.of_nat n).
Definition add (x y : float) : float := Qred (x + y).
Definition mul (x y : float) : float := Qred (x * y).
Definition div (x y : float) : float := Qred (x / y).
Definition ltb (x y : float) : bool := negb (Qle_bool y x).
Definition leb (x y : float) : bool := Qle_bool x y.

(** [min(x, y)] returns its first argument unless the second is smaller. *)
Definition min (x y : float) : float := if ltb y x then y else x.

End Float.
Import Float.

Declare Scope float_scope.
Delimit Scope float_scope with float.
Arguments Float.add (x y)%_float.
Arguments Float.mul (x y)%_float.
Arguments Float.div (x y)%_float.
Arguments Float.ltb (x y)%_float.
Arguments Float.leb (x y)%_float.
Arguments Float.min (x y)%_float.
Infix "+" := Float.add : float_scope.
Infix "*" := Float.mul : float_scope.
Infix "<?" := Float.ltb : float_scope.

(* ================================================================== *)
(** ** [src/models/models.py] *)

Module Models.

Inductive ProductCategory : Set :=
| PRESSURE_SENSOR
| STEEL_CIRCLE
| HAMMER
| TIRE
| UNKNOWN.

(** [category.value] *)
Definition value (c : ProductCategory) : pystr :=
  match c with
  | PRESSURE_SENSOR => py "PRESSURE_SENSOR"
  | STEEL_CIRCLE => py "STEEL_CIRCLE"
  | HAMMER => py "HAMMER"
  | TIRE => py "TIRE"
  | UNKNOWN => py "UNKNOWN"
  end.

(** [for category in ProductCategory]: the members in definition order. *)
Definition members : list ProductCategory :=
  [PRESSURE_SENSOR; STEEL_CIRCLE; HAMMER; TIRE; UNKNOWN].

Definition category_eq_dec (a b : ProductCategory) : {a = b} + {a <> b}.
Proof. decide equality. Defined.

Definition category_eqb (a b : ProductCategory) : bool :=
  if category_eq_dec a b then true else false.

Inductive ProcessingStatus : Set :=
| PENDING
| PROCESSING
| COMPLETED
| FAILED
| REJECTED.

(** The object protocol used on the values of a specification mapping
    ([Dict[str, Any]]): truth value, [str(v)], [isinstance(v, str)], and the
    injection of a [str]. *)
Class PyValue (V : Type) : Type := {
  truthy : V -> bool;
  py_str : V -> pystr;
  as_str : V -> option pystr;
  of_str : pystr -> V
}.

(** [Product].  The wall-clock field [processing_timestamp], which
    [_process_single_product] sets from [datetime.now()] before the first
    stage, is left out: the record holds every other field of the class. *)
Record Product (V : Type) : Type := mkProduct {
  internal_code : pystr;
  original_name : pystr;
  original_unit : pystr;
  category_name : pystr;
  category : ProductCategory;
  normalized_unit : option pystr;
  okpd2_code : option pystr;
  comment : option pystr;
  specifications : list (pystr * V);
  status : ProcessingStatus;
  error_message : option pystr;
  confidence_score : float;
  excel_row : option Z
}.

(** [ResearchResult]; [raw_data] is never read and is left out. *)
Record ResearchResult (V : Type) : Type := mkResearchResult {
  product_name : pystr;
  manufacturer : option pystr;
  model : option pystr;
  r_specifications : list (pystr * V);
  sources : list pystr;
  r_confidence : float
}.

(** An entry of [alternative_codes]. *)
Record Alternative : Type := mkAlternative {
  alt_code : pystr;
  alt_name : pystr;
  alt_score : float
}.

(** [OKPD2Result] *)
Record OKPD2Result : Type := mkOKPD2Result {
  code : pystr;
  name : pystr;
  level : Z;
  parent_code : option pystr;
  confidence : float;
  alternative_codes : list Alternative
}.

(** [ValidationResult] *)
Record ValidationResult : Type := mkValidationResult {
  is_valid : bool;
  issues : list pystr;
  rejection_reason : option pystr;
  suggestions : list pystr
}.

(** [ProcessingBatch]; the two wall-clock fields are left out. *)
Record ProcessingBatch (V : Type) : Type := mkProcessingBatch {
  batch_id : pystr * nat;
  products : list (Product V);
  b_category : ProductCategory;
  total_count : nat;
  processed_count : nat;
  failed_count : nat
}.

(** [success_rate] *)
Definition success_rate {V} (b : ProcessingBatch V) : float :=
  match processed_count b with
  | O => 0
  | _ => Float.div (of_int (Z.of_nat (processed_count b) - Z.of_nat (failed_count b)))
                   (of_nat (processed_count b))
  end.

End Models.
Export Models.

(* ================================================================== *)
(** ** Python dictionaries *)

Module PyDict.

(** The keys that occur in the program's dictionaries: strings and members of
    [ProductCategory].  [ProductCategory] derives from [Enum] alone (not from
    [str]), so a member hashes like its name but is equal only to itself: it
    is never equal to a string, not even to its own [value]. *)
Inductive pykey : Type :=
| KStr (s : pystr)
| KEnum (c : ProductCategory).

Definition key_eqb (a b : pykey) : bool :=
  match a, b with
  | KStr x, KStr y => str_eqb x y
  | KEnum x, KEnum y => category_eqb x y
  | _, _ => false
  end.

(** A dictionary in insertion order. *)
Definition dict (A : Type) : Type := list (pykey * A).

(** [k in d] *)
Definition dict_in {A} (k : pykey) (d : dict A) : bool :=
  existsb (fun kv => key_eqb k (fst kv)) d.

(** [d.get(k)] *)
Definition dict_get {A} (k : pykey) (d : dict A) : option A :=
  option_map snd (find (fun kv => key_eqb k (fst kv)) d).

End PyDict.
Export PyDict.

(* ================================================================== *)
(** ** [config/config.py] *)

Module Config.

Record CategoryConfig : Type := mkCategoryConfig {
  keywords : list pystr;
  unit : pystr;
  okpd2_prefix : pystr;
  schema : list pystr
}.

Definition PRODUCT_CATEGORIES : dict CategoryConfig :=
  [ (KStr (py "PRESSURE_SENSOR"),
     {| keywords := map py ["датчик"; "давлен"; "sensor"; "pressure"; "преобразователь"];
        unit := py "штука";
        okpd2_prefix := py "26.51.52";
        schema := map py
          ["product"; "type"; "measured_quantity"; "trademark_producer";
           "model_article"; "identification"; "measurement_range";
           "ambient_temperature"; "accuracy_class"; "output_signal";
           "climate_category"; "explosion_protection"; "electrical_connector";
           "additional_characteristics"; "sensor_mount"; "protection_degree";
           "material"; "size_mm"; "standard"; "weight_kg"] |});
    (KStr (py "STEEL_CIRCLE"),
     {| keywords := map py ["круг"; "сталь"; "steel"; "circle"; "прокат"];
        unit := py "тонна";
        okpd2_prefix := py "24.10.75";
        schema := map py
          ["product"; "hardness"; "rolling_accuracy"; "curvature_class";
           "diameter_mm"; "length"; "length_dimension"; "standard_assortment";
           "surface_quality"; "steel_grade"; "standard_material"; "weight_ton"] |});
    (KStr (py "HAMMER"),
     {| keywords := map py ["молот"; "hammer"];
        unit := py "штука";
        okpd2_prefix := py "25.73.30";
        schema := map py
          ["product"; "type"; "striker_type"; "trademark"; "model_designation";
           "article"; "striker_weight_kg"; "length_mm"; "handle_material";
           "handle_type"; "standard"; "additional_characteristics"; "weight_kg"] |});
    (KStr (py "TIRE"),
     {| keywords := map py ["шина"; "tire"; "резина"; "покрышка"];
        unit := py "штука";
        okpd2_prefix := py "22.11.11";
        schema := map py
          ["product"; "season"; "spikes_on_tires"; "trademark_manufacturer";
           "model"; "article"; "width"; "profile"; "diameter"; "speed_index";
           "load_index"; "extra_load"; "construction"; "weight_kg"] |}) ].

(** [PROCESSING_CONFIG] *)
Definition batch_size : nat := 10.
Definition max_retries : nat := 3.
Definition parallel_workers : nat := 4.

(** [COMPLIANCE_RULES["rejection_reasons"]] *)
Definition rejection_reasons : list pystr :=
  map py
    ["Не подлежит нормализации: артикул не соответствует цвету";
     "Не подлежит нормализации: вариативность по диаметру и марке стали";
     "Не подлежит нормализации: неполные технические характеристики";
     "Не подлежит нормализации: отсутствует код ОКПД2";
     "Не подлежит нормализации: невозможно определить производителя"].

(** [COMPLIANCE_RULES["unit_validation"]] *)
Definition unit_validation : dict (list pystr) :=
  [ (KStr (py "датчик"), map py ["штука"; "шт"; "шт."]);
    (KStr (py "круг"), map py ["тонна"; "т"; "тн"]);
    (KStr (py "молоток"), map py ["штука"; "шт"; "шт."]);
    (KStr (py "шина"), map py ["штука"; "шт"; "шт."]) ].

End Config.
Export Config.

(* ================================================================== *)
(** ** [src/utils/category_detector.py] *)

Module CategoryDetector.
Import Re.

(** [_compile_patterns]: the dictionary [self.patterns], keyed by members of
    [ProductCategory]; every pattern is compiled with [re.IGNORECASE]. *)
Definition patterns : dict (list regex) :=
  [ (KEnum PRESSURE_SENSOR,
     [ cat [istr "датчик"; Star dot; istr "давлен"];
       cat [istr "pressure"; Star space; istr "sensor"];
       cat [istr "преобразователь"; Star dot; istr "давлен"];
       cat [istr "ПД"; plus digit];
       cat [alts [istr "Endress+Hauser"; istr "ОВЕН"; istr "Danfoss"; istr "Siemens"];
            Star dot; istr "давлен"];
       alts [istr "PMP"; istr "PMC"; istr "PTP"; istr "CeraBar"; istr "Deltabar"];
       cat [plus digit; Star space;
            alts [istr "МПа"; istr "MPa"; istr "кПа"; istr "kPa"; istr "бар"; istr "bar"]] ]);
    (KEnum STEEL_CIRCLE,
     [ cat [istr "круг"; Star dot; istr "сталь"];
       cat [istr "steel"; Star dot; istr "circle"];
       cat [istr "прокат"; Star dot; istr "круг"];
       cat [istr "горячекатан"; Star dot; istr "круг"];
       cat [istr "ГОСТ"; Star space; istr "2590"];
       cat [plus digit; Star space; istr "мм"; Star dot; istr "сталь"];
       cat [istr "сталь"; Star dot; plus digit] ]);
    (KEnum HAMMER,
     [ istr "молот";
       istr "hammer";
       cat [istr "слесарн"; Star dot; istr "молот"];
       cat [istr "электромонтаж"; Star dot; istr "молот"];
       cat [plus digit; Star space; alts [istr "кг"; istr "kg"]; Star dot; istr "молот"];
       cat [istr "рукоят"; Star dot; istr "молот"];
       alts [istr "Stanley"; istr "Gross"; istr "Matrix"; istr "Sparta"] ]);
    (KEnum TIRE,
     [ cat [istr "шин"; alts [istr "а"; istr "ы"]];
       istr "tire";
       cat [istr "резин"; Star dot; istr "колес"];
       istr "покрыш";
       cat [rep 3 digit; istr "/"; rep 2 digit; Star space; istr "R"; rep 2 digit];
       alts [istr "зимн"; istr "летн"; istr "всесезон"];
       alts [istr "Nokian"; istr "Michelin"; istr "Bridgestone"; istr "Continental";
             istr "Кама"; istr "BFGoodrich"];
       alts [istr "Hakkapeliitta"; istr "Pilot"; istr "Turanza"] ]) ].

(** [re.sub(r'\s+', ' ', text)] *)
Fixpoint collapse_spaces (text : pystr) : pystr :=
  match text with
  | [] => []
  | c :: rest =>
    if is_space c
    then match rest with
         | [] => [32%N]
         | d :: _ => if is_space d then collapse_spaces rest
                     else 32%N :: collapse_spaces rest
         end
    else c :: collapse_spaces rest
  end.

(** The class [[\w\s\-\+/\.\,А-Яа-я]] whose complement is blanked. *)
Definition kept (c : N) : bool :=
  is_word c || is_space c
  || (c =? 45)%N || (c =? 43)%N || (c =? 47)%N || (c =? 46)%N || (c =? 44)%N
  || in_range 1040 1103 c.

(** [re.sub(r'[^\w\s\-\+/\.\,А-Яа-я]', ' ', text)] *)
Definition blank_special (text : pystr) : pystr :=
  map (fun c => if kept c then c else 32%N) text.

(** [_normalize_text] *)
Definition _normalize_text (text : pystr) : pystr :=
  strip (blank_special (collapse_spaces text)).

(** [sum(1 for x in xs if test(x))] *)
Definition count {A} (test : A -> bool) (xs : list A) : nat :=
  List.length (filter test xs).

(** The overridable method of the detector classes. *)
Class Detector : Type := {
  _calculate_category_score : pystr -> ProductCategory -> float
}.

(** [CategoryDetector._calculate_category_score] *)
Definition base_score (text : pystr) (category : ProductCategory) : float :=
  let score : float := 0 in
  let score :=
    if dict_in (KEnum category) patterns
    then match dict_get (KEnum category) patterns with
         | Some ps =>
           let pattern_matches := count (fun pattern => search pattern text) ps in
           (score + of_nat pattern_matches * 0.3)%float
         | None => score
         end
    else score in
  let score :=
    if dict_in (KStr (value category)) PRODUCT_CATEGORIES
    then match dict_get (KStr (value category)) PRODUCT_CATEGORIES with
         | Some cfg =>
           let keyword_matches :=
             count (fun keyword => contains (lower text) (lower keyword)) (keywords cfg) in
           (score + of_nat keyword_matches * 0.2)%float
         | None => score
         end
    else score in
  Float.min score 1.

(** [max(scores, key=scores.get)] paired with its score: the first entry
    whose score is not exceeded by any other. *)
Fixpoint best_of (best : ProductCategory * float)
         (scores : list (ProductCategory * float)) : ProductCategory * float :=
  match scores with
  | [] => best
  | cs :: rest =>
    if (snd best <? snd cs)%float then best_of cs rest else best_of best rest
  end.

Section Detect.
Context {D : Detector}.

(** The dictionary [scores] built by the loop of [detect_category]. *)
Definition category_scores (normalized : pystr) : list (ProductCategory * float) :=
  map (fun category => (category, _calculate_category_score normalized category))
      (filter (fun category => negb (category_eqb category UNKNOWN)) members).

(** [detect_category] *)
Definition detect_category (product_name : pystr) : ProductCategory * float :=
  match product_name with
  | [] => (UNKNOWN, 0)
  | _ :: _ =>
    let normalized := _normalize_text product_name in
    match category_scores normalized with
    | [] => (UNKNOWN, 0)
    | first :: rest =>
      let '(best_category, confidence) := best_of first rest in
      if (confidence <? 0.3)%float then (UNKNOWN, confidence)
      else (best_category, confidence)
    end
  end.

(** [detect_batch] *)
Definition detect_batch (product_names : list pystr) : list (ProductCategory * float) :=
  map detect_category product_names.

End Detect.

(** The base class. *)
Definition CategoryDetector : Detector :=
  {| _calculate_category_score := base_score |}.

(** [SmartCategoryDetector._calculate_category_score], for the current
    contents of [self.learned_patterns]. *)
Definition smart_score (learned_patterns : dict (list pystr))
           (text : pystr) (category : ProductCategory) : float :=
  let score := base_score text category in
  let score :=
    if dict_in (KEnum category) learned_patterns
    then match dict_get (KEnum category) learned_patterns with
         | Some ps =>
           let learned_matches := count (fun pattern => contains (lower text) pattern) ps in
           (score + of_nat learned_matches * 0.1)%float
         | None => score
         end
    else score in
  Float.min score 1.

Definition SmartCategoryDetector (learned_patterns : dict (list pystr)) : Detector :=
  {| _calculate_category_score := smart_score learned_patterns |}.

End CategoryDetector.

(* ================================================================== *)
(** ** Exceptions and string formatting *)

Module Py.

(** The outcome of a call that may raise; [Raise msg] carries [str(e)]. *)
Inductive result (A : Type) : Type :=
| Ok (a : A)
| Raise (msg : pystr).
Arguments Ok {A} a.
Arguments Raise {A} msg.

Definition bind {A B} (m : result A) (k : A -> result B) : result B :=
  match m with
  | Ok a => k a
  | Raise msg => Raise msg
  end.

(** [str(z)] for an [int] *)
Definition str_of_int (z : Z) : pystr :=
  py (DecimalString.NilZero.string_of_int (Z.to_int z)).

Definition str_of_nat (n : nat) : pystr := str_of_int (Z.of_nat n).

(** [f"{x:.2f}"]: two decimals, ties to even. *)
Definition format_2f (x : float) : pystr :=
  let n := (Z.abs (Qnum x) * 100)%Z in
  let d := Z.pos (Qden x) in
  let q := (n / d)%Z in
  let r := (n mod d)%Z in
  let h := (if 2 * r <? d then q
            else if d <? 2 * r then q + 1
            else if Z.even q then q else q + 1)%Z in
  let frac := (h mod 100)%Z in
  (if (Qnum x <? 0)%Z then py "-" else [])
    ++ str_of_int (h / 100)%Z ++ py "."
    ++ (if (frac <? 10)%Z then py "0" else []) ++ str_of_int frac.

(** [d[k] = v] on a string-keyed dictionary in insertion order. *)
Fixpoint dict_set {A} (k : pystr) (v : A) (d : list (pystr * A)) : list (pystr * A) :=
  match d with
  | [] => [(k, v)]
  | (k', v') :: d' =>
    if str_eqb k k' then (k, v) :: d' else (k', v') :: dict_set k v d'
  end.

(** [d.get(k)] on a string-keyed dictionary. *)
Fixpoint str_get {A} (k : pystr) (d : list (pystr * A)) : option A :=
  match d with
  | [] => None
  | (k', v') :: d' => if str_eqb k k' then Some v' else str_get k d'
  end.

(** Truth value of an [Optional[str]]. *)
Definition nonempty (o : option pystr) : bool :=
  match o with
  | Some (_ :: _) => true
  | _ => false
  end.

End Py.
Export Py.

Declare Scope py_scope.
Delimit Scope py_scope with py.
Notation "x <- m ;; k" := (Py.bind m (fun x => k))
  (at level 61, m at next level, right associativity) : py_scope.

(* ================================================================== *)
(** ** [src/agents/okpd2_agent.py] *)

Module OKPD2ClassifierAgent.

(** A candidate [{"code": ..., "name": ..., "level": ...}]; the key ["level"]
    may be absent. *)
Record Candidate : Type := mkCandidate {
  c_code : pystr;
  c_name : pystr;
  c_level : option Z
}.

(** The dictionary passed as [research_result].  The pipeline passes
    [ResearchResult.__dict__], which has no key ["product_type"]. *)
Record ResearchDict (V : Type) : Type := mkResearchDict {
  d_manufacturer : option pystr;
  d_model : option pystr;
  d_specifications : list (pystr * V);
  d_product_type : option pystr
}.

(** [research_result.__dict__] *)
Definition to_dict {V} (r : ResearchResult V) : ResearchDict V :=
  {| d_manufacturer := manufacturer r;
     d_model := model r;
     d_specifications := r_specifications r;
     d_product_type := None |}.

(** [_get_code_level] *)
Definition _get_code_level (code : pystr) : Z :=
  let parts := split_on 46 code in
  if (3 <=? List.length parts)%nat && negb (str_eqb (nth 2 parts []) (py "00"))
  then if (List.length parts =? 4)%nat then 4 else 3
  else if (2 <=? List.length parts)%nat && negb (str_eqb (nth 1 parts []) (py "00"))
  then 2
  else 1.

(** [_get_parent_code] *)
Definition _get_parent_code (code : pystr) : option pystr :=
  let parts := split_on 46 code in
  if (1 <? List.length parts)%nat
  then if (List.length parts =? 4)%nat then Some (join (py ".") (firstn 3 parts))
       else if (List.length parts =? 3)%nat then Some (join (py ".") (firstn 2 parts))
       else if (List.length parts =? 2)%nat then Some (nth 0 parts [])
       else None
  else None.

(** [candidate.get("level", self._get_code_level(candidate["code"]))] *)
Definition candidate_level (candidate : Candidate) : Z :=
  match c_level candidate with
  | Some l => l
  | None => _get_code_level (c_code candidate)
  end.

Section Select.
Context {V : Type}.

(** [_score_candidate] *)
Definition _score_candidate (candidate : Candidate) (product : Product V)
           (category : ProductCategory) (research_result : option (ResearchDict V))
  : float :=
  let score : float := 0 in
  let level := candidate_level candidate in
  let score := (score + of_int level * 0.2)%float in
  let score :=
    if dict_in (KEnum category) PRODUCT_CATEGORIES
    then match dict_get (KStr (value category)) PRODUCT_CATEGORIES with
         | Some cfg =>
           if startswith (c_code candidate) (okpd2_prefix cfg)
           then (score + 0.3)%float else score
         | None => score
         end
    else score in
  let name_lower := lower (c_name candidate) in
  let product_lower := lower (original_name product) in
  let matches :=
    CategoryDetector.count
      (fun word => (3 <? List.length word)%nat && contains name_lower word)
      (split_ws product_lower) in
  let score := (score + Float.min (of_nat matches * 0.1) 0.3)%float in
  let score :=
    match research_result with
    | Some r =>
      match d_product_type r with
      | Some ((_ :: _) as product_type) =>
        if contains name_lower (lower product_type) then (score + 0.2)%float else score
      | _ => score
      end
    | None => score
    end in
  score.

(** [list.sort(key=lambda x: x[0], reverse=True)]: stable, descending. *)
Fixpoint insert_desc (x : float * Candidate) (l : list (float * Candidate))
  : list (float * Candidate) :=
  match l with
  | [] => [x]
  | y :: l' =>
    if (fst x <? fst y)%float then y :: insert_desc x l' else x :: y :: l'
  end.

Definition sort_desc (l : list (float * Candidate)) : list (float * Candidate) :=
  fold_right insert_desc [] l.

(** [_select_best_code] *)
Definition _select_best_code (candidates : list Candidate) (product : Product V)
           (category : ProductCategory) (research_result : option (ResearchDict V))
  : OKPD2Result :=
  match candidates with
  | [] =>
    if dict_in (KEnum category) PRODUCT_CATEGORIES
    then
      let default_code :=
        match dict_get (KStr (value category)) PRODUCT_CATEGORIES with
        | Some cfg => okpd2_prefix cfg
        | None => py "00.00.00"
        end in
      {| code := default_code;
         name := py "Default classification for " ++ value category;
         level := 2;
         parent_code := None;
         confidence := 0.3;
         alternative_codes := [] |}
    else
      {| code := py "00.00.00";
         name := py "Unclassified product";
         level := 1;
         parent_code := None;
         confidence := 0.1;
         alternative_codes := [] |}
  | _ :: _ =>
    let scored_candidates :=
      sort_desc
        (map (fun candidate =>
                (_score_candidate candidate product category research_result, candidate))
             candidates) in
    match scored_candidates with
    | [] => (* not reached: sorting keeps the length *)
      {| code := []; name := []; level := 0; parent_code := None;
         confidence := 0; alternative_codes := [] |}
    | (best_score, best_candidate) :: others =>
      {| code := c_code best_candidate;
         name := c_name best_candidate;
         level := candidate_level best_candidate;
         parent_code := _get_parent_code (c_code best_candidate);
         confidence := Float.min best_score 1;
         alternative_codes :=
           map (fun sc => {| alt_code := c_code (snd sc);
                             alt_name := c_name (snd sc);
                             alt_score := fst sc |})
               (firstn 3 others) |}
    end
  end.

(** [process]: candidate discovery ([_generate_search_terms] followed by
    [_search_okpd2_codes]) is the oracle [find_candidates]. *)
Definition process
           (find_candidates : Product V -> ProductCategory -> option (ResearchDict V)
                              -> result (list Candidate))
           (product : Product V) (category : ProductCategory)
           (research_result : option (ResearchDict V)) : result OKPD2Result :=
  (candidate_codes <- find_candidates product category research_result ;;
   Ok (_select_best_code candidate_codes product category research_result))%py.

End Select.

End OKPD2ClassifierAgent.

(* ================================================================== *)
(** ** [src/agents/validation_agent.py] *)

Module QualityValidationAgent.
Import OKPD2ClassifierAgent.

Record Criteria : Type := mkCriteria {
  required_specs : list pystr;
  optional_specs : list pystr;
  unit_options : list pystr;
  min_specs_count : nat
}.

(** [_load_validation_criteria]: a dictionary keyed by members of
    [ProductCategory]. *)
Definition validation_criteria : dict Criteria :=
  [ (KEnum PRESSURE_SENSOR,
     {| required_specs := map py ["measurement_range"; "accuracy_class"; "output_signal"];
        optional_specs := map py ["protection_degree"; "temperature_range"; "material"];
        unit_options := map py ["штука"; "шт"; "шт."];
        min_specs_count := 5 |});
    (KEnum STEEL_CIRCLE,
     {| required_specs := map py ["diameter_mm"; "steel_grade"; "standard"];
        optional_specs := map py ["length"; "hardness"; "surface_quality"];
        unit_options := map py ["тонна"; "т"; "тн"];
        min_specs_count := 4 |});
    (KEnum HAMMER,
     {| required_specs := map py ["striker_weight_kg"; "length_mm"; "type"];
        optional_specs := map py ["handle_material"; "standard"; "brand"];
        unit_options := map py ["штука"; "шт"; "шт."];
        min_specs_count := 4 |});
    (KEnum TIRE,
     {| required_specs := map py ["width"; "profile"; "diameter"; "season"];
        optional_specs := map py ["speed_index"; "load_index"; "brand"; "model"];
        unit_options := map py ["штука"; "шт"; "шт."];
        min_specs_count := 5 |}) ].

(** [_is_valid_okpd2_format]: [re.match] of
    [^\d{2}\.\d{2}\.\d{2}(\.\d{3})?$]; the final [$] also matches just before
    a newline that ends the string. *)
Definition okpd2_pattern : Re.regex :=
  Re.cat [Re.rep 2 Re.digit; Re.str "."; Re.rep 2 Re.digit; Re.str ".";
          Re.rep 2 Re.digit;
          Re.opt (Re.cat [Re.str "."; Re.rep 3 Re.digit]);
          Re.opt (Re.chr 10)].

Definition _is_valid_okpd2_format (code : pystr) : bool :=
  Re.fullmatch okpd2_pattern code.

(** [_validate_okpd2].  [okpd2_result] is [OKPD2Result.__dict__] or [None];
    the dictionary of a dataclass instance is never empty and holds every
    field, so no [get] falls back to its default. *)
Definition _validate_okpd2 (okpd2_result : option OKPD2Result)
           (category : ProductCategory) : list pystr :=
  match okpd2_result with
  | None => [py "Отсутствует код ОКПД2"]
  | Some r =>
    let code := code r in
    let issues := [] in
    let issues :=
      if negb (_is_valid_okpd2_format code)
      then issues ++ [py "Неверный формат кода ОКПД2: " ++ code]
      else issues in
    let level := level r in
    let issues :=
      if (level <? 3)%Z
      then issues ++ [py "Недостаточный уровень детализации ОКПД2 (уровень "
                        ++ str_of_int level ++ py ")"]
      else issues in
    let confidence := confidence r in
    let issues :=
      if (confidence <? 0.5)%float
      then issues ++ [py "Низкая уверенность в коде ОКПД2 ("
                        ++ format_2f confidence ++ py ")"]
      else issues in
    let issues :=
      if dict_in (KEnum category) PRODUCT_CATEGORIES
      then match dict_get (KStr (value category)) PRODUCT_CATEGORIES with
           | Some cfg =>
             if negb (startswith code (okpd2_prefix cfg))
             then issues ++ [py "Код ОКПД2 " ++ code
                               ++ py " не соответствует категории " ++ value category]
             else issues
           | None => issues
           end
      else issues in
    issues
  end.

(** [[u.lower() for u in valid_units]] membership of [unit.lower()] *)
Definition unit_is_valid (unit : pystr) (valid_units : list pystr) : bool :=
  str_in (lower unit) (map lower valid_units).

Section Rules.
Context {V : Type} {PV : PyValue V}.

Definition placeholder_patterns : list pystr :=
  map py ["н/д"; "n/a"; "неизвестно"; "unknown"; "-"; ""].

(** [_validate_specifications] *)
Definition _validate_specifications (research_result : option (ResearchDict V))
           (category : ProductCategory) (product : Product V) : list pystr :=
  match research_result with
  | None => [py "Отсутствуют технические характеристики"]
  | Some r =>
    let specs := d_specifications r in
    if negb (dict_in (KEnum category) validation_criteria)
    then [py "Нет критериев валидации для данной категории"]
    else
      match dict_get (KEnum category) validation_criteria with
      | None => [py "Нет критериев валидации для данной категории"]
      | Some criteria =>
        let issues := [] in
        let missing_required :=
          filter (fun req_spec =>
                    match str_get req_spec specs with
                    | None => true
                    | Some v => negb (truthy v)
                    end)
                 (required_specs criteria) in
        let issues :=
          match missing_required with
          | [] => issues
          | _ :: _ =>
            issues ++ [py "Отсутствуют обязательные характеристики: "
                         ++ join (py ", ") missing_required]
          end in
        let min_count := min_specs_count criteria in
        let actual_count := List.length (filter (fun kv => truthy (snd kv)) specs) in
        let issues :=
          if (actual_count <? min_count)%nat
          then issues ++ [py "Недостаточно характеристик (" ++ str_of_nat actual_count
                            ++ py " из минимум " ++ str_of_nat min_count ++ py ")"]
          else issues in
        let placeholders_found :=
          map fst
              (filter (fun kv => str_in (lower (py_str (snd kv))) placeholder_patterns)
                      specs) in
        let issues :=
          match placeholders_found with
          | [] => issues
          | _ :: _ =>
            issues ++ [py "Найдены незаполненные характеристики: "
                         ++ join (py ", ") placeholders_found]
          end in
        issues
      end
  end.

(** [_validate_unit] *)
Definition _validate_unit (product : Product V) (category : ProductCategory)
  : option pystr :=
  if negb (dict_in (KEnum category) validation_criteria) then None
  else
    match dict_get (KEnum category) validation_criteria with
    | None => None
    | Some criteria =>
      let valid_units := unit_options criteria in
      if negb (unit_is_valid (original_unit product) valid_units)
      then Some (py "Единица измерения '" ++ original_unit product
                   ++ py "' не соответствует категории " ++ value category
                   ++ py ". Ожидается: " ++ join (py ", ") valid_units)
      else None
    end.

(** The patterns of [_check_variability], searched with [re.IGNORECASE]. *)
Definition color_patterns : list Re.regex :=
  [ Re.cat [Re.istr "артикул"; Re.Star Re.dot; Re.istr "цвет"];
    Re.cat [Re.istr "article"; Re.Star Re.dot; Re.istr "color"];
    Re.cat [Re.istr "код"; Re.Star Re.dot; Re.istr "цвет"];
    Re.cat [Re.istr "различ"; Re.Star Re.dot; Re.istr "цвет"] ].

(** [_check_variability] *)
Definition _check_variability (product : Product V)
           (research_result : option (ResearchDict V)) : list pystr :=
  let issues :=
    if existsb (fun pattern => Re.search pattern (original_name product)) color_patterns
    then [py "Обнаружена вариативность по цвету"]
    else [] in
  match research_result with
  | None => issues
  | Some r =>
    let specs := d_specifications r in
    let size_fields := map py ["diameter"; "width"; "length"; "size"] in
    issues ++
      flat_map
        (fun field =>
           let is_range :=
             match str_get field specs with
             | None => false  (* the default [""] holds no separator *)
             | Some v =>
               match as_str v with
               | Some value =>
                 existsb (fun sep => contains value sep) (map py ["-"; "до"; "от"])
               | None => false
               end
             end in
           if is_range
           then [py "Обнаружена вариативность по параметру: " ++ field]
           else [])
        size_fields
  end.

(** [_apply_business_rules] *)
Definition _apply_business_rules (product : Product V)
           (research_result : option (ResearchDict V))
           (okpd2_result : option OKPD2Result) : list pystr :=
  let violations := [] in
  let violations :=
    match research_result with
    | Some r =>
      let manufacturer := d_manufacturer r in
      if negb (nonempty manufacturer)
         || match manufacturer with
            | Some m => str_in (lower m) (map py ["unknown"; "неизвестно"])
            | None => false
            end
      then violations ++ [py "Невозможно определить производителя"]
      else violations
    | None => violations
    end in
  let violations :=
    match research_result with
    | Some r =>
      match d_model r with
      | Some ((_ :: _) as model) =>
        if (List.length model <? 3)%nat
        then violations ++ [py "Модель/артикул слишком короткий"]
        else violations
      | _ => violations
      end
    | None => violations
    end in
  let generic_terms := map py ["прочие"; "другие"; "разные"; "various"; "other"; "misc"] in
  let name_lower := lower (original_name product) in
  let violations :=
    if existsb (fun term => contains name_lower term) generic_terms
    then violations ++ [py "Слишком общее описание продукта"]
    else violations in
  violations.

(** [_determine_rejection_reason]; [issues[0]] raises on an empty list. *)
Definition _determine_rejection_reason (issues : list pystr) (product : Product V)
  : result pystr :=
  if existsb (fun issue => contains issue (py "ОКПД2")) issues
  then Ok (py "Не подлежит нормализации: отсутствует код ОКПД2")
  else if existsb (fun issue => contains (lower issue) (py "производител")) issues
  then Ok (py "Не подлежит нормализации: невозможно определить производителя")
  else if existsb (fun issue => contains issue (py "вариативность")) issues
  then
    if contains (join (py " ") issues) (py "цвет")
    then Ok (py "Не подлежит нормализации: артикул не соответствует цвету")
    else if contains (join (py " ") issues) (py "диаметр")
            || contains (join (py " ") issues) (py "размер")
    then Ok (py "Не подлежит нормализации: вариативность по размеру")
    else Ok (py "Не подлежит нормализации: вариативность характеристик")
  else if existsb (fun issue => contains issue (py "характеристик")) issues
  then Ok (py "Не подлежит нормализации: неполные технические характеристики")
  else
    match issues with
    | [] => Raise (py "list index out of range")
    | first :: _ => Ok (py "Не подлежит нормализации: " ++ first)
    end.

(** The oracle behind [_call_llm] in [_generate_suggestions]: the reply to the
    prompt built from the product name and the issues, or an exception. *)
Variable call_llm : pystr -> list pystr -> result pystr.

(** [_generate_suggestions] *)
Definition _generate_suggestions (product : Product V) (issues : list pystr)
           (research_result : option (ResearchDict V)) : list pystr :=
  match call_llm (original_name product) issues with
  | Ok response =>
    firstn 3
      (map strip
           (filter (fun s => match strip s with [] => false | _ :: _ => true end)
                   (split_on 10 response)))
  | Raise _ =>
    map py ["Уточнить информацию у поставщика"; "Проверить каталог производителя"]
  end.

(** [process] *)
Definition process (product : Product V)
           (research_result : option (ResearchDict V))
           (okpd2_result : option OKPD2Result)
           (category : ProductCategory) : result ValidationResult :=
  let issues := [] in
  let issues :=
    if category_eqb category UNKNOWN
    then issues ++ [py "Не удалось определить категорию продукта"]
    else issues in
  let okpd2_issues := _validate_okpd2 okpd2_result category in
  let issues := issues ++ okpd2_issues in
  let spec_issues := _validate_specifications research_result category product in
  let issues := issues ++ spec_issues in
  let unit_issue := _validate_unit product category in
  let issues :=
    match unit_issue with
    | Some i => issues ++ [i]
    | None => issues
    end in
  let variability_issues := _check_variability product research_result in
  let issues := issues ++ variability_issues in
  let rule_violations := _apply_business_rules product research_result okpd2_result in
  let issues := issues ++ rule_violations in
  let is_valid := (List.length issues =? 0)%nat in
  (rejection_reason <-
     (if negb is_valid
      then (r <- _determine_rejection_reason issues product ;; Ok (Some r))
      else Ok None) ;;
   let suggestions :=
     if negb is_valid
     then _generate_suggestions product issues research_result
     else [] in
   Ok {| is_valid := is_valid;
         issues := issues;
         rejection_reason := rejection_reason;
         suggestions := suggestions |})%py.

End Rules.

End QualityValidationAgent.

(* ================================================================== *)
(** ** [src/processors/mtr_processor.py] *)

Module MTRProcessor.
Import OKPD2ClassifierAgent.

(** Attribute assignments on a [Product]. *)
Section Setters.
Context {V : Type}.

Definition set_category (p : Product V) (c : ProductCategory) (conf : float) : Product V :=
  {| internal_code := internal_code p; original_name := original_name p;
     original_unit := original_unit p; category_name := category_name p;
     category := c; normalized_unit := normalized_unit p;
     okpd2_code := okpd2_code p; comment := comment p;
     specifications := specifications p; status := status p;
     error_message := error_message p; confidence_score := conf;
     excel_row := excel_row p |}.

Definition set_status (p : Product V) (s : ProcessingStatus) : Product V :=
  {| internal_code := internal_code p; original_name := original_name p;
     original_unit := original_unit p; category_name := category_name p;
     category := category p; normalized_unit := normalized_unit p;
     okpd2_code := okpd2_code p; comment := comment p;
     specifications := specifications p; status := s;
     error_message := error_message p; confidence_score := confidence_score p;
     excel_row := excel_row p |}.

Definition set_error_message (p : Product V) (m : option pystr) : Product V :=
  {| internal_code := internal_code p; original_name := original_name p;
     original_unit := original_unit p; category_name := category_name p;
     category := category p; normalized_unit := normalized_unit p;
     okpd2_code := okpd2_code p; comment := comment p;
     specifications := specifications p; status := status p;
     error_message := m; confidence_score := confidence_score p;
     excel_row := excel_row p |}.

Definition set_specifications (p : Product V) (s : list (pystr * V)) : Product V :=
  {| internal_code := internal_code p; original_name := original_name p;
     original_unit := original_unit p; category_name := category_name p;
     category := category p; normalized_unit := normalized_unit p;
     okpd2_code := okpd2_code p; comment := comment p;
     specifications := s; status := status p;
     error_message := error_message p; confidence_score := confidence_score p;
     excel_row := excel_row p |}.

Definition set_okpd2_code (p : Product V) (c : option pystr) : Product V :=
  {| internal_code := internal_code p; original_name := original_name p;
     original_unit := original_unit p; category_name := category_name p;
     category := category p; normalized_unit := normalized_unit p;
     okpd2_code := c; comment := comment p;
     specifications := specifications p; status := status p;
     error_message := error_message p; confidence_score := confidence_score p;
     excel_row := excel_row p |}.

Definition set_normalized_unit (p : Product V) (u : option pystr) : Product V :=
  {| internal_code := internal_code p; original_name := original_name p;
     original_unit := original_unit p; category_name := category_name p;
     category := category p; normalized_unit := u;
     okpd2_code := okpd2_code p; comment := comment p;
     specifications := specifications p; status := status p;
     error_message := error_message p; confidence_score := confidence_score p;
     excel_row := excel_row p |}.

Definition set_comment (p : Product V) (c : option pystr) : Product V :=
  {| internal_code := internal_code p; original_name := original_name p;
     original_unit := original_unit p; category_name := category_name p;
     category := category p; normalized_unit := normalized_unit p;
     okpd2_code := okpd2_code p; comment := c;
     specifications := specifications p; status := status p;
     error_message := error_message p; confidence_score := confidence_score p;
     excel_row := excel_row p |}.

End Setters.

(** The dictionary [unit_keys] of [_get_normalized_unit]. *)
Definition unit_keys : dict pystr :=
  [ (KEnum PRESSURE_SENSOR, py "датчик");
    (KEnum STEEL_CIRCLE, py "круг");
    (KEnum HAMMER, py "молоток");
    (KEnum TIRE, py "шина") ].

(** [_get_normalized_unit] *)
Definition _get_normalized_unit {V} (product : Product V) (category : ProductCategory)
  : pystr :=
  match dict_get (KEnum category) unit_keys with
  | Some ((_ :: _) as unit_key) =>
    if dict_in (KStr unit_key) unit_validation
    then match dict_get (KStr unit_key) unit_validation with
         | Some valid_units =>
           if QualityValidationAgent.unit_is_valid (original_unit product) valid_units
           then match valid_units with
                | standard :: _ => standard
                | [] => original_unit product (* not reached *)
                end
           else original_unit product
         | None => original_unit product
         end
    else original_unit product
  | _ => original_unit product
  end.

(** [range(0, stop, step)] *)
Definition range_step (stop step : nat) : list nat :=
  map (fun k => k * step)%nat (seq 0 ((stop + step - 1) / step)).

(** An insertion-ordered dictionary from categories to product lists, and
    [d[k].append(p)] after [if k not in d: d[k] = []]. *)
Fixpoint group_append {A} (k : ProductCategory) (p : A)
         (d : list (ProductCategory * list A)) : list (ProductCategory * list A) :=
  match d with
  | [] => [(k, [p])]
  | (k', ps) :: d' =>
    if category_eqb k k' then (k', ps ++ [p]) :: d'
    else (k', ps) :: group_append k p d'
  end.

Section Pipeline.
Context {V : Type} {PV : PyValue V}.

(** The contents of [learned_patterns] of the [SmartCategoryDetector] that
    the processor owns. *)
Variable learned_patterns : dict (list pystr).

(** [ProductResearchAgent.process]: an oracle. *)
Variable research : Product V -> ProductCategory -> result (option (ResearchResult V)).

(** Candidate discovery of the [OKPD2ClassifierAgent]: an oracle. *)
Variable find_candidates :
  Product V -> ProductCategory -> option (ResearchDict V) -> result (list Candidate).

(** The LLM behind the suggestions of the [QualityValidationAgent]. *)
Variable call_llm : pystr -> list pystr -> result pystr.

(** [_categorize_products] *)
Definition categorize_one (product : Product V) : Product V :=
  if category_eqb (category product) UNKNOWN
  then
    let '(category, confidence) :=
      @CategoryDetector.detect_category
        (CategoryDetector.SmartCategoryDetector learned_patterns)
        (original_name product) in
    set_category product category confidence
  else product.

Definition _categorize_products (products : list (Product V))
  : list (ProductCategory * list (Product V)) :=
  fold_left
    (fun categorized product =>
       let product := categorize_one product in
       group_append (category product) product categorized)
    products [].

(** [_create_batches] *)
Definition _create_batches (products : list (Product V)) (category : ProductCategory)
  : list (ProcessingBatch V) :=
  map (fun i =>
         let batch_products := firstn batch_size (skipn i products) in
         {| batch_id := (value category, i / batch_size)%nat;
            products := batch_products;
            b_category := category;
            total_count := List.length batch_products;
            processed_count := 0;
            failed_count := 0 |})
      (range_step (List.length products) batch_size).

(** The three stages and the update of the product, inside the [try]. *)
Definition run_stages (product : Product V) (category : ProductCategory)
  : result (Product V) :=
  (research_result <- research product category ;;
   let research_dict := option_map to_dict research_result in
   okpd2_result <- OKPD2ClassifierAgent.process find_candidates
                     product category research_dict ;;
   validation_result <- QualityValidationAgent.process call_llm
                          product research_dict (Some okpd2_result) category ;;
   let product :=
     match research_result with
     | Some r =>
       let specs := r_specifications r in
       let specs :=
         match manufacturer r with
         | Some ((_ :: _) as m) => dict_set (py "manufacturer") (of_str m) specs
         | _ => specs
         end in
       let specs :=
         match model r with
         | Some ((_ :: _) as m) => dict_set (py "model") (of_str m) specs
         | _ => specs
         end in
       set_specifications product specs
     | None => product
     end in
   let product := set_okpd2_code product (Some (code okpd2_result)) in
   let product :=
     set_normalized_unit product (Some (_get_normalized_unit product category)) in
   let product :=
     if is_valid validation_result
     then set_comment (set_status product COMPLETED) (Some (py "Успешно нормализовано"))
     else set_error_message
            (set_comment (set_status product REJECTED)
                         (rejection_reason validation_result))
            (Some (join (py "; ") (issues validation_result))) in
   Ok product)%py.

(** [_process_single_product]: every exception is caught and turns the
    product into a [FAILED] one, so the coroutine itself never raises. *)
Definition _process_single_product (product : Product V) (category : ProductCategory)
  : result (Product V) :=
  let product := set_status product PROCESSING in
  match run_stages product category with
  | Ok product => Ok product
  | Raise e => Ok (set_error_message (set_status product FAILED) (Some e))
  end.

(** [_process_batch].  [asyncio.gather] with [return_exceptions=True]
    returns the outcome of every task in the order of [batch.products],
    whatever the order in which the tasks ran under the semaphore. *)
Definition _process_batch (batch : ProcessingBatch V)
  : ProcessingBatch V * list (Product V) :=
  let results :=
    map (fun product => _process_single_product product (b_category batch))
        (products batch) in
  fold_left
    (fun (acc : ProcessingBatch V * list (Product V)) pr =>
       let '(batch, processed_products) := acc in
       let '(product, result) := pr in
       match result with
       | Raise e =>
         let product := set_error_message (set_status product FAILED) (Some e) in
         ({| batch_id := batch_id batch; products := products batch;
             b_category := b_category batch; total_count := total_count batch;
             processed_count := processed_count batch;
             failed_count := failed_count batch + 1 |},
          processed_products ++ [product])
       | Ok product =>
         ({| batch_id := batch_id batch; products := products batch;
             b_category := b_category batch; total_count := total_count batch;
             processed_count := processed_count batch + 1;
             failed_count := failed_count batch |},
          processed_products ++ [product])
       end)
    (combine (products batch) results)
    (batch, []).

(** [process_file], from the parsed product list to [all_results]; parsing
    the workbook and writing the output files surround this part. *)
Definition process_file (products : list (Product V)) : list (Product V) :=
  let categorized := _categorize_products products in
  flat_map
    (fun entry =>
       let '(category, category_products) := entry in
       let batches := _create_batches category_products category in
       flat_map (fun batch => snd (_process_batch batch)) batches)
    categorized.

(** The counters stored in [self.stats] at the end of [process_file]. *)
Definition count_status (s : ProcessingStatus) (all_results : list (Product V)) : nat :=
  CategoryDetector.count
    (fun p => match status p, s with
              | COMPLETED, COMPLETED | REJECTED, REJECTED | FAILED, FAILED
              | PENDING, PENDING | PROCESSING, PROCESSING => true
              | _, _ => false
              end)
    all_results.

End Pipeline.

End MTRProcessor.

(* ================================================================== *)
(** ** JSON scalars as specification values *)

Module Json.

(** The scalar values of a parsed JSON document. *)
Inductive pyval : Type :=
| PNone
| PBool (b : bool)
| PInt (z : Z)
| PStr (s : pystr).

#[export] Instance pyval_PyValue : PyValue pyval := {
  truthy v :=
    match v with
    | PNone => false
    | PBool b => b
    | PInt z => negb (z =? 0)%Z
    | PStr s => match s with [] => false | _ :: _ => true end
    end;
  py_str v :=
    match v with
    | PNone => py "None"
    | PBool true => py "True"
    | PBool false => py "False"
    | PInt z => str_of_int z
    | PStr s => s
    end;
  as_str v :=
    match v with
    | PStr s => Some s
    | _ => None
    end;
  of_str := PStr
}.

End Json.

(* ================================================================== *)
(** ** [SmartCategoryDetector.learn_from_correction] *)

Module Learner.
Import CategoryDetector.

(** An entry of [self.misclassified]. *)
Record Correction : Type := mkCorrection {
  m_product : pystr;
  m_predicted : ProductCategory;
  m_correct : ProductCategory
}.

(** The two attributes that [learn_from_correction] updates. *)
Record SmartState : Type := mkSmartState {
  s_learned_patterns : dict (list pystr);
  s_misclassified : list Correction
}.

(** The state that [__init__] builds. *)
Definition fresh : SmartState :=
  {| s_learned_patterns := []; s_misclassified := [] |}.

(** [if k not in d: d[k] = []] followed by appending [ps] to [d[k]], one
    element after the other. *)
Fixpoint dict_extend (k : pykey) (ps : list pystr) (d : dict (list pystr))
  : dict (list pystr) :=
  match d with
  | [] => [(k, ps)]
  | (k', v) :: d' =>
    if key_eqb k k' then (k', v ++ ps) :: d' else (k', v) :: dict_extend k ps d'
  end.

(** The strings [" ".join(words[i:j])] in the order of the two loops:
    [i] over [range(len(words))], [j] over
    [range(i+1, min(i+4, len(words)+1))]. *)
Definition ngrams (words : list pystr) : list pystr :=
  flat_map
    (fun i =>
       map (fun j => join (py " ") (firstn (j - i) (skipn i words)))
           (seq (i + 1) (Nat.min (i + 4) (List.length words + 1) - (i + 1))))
    (seq 0 (List.length words)).

(** [learn_from_correction] *)
Definition learn_from_correction (st : SmartState) (product_name : pystr)
           (predicted_category correct_category : ProductCategory) : SmartState :=
  let misclassified :=
    s_misclassified st
      ++ [ {| m_product := product_name; m_predicted := predicted_category;
              m_correct := correct_category |} ] in
  if negb (category_eqb correct_category UNKNOWN)
  then
    let words := split_ws (lower product_name) in
    {| s_learned_patterns :=
         dict_extend (KEnum correct_category)
                     (filter (fun pattern => (3 <? List.length pattern)%nat)
                             (ngrams words))
                     (s_learned_patterns st);
       s_misclassified := misclassified |}
  else
    {| s_learned_patterns := s_learned_patterns st;
       s_misclassified := misclassified |}.

End Learner.

(* ================================================================== *)
(** ** Counting in a dictionary *)

Module Counting.

(** [d[k] += 1], for a key that is first given the count 0 when it is
    missing; also the count of one more element in a [Counter]. *)
Fixpoint tally {K} (eqb : K -> K -> bool) (k : K) (d : list (K * nat))
  : list (K * nat) :=
  match d with
  | [] => [(k, 1%nat)]
  | (k', n) :: d' =>
    if eqb k k' then (k', (n + 1)%nat) :: d' else (k', n) :: tally eqb k d'
  end.

End Counting.

(* ================================================================== *)
(** ** [CategoryDetector.get_category_distribution] and
       [CategoryDetector.suggest_category_keywords] *)

Module DetectorReports.
Import CategoryDetector Counting.

(** [str(k)] for a key of a dictionary. *)
Definition key_str (k : pykey) : pystr :=
  match k with
  | KStr s => s
  | KEnum c => py "ProductCategory." ++ value c
  end.

Section Reports.
Context {D : Detector}.

(** [get_category_distribution]: a [Counter], in the order in which the
    categories are first met. *)
Definition get_category_distribution (products : list pystr)
  : list (ProductCategory * nat) :=
  let categories := map (fun p => fst (detect_category p)) products in
  fold_left (fun counter c => tally category_eqb c counter) categories [].

(** [suggest_category_keywords] *)
Definition suggest_category_keywords (product_name : pystr)
           (category : ProductCategory) : list pystr :=
  if category_eqb category UNKNOWN
  then
    flat_map
      (fun entry =>
         let '(cat, config) := entry in
         flat_map
           (fun keyword =>
              if contains (lower product_name) (lower keyword)
              then [py "Contains '" ++ keyword ++ py "' - might be " ++ key_str cat]
              else [])
           (keywords config))
      PRODUCT_CATEGORIES
  else [].

End Reports.

End DetectorReports.

(* ================================================================== *)
(** ** [OKPD2ClassifierAgent._search_okpd2_codes] *)

Module OKPD2Search.
Import OKPD2ClassifierAgent.

(** The table [mock_codes] of [_scrape_classifikators], in the order of its
    keys. *)
Definition mock_codes : list (pystr * list Candidate) :=
  [ (py "датчик",
     [ {| c_code := py "26.51.52.110"; c_name := py "Датчики давления";
          c_level := Some 4%Z |};
       {| c_code := py "26.51.52"; c_name := py "Приборы для измерения давления";
          c_level := Some 3%Z |} ]);
    (py "круг",
     [ {| c_code := py "24.10.75.111"; c_name := py "Прокат круглый";
          c_level := Some 4%Z |};
       {| c_code := py "24.10.75"; c_name := py "Прокат стальной";
          c_level := Some 3%Z |} ]);
    (py "молоток",
     [ {| c_code := py "25.73.30.123"; c_name := py "Молотки слесарные";
          c_level := Some 4%Z |};
       {| c_code := py "25.73.30"; c_name := py "Инструмент ручной";
          c_level := Some 3%Z |} ]);
    (py "шина",
     [ {| c_code := py "22.11.11.000"; c_name := py "Шины для легковых автомобилей";
          c_level := Some 4%Z |};
       {| c_code := py "22.11.11"; c_name := py "Шины и покрышки";
          c_level := Some 3%Z |} ]) ].

(** [_scrape_classifikators]: the codes of the first key that occurs in the
    search term in lower case. *)
Definition _scrape_classifikators (search_term : pystr) : list Candidate :=
  match find (fun entry => contains (lower search_term) (fst entry)) mock_codes with
  | Some (_, codes) => codes
  | None => []
  end.

(** The loop that removes the candidates whose code was seen before. *)
Fixpoint unique_from (seen_codes : list pystr) (all_candidates : list Candidate)
  : list Candidate :=
  match all_candidates with
  | [] => []
  | candidate :: rest =>
    if str_in (c_code candidate) seen_codes
    then unique_from seen_codes rest
    else candidate :: unique_from (c_code candidate :: seen_codes) rest
  end.

Section Search.

(** The oracle behind [_get_llm_suggestions]: the candidates that
    [json.loads] reads from the reply of the LLM to the prompt built from
    the search terms, or an exception of the call or of the parser. *)
Variable llm_suggestions : list pystr -> result (list Candidate).

(** [_get_llm_suggestions] *)
Definition _get_llm_suggestions (search_terms : list pystr) : list Candidate :=
  match llm_suggestions search_terms with
  | Ok suggestions => suggestions
  | Raise _ => []
  end.

(** One turn of the loop over the search terms, on [self.okpd2_cache] and
    [all_candidates]. *)
Definition search_term_step (state : list (pystr * list Candidate) * list Candidate)
           (term : pystr) : list (pystr * list Candidate) * list Candidate :=
  let '(okpd2_cache, all_candidates) := state in
  match str_get term okpd2_cache with
  | Some cached => (okpd2_cache, all_candidates ++ cached)
  | None =>
    let candidates := _scrape_classifikators term in
    (dict_set term candidates okpd2_cache, all_candidates ++ candidates)
  end.

(** [_search_okpd2_codes], from the cache before the call to the cache
    after it and the candidates returned. *)
Definition _search_okpd2_codes (okpd2_cache : list (pystr * list Candidate))
           (search_terms : list pystr)
  : list (pystr * list Candidate) * list Candidate :=
  let '(okpd2_cache, all_candidates) :=
    fold_left search_term_step search_terms (okpd2_cache, []) in
  let all_candidates := all_candidates ++ _get_llm_suggestions search_terms in
  (okpd2_cache, unique_from [] all_candidates).

End Search.

End OKPD2Search.

(* ================================================================== *)
(** ** [MTRProcessor._generate_summary] *)

Module ProcessingSummary.
Import MTRProcessor Counting.

(** An entry of [summary["processing_errors"]]. *)
Record ProcessingError : Type := mkProcessingError {
  product_code : pystr;
  error_product_name : pystr;
  error : option pystr
}.

(** The summary; the wall-clock entry [processing_date] is left out, and
    the entries of [summary["statistics"]] are fields of the record. *)
Record Summary : Type := mkSummary {
  total_products : nat;
  completed : nat;
  rejected : nat;
  failed : nat;
  pending : nat;
  category_distribution : list (pystr * nat);
  rejection_reason_counts : list (pystr * nat);
  processing_errors : list ProcessingError
}.

Section Summary.
Context {V : Type}.

(** [_generate_summary] *)
Definition _generate_summary (products : list (Product V)) : Summary :=
  {| total_products := List.length products;
     completed := count_status COMPLETED products;
     rejected := count_status REJECTED products;
     failed := count_status FAILED products;
     pending := count_status PENDING products;
     category_distribution :=
       fold_left
         (fun distribution product =>
            tally str_eqb (value (category product)) distribution)
         products [];
     rejection_reason_counts :=
       fold_left
         (fun reasons product =>
            match status product, comment product with
            | REJECTED, Some ((_ :: _) as reason) => tally str_eqb reason reasons
            | _, _ => reasons
            end)
         products [];
     processing_errors :=
       map (fun product =>
              {| product_code := internal_code product;
                 error_product_name := original_name product;
                 error := error_message product |})
           (filter (fun product =>
                      match status product with FAILED => true | _ => false end)
                   products) |}.

End Summary.

End ProcessingSummary.

(* ================================================================== *)
(** * Properties *)

(** The literals are compared as written, or evaluated by [vm_compute]. *)
#[global] Opaque py.

(** ** Arithmetic of the float model *)

Module FloatFacts.

Lemma add_spec (x y : float) : (x + y)%float == x + y.
Proof. apply Qred_correct. Qed.

Lemma mul_spec (x y : float) : (x * y)%float == x * y.
Proof. apply Qred_correct. Qed.

#[export] Instance add_Proper : Proper (Qeq ==> Qeq ==> Qeq) Float.add.
Proof.
  intros a b H c d H'. unfold Float.add. rewrite !Qred_correct, H, H'. reflexivity.
Qed.

#[export] Instance mul_Proper : Proper (Qeq ==> Qeq ==> Qeq) Float.mul.
Proof.
  intros a b H c d H'. unfold Float.mul. rewrite !Qred_correct, H, H'. reflexivity.
Qed.

Lemma ltb_lt (x y : float) : (x <? y)%float = true <-> x < y.
Proof.
  unfold Float.ltb. rewrite negb_true_iff. split; intro H.
  - apply Qnot_le_lt. intro L. apply Qle_bool_iff in L. congruence.
  - destruct (Qle_bool y x) eqn:E; [|reflexivity].
    apply Qle_bool_iff in E. exfalso. apply (Qlt_not_le _ _ H E).
Qed.

Lemma ltb_ge (x y : float) : (x <? y)%float = false <-> y <= x.
Proof.
  unfold Float.ltb. rewrite negb_false_iff. apply Qle_bool_iff.
Qed.

Lemma min_spec (x y : float) : Float.min x y == Qmin x y.
Proof.
  unfold Float.min. destruct (y <? x)%float eqn:E.
  - apply ltb_lt in E. symmetry. apply Q.min_r. apply Qlt_le_weak, E.
  - apply ltb_ge in E. symmetry. apply Q.min_l. exact E.
Qed.

#[export] Instance min_Proper : Proper (Qeq ==> Qeq ==> Qeq) Float.min.
Proof.
  intros a b H c d H'. rewrite !min_spec, H, H'. reflexivity.
Qed.

Lemma min_glb (x y z : float) : z <= x -> z <= y -> z <= Float.min x y.
Proof. intros. rewrite min_spec. apply Q.min_glb; assumption. Qed.

Lemma of_nat_nonneg (n : nat) : 0 <= of_nat n.
Proof.
  unfold of_nat. change 0 with (inject_Z 0). rewrite <- Zle_Qle. lia.
Qed.

Lemma of_nat_le (m n : nat) : (m <= n)%nat -> of_nat m <= of_nat n.
Proof. intro H. unfold of_nat. rewrite <- Zle_Qle. lia. Qed.

End FloatFacts.

(** ** The membership test [category in PRODUCT_CATEGORIES]

    [PRODUCT_CATEGORIES] is keyed by strings.  The detector probes it with
    [category.value]; the OKPD2 agent and the validation agent probe it with
    the enumeration member itself. *)

Module EnumKeys.

Lemma enum_key_never_str (c : ProductCategory) (s : pystr) :
  key_eqb (KEnum c) (KStr s) = false.
Proof. reflexivity. Qed.

Lemma enum_not_in_PRODUCT_CATEGORIES (c : ProductCategory) :
  dict_in (KEnum c) PRODUCT_CATEGORIES = false.
Proof. reflexivity. Qed.

Lemma value_in_PRODUCT_CATEGORIES (c : ProductCategory) :
  dict_in (KStr (value c)) PRODUCT_CATEGORIES = negb (category_eqb c UNKNOWN).
Proof. destruct c; vm_compute; reflexivity. Qed.

(** The prefix a category is configured with. *)
Definition expected_prefix (c : ProductCategory) : option pystr :=
  option_map okpd2_prefix (dict_get (KStr (value c)) PRODUCT_CATEGORIES).

Lemma expected_prefix_known (c : ProductCategory) :
  c <> UNKNOWN -> exists p, expected_prefix c = Some p.
Proof.
  destruct c; intro H; try (eexists; vm_compute; reflexivity).
  contradiction H; reflexivity.
Qed.

End EnumKeys.

(** ** The OKPD2 selector *)

Module Selector.
Import OKPD2ClassifierAgent.

(** The level of a code in the words of the specification: four segments
    give 4, three segments with a third segment other than "00" give 3, two
    segments with a second segment other than "00" give 2, anything else 1. *)
Definition spec_level (code : pystr) : Z :=
  let parts := split_on 46 code in
  if (List.length parts =? 4)%nat then 4
  else if (List.length parts =? 3)%nat && negb (str_eqb (nth 2 parts []) (py "00")) then 3
  else if (List.length parts =? 2)%nat && negb (str_eqb (nth 1 parts []) (py "00")) then 2
  else 1.

(** The number of words of the product name, longer than three characters,
    that occur in the candidate name, both in lower case. *)
Definition word_matches {V} (candidate : Candidate) (product : Product V) : nat :=
  CategoryDetector.count
    (fun word => (3 <? List.length word)%nat && contains (lower (c_name candidate)) word)
    (split_ws (lower (original_name product))).

(** The research result supplies a product type that occurs in the
    candidate name. *)
Definition type_matches {V} (candidate : Candidate)
           (research_result : option (ResearchDict V)) : bool :=
  match research_result with
  | Some r =>
    match d_product_type r with
    | Some ((_ :: _) as t) => contains (lower (c_name candidate)) (lower t)
    | _ => false
    end
  | None => false
  end.

(** The score in the words of the specification. *)
Definition spec_score {V} (candidate : Candidate) (product : Product V)
           (category : ProductCategory) (research_result : option (ResearchDict V)) : Q :=
  inject_Z (match c_level candidate with
            | Some l => l
            | None => spec_level (c_code candidate)
            end) * 0.2
  + (match EnumKeys.expected_prefix category with
     | Some p => if startswith (c_code candidate) p then 0.3 else 0
     | None => 0
     end)
  + Qmin 0.3 (0.1 * inject_Z (Z.of_nat (word_matches candidate product)))
  + (if type_matches candidate research_result then 0.2 else 0).

Section Facts.
Context {V : Type}.

(** C1.  With an empty candidate list the selector returns the code
    "00.00.00" at level 1 with confidence 0.1 for every category, the known
    ones included: the default prefix of the category at level 2 with
    confidence 0.3 is never returned. *)
Theorem C1_select_empty_ignores_category
        (product : Product V) (category : ProductCategory)
        (research_result : option (ResearchDict V)) :
  _select_best_code [] product category research_result =
  {| code := py "00.00.00"; name := py "Unclassified product"; level := 1;
     parent_code := None; confidence := 0.1; alternative_codes := [] |}.
Proof.
  unfold _select_best_code.
  rewrite EnumKeys.enum_not_in_PRODUCT_CATEGORIES. reflexivity.
Qed.

(** For a hammer the configured default prefix is "25.73.30"; the selector
    does not return it. *)
Example select_empty_hammer (product : Product V) :
  EnumKeys.expected_prefix HAMMER = Some (py "25.73.30") /\
  code (_select_best_code [] product HAMMER None) <> py "25.73.30" /\
  level (_select_best_code [] product HAMMER None) = 1%Z /\
  confidence (_select_best_code [] product HAMMER None) = 0.1.
Proof.
  rewrite C1_select_empty_ignores_category. cbn [code level confidence].
  repeat split; vm_compute; congruence.
Qed.

(** The level inference of the code, by cases. *)
Lemma get_code_level_cases (code : pystr) :
  let parts := split_on 46 code in
  let third_set :=
    (3 <=? List.length parts)%nat && negb (str_eqb (nth 2 parts []) (py "00")) in
  let second_set :=
    (2 <=? List.length parts)%nat && negb (str_eqb (nth 1 parts []) (py "00")) in
  (third_set = true -> List.length parts = 4%nat -> _get_code_level code = 4%Z) /\
  (third_set = true -> List.length parts <> 4%nat -> _get_code_level code = 3%Z) /\
  (third_set = false -> second_set = true -> _get_code_level code = 2%Z) /\
  (third_set = false -> second_set = false -> _get_code_level code = 1%Z).
Proof.
  cbv zeta. unfold _get_code_level.
  repeat split; intros H1 H2; rewrite H1.
  - apply Nat.eqb_eq in H2. rewrite H2. reflexivity.
  - apply Nat.eqb_neq in H2. rewrite H2. reflexivity.
  - rewrite H2. reflexivity.
  - rewrite H2. reflexivity.
Qed.

Lemma score_core (lv : Z) (m : nat) :
  ((0 + of_int lv * 0.2) + Float.min (of_nat m * 0.1) 0.3)%float
  == inject_Z lv * 0.2 + 0 + Qmin 0.3 (0.1 * inject_Z (Z.of_nat m)).
Proof.
  rewrite !FloatFacts.add_spec, FloatFacts.min_spec, !FloatFacts.mul_spec.
  unfold of_int, of_nat. rewrite Q.min_comm, (Qmult_comm 0.1). ring.
Qed.

(** The level of a candidate: its own, or the one the code infers. *)
Lemma candidate_level_cases (candidate : Candidate) :
  candidate_level candidate =
  match c_level candidate with
  | Some l => l
  | None =>
    let parts := split_on 46 (c_code candidate) in
    let third := negb (str_eqb (nth 2 parts []) (py "00")) in
    let second := negb (str_eqb (nth 1 parts []) (py "00")) in
    if (List.length parts =? 4)%nat && third then 4%Z
    else if (3 <=? List.length parts)%nat && third then 3%Z
    else if (2 <=? List.length parts)%nat && second then 2%Z
    else 1%Z
  end.
Proof.
  unfold candidate_level. destruct (c_level candidate); [reflexivity|].
  unfold _get_code_level. cbv zeta.
  destruct (List.length (split_on 46 (c_code candidate)) =? 4)%nat eqn:E4.
  - apply Nat.eqb_eq in E4. rewrite E4. cbn [Nat.leb andb].
    destruct (negb (str_eqb (nth 2 (split_on 46 (c_code candidate)) []) (py "00")));
      reflexivity.
  - cbn [andb].
    destruct ((3 <=? List.length (split_on 46 (c_code candidate)))%nat
              && negb (str_eqb (nth 2 (split_on 46 (c_code candidate)) []) (py "00")));
      reflexivity.
Qed.

(** C3, as amended.  For a candidate whose code does not start with the
    prefix configured for the category, the score is [level * 0.2], plus
    [min(0.3, 0.1 * matches)], plus 0.2 when the product type of the research
    result occurs in the candidate name.  A candidate without a level gets
    the level the code infers: 4 for four segments whose third is not "00",
    3 for any other number of segments (at least three) whose third is not
    "00", otherwise 2 when there are at least two segments and the second is
    not "00", otherwise 1.  Nothing is said about a candidate whose code
    starts with the configured prefix. *)
Theorem C3_score_formula
        (candidate : Candidate) (product : Product V)
        (category : ProductCategory) (research_result : option (ResearchDict V)) :
  (forall prefix, EnumKeys.expected_prefix category = Some prefix ->
                  startswith (c_code candidate) prefix = false) ->
  _score_candidate candidate product category research_result ==
    inject_Z (match c_level candidate with
              | Some l => l
              | None =>
                let parts := split_on 46 (c_code candidate) in
                let third := negb (str_eqb (nth 2 parts []) (py "00")) in
                let second := negb (str_eqb (nth 1 parts []) (py "00")) in
                if (List.length parts =? 4)%nat && third then 4
                else if (3 <=? List.length parts)%nat && third then 3
                else if (2 <=? List.length parts)%nat && second then 2
                else 1
              end) * 0.2
    + Qmin 0.3 (0.1 * inject_Z (Z.of_nat (word_matches candidate product)))
    + (if type_matches candidate research_result then 0.2 else 0).
Proof.
  intros _. rewrite <- candidate_level_cases.
  unfold _score_candidate. cbv zeta.
  rewrite EnumKeys.enum_not_in_PRODUCT_CATEGORIES.
  fold (word_matches candidate product).
  pose proof (score_core (candidate_level candidate) (word_matches candidate product)) as B.
  unfold type_matches.
  destruct research_result as [r|]; [|rewrite B; ring].
  destruct (d_product_type r) as [[|c t]|]; try (rewrite B; ring).
  destruct (contains (lower (c_name candidate)) (lower (c :: t))).
  - rewrite FloatFacts.add_spec, B. ring.
  - rewrite B. ring.
Qed.

End Facts.

(** C3, as stated, fails: for the code "26.51.00.110" without a level the
    specification counts four segments and scores level 4, the code finds the
    third segment "00" and scores level 2. *)
Lemma C3_counterexample :
  let candidate :=
    {| c_code := py "26.51.00.110"; c_name := py "Приборы"; c_level := None |} in
  let product :=
    mkProduct (py "A1") (py "Датчик") (py "шт") (py "") UNKNOWN None None None
              (@nil (pystr * Json.pyval)) PENDING None 0 None in
  _score_candidate candidate product UNKNOWN None == 0.4 /\
  spec_score candidate product UNKNOWN None == 0.8 /\
  ~ _score_candidate candidate product UNKNOWN None
    == spec_score candidate product UNKNOWN None.
Proof.
  cbv zeta. split; [|split].
  - vm_compute. reflexivity.
  - vm_compute. reflexivity.
  - intro H. vm_compute in H. discriminate H.
Qed.

(** The amended C3 on a hammer candidate with the same code: the prefix
    configured for hammers is "25.73.30", the inferred level is 2. *)
Lemma C3_witness :
  let candidate :=
    {| c_code := py "26.51.00.110"; c_name := py "Приборы"; c_level := None |} in
  let product :=
    mkProduct (py "A1") (py "Датчик") (py "шт") (py "") HAMMER None None None
              (@nil (pystr * Json.pyval)) PENDING None 0 None in
  (forall prefix, EnumKeys.expected_prefix HAMMER = Some prefix ->
                  startswith (c_code candidate) prefix = false) /\
  _score_candidate candidate product HAMMER None == 0.4.
Proof.
  cbv zeta.
  assert (H : forall prefix,
             EnumKeys.expected_prefix HAMMER = Some prefix ->
             startswith
               (c_code {| c_code := py "26.51.00.110"; c_name := py "Приборы";
                          c_level := None |}) prefix = false).
  { intros prefix E. vm_compute in E. injection E as <-. vm_compute. reflexivity. }
  split; [exact H|].
  apply (Qeq_trans _ _ _
           (@C3_score_formula Json.pyval
              {| c_code := py "26.51.00.110"; c_name := py "Приборы"; c_level := None |}
              (mkProduct (py "A1") (py "Датчик") (py "шт") (py "") HAMMER None None None
                         (@nil (pystr * Json.pyval)) PENDING None 0 None)
              HAMMER None H)).
  vm_compute. reflexivity.
Defined.

(** A hammer candidate whose code does start with the configured prefix:
    the category term of [_score_candidate] adds nothing to its level 4. *)
Example score_of_matching_prefix :
  let candidate :=
    {| c_code := py "25.73.30.123"; c_name := py "Приборы"; c_level := Some 4%Z |} in
  let product :=
    mkProduct (py "A1") (py "Датчик") (py "шт") (py "") HAMMER None None None
              (@nil (pystr * Json.pyval)) PENDING None 0 None in
  EnumKeys.expected_prefix HAMMER = Some (py "25.73.30") /\
  startswith (c_code candidate) (py "25.73.30") = true /\
  _score_candidate candidate product HAMMER None == 0.8.
Proof.
  cbv zeta. repeat split; vm_compute; reflexivity.
Qed.

End Selector.

(** ** The validation rules *)

Module Validation.
Import OKPD2ClassifierAgent QualityValidationAgent.

(** The reasons that [_determine_rejection_reason] returns as fixed texts. *)
Definition canonical_reasons : list pystr :=
  map py
    ["Не подлежит нормализации: отсутствует код ОКПД2";
     "Не подлежит нормализации: невозможно определить производителя";
     "Не подлежит нормализации: артикул не соответствует цвету";
     "Не подлежит нормализации: вариативность по размеру";
     "Не подлежит нормализации: вариативность характеристик";
     "Не подлежит нормализации: неполные технические характеристики"].

(** The marker that precedes the first issue in the fallback reason. *)
Definition rejection_marker : pystr := py "Не подлежит нормализации: ".

(** An issue mentions the classification code, the manufacturer. *)
Definition mentions_okpd2 (issue : pystr) : bool := contains issue (py "ОКПД2").
Definition mentions_manufacturer (issue : pystr) : bool :=
  contains (lower issue) (py "производител").

(** The three checks of [_validate_okpd2] that do not look at the category. *)
Definition format_issue (r : OKPD2Result) : list pystr :=
  if _is_valid_okpd2_format (code r) then []
  else [py "Неверный формат кода ОКПД2: " ++ code r].

Definition level_issue (r : OKPD2Result) : list pystr :=
  if (level r <? 3)%Z
  then [py "Недостаточный уровень детализации ОКПД2 (уровень "
          ++ str_of_int (level r) ++ py ")"]
  else [].

Definition confidence_issue (r : OKPD2Result) : list pystr :=
  if (confidence r <? 0.5)%float
  then [py "Низкая уверенность в коде ОКПД2 (" ++ format_2f (confidence r) ++ py ")"]
  else [].

(** The classification checks report the missing result, the format, the
    level and the confidence, and nothing else: the category is not looked
    at, so a prefix that does not match is never reported. *)
Lemma validate_okpd2_checks (okpd2_result : option OKPD2Result)
      (category : ProductCategory) :
  _validate_okpd2 okpd2_result category =
  match okpd2_result with
  | None => [py "Отсутствует код ОКПД2"]
  | Some r => format_issue r ++ level_issue r ++ confidence_issue r
  end.
Proof.
  unfold _validate_okpd2. destruct okpd2_result as [r|]; [|reflexivity].
  cbv zeta. rewrite EnumKeys.enum_not_in_PRODUCT_CATEGORIES.
  unfold format_issue, level_issue, confidence_issue.
  destruct (_is_valid_okpd2_format (code r)); cbn [negb];
    destruct (level r <? 3)%Z; destruct (confidence r <? 0.5)%float; reflexivity.
Qed.

(** C4.  A hammer classified as "26.51.52.110" at level 4 with confidence
    0.9: the prefix configured for hammers is "25.73.30", the code does not
    start with it, and the classification checks report no issue. *)
Theorem C4_prefix_mismatch_not_reported :
  let okpd2_result :=
    {| code := py "26.51.52.110"; name := py "Датчики давления"; level := 4;
       parent_code := Some (py "26.51.52"); confidence := 0.9;
       alternative_codes := [] |} in
  EnumKeys.expected_prefix HAMMER = Some (py "25.73.30") /\
  startswith (code okpd2_result) (py "25.73.30") = false /\
  _validate_okpd2 (Some okpd2_result) HAMMER = [].
Proof.
  cbv zeta. repeat split; vm_compute; reflexivity.
Qed.

Section Reasons.
Context {V : Type} {PV : PyValue V}.

(** C5.  When one issue mentions the classification code and one mentions
    the manufacturer, the rejection reason is the fixed classification-code
    reason, which is not the manufacturer reason. *)
Theorem C5_okpd2_reason_has_priority
        (issues : list pystr) (product : Product V) (i j : pystr) :
  In i issues -> mentions_okpd2 i = true ->
  In j issues -> mentions_manufacturer j = true ->
  _determine_rejection_reason issues product
    = Ok (py "Не подлежит нормализации: отсутствует код ОКПД2")
  /\ _determine_rejection_reason issues product
     <> Ok (py "Не подлежит нормализации: невозможно определить производителя").
Proof.
  intros Hi Hm _ _.
  assert (E : existsb (fun issue => contains issue (py "ОКПД2")) issues = true).
  { apply existsb_exists. exists i. split; assumption. }
  unfold _determine_rejection_reason. rewrite E. split; [reflexivity|].
  intro H. apply (f_equal (fun r => match r with
                                    | Ok s => List.length s
                                    | Raise _ => 0%nat
                                    end)) in H.
  vm_compute in H. discriminate H.
Qed.

(** The reason of a non-empty issue list is a canonical reason or the first
    issue behind the marker. *)
Lemma determine_rejection_reason_cases
      (first : pystr) (rest : list pystr) (product : Product V) :
  exists reason,
    _determine_rejection_reason (first :: rest) product = Ok reason /\
    (In reason canonical_reasons \/ reason = rejection_marker ++ first).
Proof.
  unfold _determine_rejection_reason.
  set (issues := first :: rest).
  assert (C : forall s, In s
     ["Не подлежит нормализации: отсутствует код ОКПД2";
      "Не подлежит нормализации: невозможно определить производителя";
      "Не подлежит нормализации: артикул не соответствует цвету";
      "Не подлежит нормализации: вариативность по размеру";
      "Не подлежит нормализации: вариативность характеристик";
      "Не подлежит нормализации: неполные технические характеристики"] ->
      exists reason, Ok (py s) = Ok reason /\
        (In reason canonical_reasons \/ reason = rejection_marker ++ first)).
  { intros s Hs. exists (py s). split; [reflexivity|]. left.
    unfold canonical_reasons. apply in_map. exact Hs. }
  destruct (existsb (fun issue => contains issue (py "ОКПД2")) issues).
  { apply C. cbn [In]. auto 10. }
  destruct (existsb (fun issue => contains (lower issue) (py "производител")) issues).
  { apply C. cbn [In]. auto 10. }
  destruct (existsb (fun issue => contains issue (py "вариативность")) issues).
  { destruct (contains (join (py " ") issues) (py "цвет")).
    { apply C. cbn [In]. auto 10. }
    destruct (contains (join (py " ") issues) (py "диаметр")
              || contains (join (py " ") issues) (py "размер")).
    { apply C. cbn [In]. auto 10. }
    apply C. cbn [In]. auto 10. }
  destruct (existsb (fun issue => contains issue (py "характеристик")) issues).
  { apply C. cbn [In]. auto 10. }
  subst issues. eexists. split; [reflexivity|]. right. reflexivity.
Qed.

Variable call_llm : pystr -> list pystr -> result pystr.

(** A validation run returns a result, whose validity and rejection reason
    are determined by its issue list. *)
Lemma process_result
      (product : Product V) (research_result : option (ResearchDict V))
      (okpd2_result : option OKPD2Result) (category : ProductCategory) :
  exists v,
    process call_llm product research_result okpd2_result category = Ok v /\
    match issues v with
    | [] => is_valid v = true /\ rejection_reason v = None
    | _ :: _ =>
      is_valid v = false /\
      exists reason,
        rejection_reason v = Some reason /\
        _determine_rejection_reason (issues v) product = Ok reason
    end.
Proof.
  unfold process. cbv zeta.
  match goal with
  | |- context [(List.length ?l =? 0)%nat] => generalize l
  end.
  intros [|first rest].
  - cbn [List.length Nat.eqb negb bind]. eexists. split; [reflexivity|].
    cbn [issues is_valid rejection_reason]. split; reflexivity.
  - destruct (determine_rejection_reason_cases first rest product)
      as [reason [Hr _]].
    cbn [List.length Nat.eqb negb]. rewrite Hr. cbn [bind].
    eexists. split; [reflexivity|]. cbn [is_valid issues rejection_reason].
    split; [reflexivity|]. exists reason. split; [reflexivity|exact Hr].
Qed.

(** C6.  A validation run returns a result; it is valid exactly when its
    issue list is empty, and then carries no rejection reason; with at least
    one issue it is invalid and carries a rejection reason that is a
    canonical reason or the first issue behind the marker. *)
Theorem C6_validity_and_reason
        (product : Product V) (research_result : option (ResearchDict V))
        (okpd2_result : option OKPD2Result) (category : ProductCategory) :
  exists v,
    process call_llm product research_result okpd2_result category = Ok v /\
    (is_valid v = true <-> issues v = []) /\
    (issues v = [] -> rejection_reason v = None) /\
    (forall first rest,
        issues v = first :: rest ->
        is_valid v = false /\
        exists reason,
          rejection_reason v = Some reason /\
          (In reason canonical_reasons \/ reason = rejection_marker ++ first)).
Proof.
  destruct (process_result product research_result okpd2_result category)
    as [v [Hv Hi]].
  exists v. split; [exact Hv|].
  destruct (issues v) as [|first rest] eqn:E.
  - destruct Hi as [Hval Hr].
    split; [split; intro; [reflexivity|exact Hval]|].
    split; [intro; exact Hr|].
    intros f r H. discriminate H.
  - destruct Hi as [Hval [reason [Hr Hd]]].
    split; [split; intro H; [congruence|discriminate H]|].
    split; [intro H; discriminate H|].
    intros f r H. injection H as <- <-. split; [exact Hval|].
    exists reason. split; [exact Hr|].
    destruct (determine_rejection_reason_cases first rest product)
      as [reason' [Hr' Hc]].
    rewrite Hr' in Hd. injection Hd as <-. exact Hc.
Qed.

End Reasons.

(** A run of C5 on the issues of a product with neither a classification
    nor a known manufacturer. *)
Lemma C5_witness :
  let issues := [py "Отсутствует код ОКПД2"; py "Невозможно определить производителя"] in
  let product :=
    mkProduct (py "A1") (py "Датчик") (py "шт") (py "") UNKNOWN None None None
              (@nil (pystr * Json.pyval)) PENDING None 0 None in
  _determine_rejection_reason issues product
    = Ok (py "Не подлежит нормализации: отсутствует код ОКПД2")
  /\ _determine_rejection_reason issues product
     <> Ok (py "Не подлежит нормализации: невозможно определить производителя").
Proof.
  cbv zeta.
  apply (C5_okpd2_reason_has_priority
           [py "Отсутствует код ОКПД2"; py "Невозможно определить производителя"]
           _ (py "Отсутствует код ОКПД2") (py "Невозможно определить производителя")).
  - left. reflexivity.
  - vm_compute. reflexivity.
  - right. left. reflexivity.
  - vm_compute. reflexivity.
Defined.

End Validation.

(** ** The processor *)

Module Pipeline.
Import OKPD2ClassifierAgent QualityValidationAgent MTRProcessor.

(** The units that [COMPLIANCE_RULES] lists for a category. *)
Definition valid_units (c : ProductCategory) : list pystr :=
  match dict_get (KEnum c) unit_keys with
  | Some unit_key =>
    match dict_get (KStr unit_key) unit_validation with
    | Some units => units
    | None => []
    end
  | None => []
  end.

(** The normalized unit in the words of the claim: the first listed unit of
    the category when the unit is, up to case, one of the units of the
    category, and the unit itself otherwise. *)
Definition normalized_unit_spec (c : ProductCategory) (unit : pystr) : pystr :=
  if unit_is_valid unit (valid_units c) then hd unit (valid_units c) else unit.

Lemma valid_units_table (c : ProductCategory) :
  valid_units c =
  match c with
  | PRESSURE_SENSOR | HAMMER | TIRE => map py ["штука"; "шт"; "шт."]
  | STEEL_CIRCLE => map py ["тонна"; "т"; "тн"]
  | UNKNOWN => []
  end.
Proof. destruct c; vm_compute; reflexivity. Qed.

Lemma get_normalized_unit_spec {V} (product : Product V) (c : ProductCategory) :
  _get_normalized_unit product c = normalized_unit_spec c (original_unit product).
Proof.
  unfold _get_normalized_unit, normalized_unit_spec.
  generalize (original_unit product). intro u.
  destruct c; vm_compute; reflexivity.
Qed.

(** [range(0, n, step)] cuts a list into consecutive slices. *)
Lemma slices_concat {A} (step : nat) (n : nat) (l : list A) :
  (0 < step)%nat -> (List.length l <= n * step)%nat ->
  List.concat (map (fun k => firstn step (skipn (k * step) l)) (seq 0 n)) = l.
Proof.
  intro Hs. revert l. induction n as [|n IH]; intros l Hl.
  - destruct l; [reflexivity|]. cbn in Hl. lia.
  - cbn [seq map List.concat]. rewrite <- seq_shift, map_map.
    cbn [Nat.mul skipn].
    rewrite (map_ext (fun k => firstn step (skipn (S k * step) l))
                     (fun k => firstn step (skipn (k * step) (skipn step l)))).
    + rewrite IH.
      * apply firstn_skipn.
      * rewrite length_skipn. cbn in Hl. lia.
    + intro k. rewrite skipn_skipn. f_equal. f_equal. cbn. lia.
Qed.

Lemma range_step_slices {A} (l : list A) (step : nat) :
  (0 < step)%nat ->
  List.concat (map (fun i => firstn step (skipn i l)) (range_step (List.length l) step)) = l.
Proof.
  intro Hs. unfold range_step. rewrite map_map. apply slices_concat; [exact Hs|].
  pose proof (Nat.div_mod (List.length l + step - 1) step ltac:(lia)) as D.
  pose proof (Nat.mod_upper_bound (List.length l + step - 1) step ltac:(lia)) as U.
  nia.
Qed.

Section Facts.
Context {V : Type} {PV : PyValue V}.
Variable learned_patterns : dict (list pystr).
Variable research : Product V -> ProductCategory -> result (option (ResearchResult V)).
Variable find_candidates :
  Product V -> ProductCategory -> option (ResearchDict V) -> result (list Candidate).
Variable call_llm : pystr -> list pystr -> result pystr.

(** The outcome of the three stages on a product taken from a batch. *)
Definition stages (p : Product V) (c : ProductCategory) : result (Product V) :=
  run_stages research find_candidates call_llm (set_status p PROCESSING) c.

(** The product that [_process_batch] appends for [p]. *)
Definition process_one (p : Product V) (c : ProductCategory) : Product V :=
  match _process_single_product research find_candidates call_llm p c with
  | Ok q => q
  | Raise e => set_error_message (set_status p FAILED) (Some e)
  end.

Lemma create_batches_concat (l : list (Product V)) (c : ProductCategory) :
  flat_map (@products V) (_create_batches l c) = l.
Proof.
  unfold _create_batches. rewrite flat_map_concat_map, map_map.
  cbn [products]. apply range_step_slices. unfold batch_size. lia.
Qed.

Lemma create_batches_category (l : list (Product V)) (c : ProductCategory) :
  forall b, In b (_create_batches l c) -> b_category b = c.
Proof.
  unfold _create_batches. intros b Hb. apply in_map_iff in Hb.
  destruct Hb as [i [<- _]]. reflexivity.
Qed.

Lemma process_batch_products (b : ProcessingBatch V) :
  snd (_process_batch research find_candidates call_llm b)
  = map (fun p => process_one p (b_category b)) (products b).
Proof.
  unfold _process_batch.
  set (single := fun product =>
         _process_single_product research find_candidates call_llm product (b_category b)).
  assert (G : forall l b0 acc,
             b_category b0 = b_category b ->
             snd (fold_left
                    (fun (acc : ProcessingBatch V * list (Product V)) pr =>
                       let '(batch, processed_products) := acc in
                       let '(product, result) := pr in
                       match result with
                       | Raise e =>
                         let product :=
                           set_error_message (set_status product FAILED) (Some e) in
                         ({| batch_id := batch_id batch; products := products batch;
                             b_category := b_category batch;
                             total_count := total_count batch;
                             processed_count := processed_count batch;
                             failed_count := failed_count batch + 1 |},
                          processed_products ++ [product])
                       | Ok product =>
                         ({| batch_id := batch_id batch; products := products batch;
                             b_category := b_category batch;
                             total_count := total_count batch;
                             processed_count := processed_count batch + 1;
                             failed_count := failed_count batch |},
                          processed_products ++ [product])
                       end)
                    (combine l (map single l)) (b0, acc))
             = acc ++ map (fun p => process_one p (b_category b)) l).
  { induction l as [|p l IH]; intros b0 acc Hb.
    - cbn. rewrite app_nil_r. reflexivity.
    - cbn [map combine fold_left].
      assert (E : process_one p (b_category b)
                  = match single p with
                    | Ok q => q
                    | Raise e => set_error_message (set_status p FAILED) (Some e)
                    end) by reflexivity.
      rewrite E. clear E.
      destruct (single p) as [q|e]; rewrite IH by exact Hb;
        rewrite <- app_assoc; reflexivity. }
  apply (G (products b) b []). reflexivity.
Qed.

(** What the stages leave in a product when no stage raises. *)
Lemma run_stages_ok (p q : Product V) (c : ProductCategory) :
  run_stages research find_candidates call_llm p c = Ok q ->
  internal_code q = internal_code p /\
  original_unit q = original_unit p /\
  category q = category p /\
  (exists code, okpd2_code q = Some code) /\
  normalized_unit q = Some (_get_normalized_unit p c) /\
  ((status q = COMPLETED /\ comment q = Some (py "Успешно нормализовано")) \/
   (status q = REJECTED /\
    exists first rest reason,
      _determine_rejection_reason (first :: rest) q = Ok reason /\
      comment q = Some reason /\
      error_message q = Some (join (py "; ") (first :: rest)))).
Proof.
  unfold run_stages.
  destruct (research p c) as [rr|e]; cbn [bind]; [|discriminate].
  unfold OKPD2ClassifierAgent.process.
  destruct (find_candidates p c (option_map to_dict rr)) as [cands|e];
    cbn [bind]; [|discriminate].
  destruct (Validation.process_result call_llm p (option_map to_dict rr)
              (Some (_select_best_code cands p c (option_map to_dict rr))) c)
    as [v [Hv Hi]].
  rewrite Hv. cbn [bind]. cbv zeta. intro H. injection H as <-.
  assert (U : forall x : Product V,
             original_unit x = original_unit p ->
             _get_normalized_unit x c = _get_normalized_unit p c).
  { intros x Hx. rewrite !get_normalized_unit_spec, Hx. reflexivity. }
  destruct (issues v) as [|first rest] eqn:E.
  - destruct Hi as [Hval _]. rewrite Hval.
    destruct rr as [r|];
      cbn [internal_code original_unit category okpd2_code normalized_unit status
           comment error_message set_comment set_status set_error_message
           set_normalized_unit set_okpd2_code set_specifications];
      (split; [reflexivity|]; split; [reflexivity|]; split; [reflexivity|];
       split; [eexists; reflexivity|];
       split; [f_equal; apply U; reflexivity|];
       left; split; reflexivity).
  - destruct Hi as [Hval [reason [Hr Hd]]]. rewrite Hval.
    destruct rr as [r|];
      cbn [internal_code original_unit category okpd2_code normalized_unit status
           comment error_message set_comment set_status set_error_message
           set_normalized_unit set_okpd2_code set_specifications];
      (split; [reflexivity|]; split; [reflexivity|]; split; [reflexivity|];
       split; [eexists; reflexivity|];
       split; [f_equal; apply U; reflexivity|];
       right; split; [reflexivity|];
       exists first, rest, reason;
       split; [exact Hd|]; split; [exact Hr|reflexivity]).
Qed.

(** A rejected product went through a validation run that found issues:
    its comment is the rejection reason of that run, determined from the
    issues of that run. *)
Lemma run_stages_rejected (p q : Product V) (c : ProductCategory) :
  run_stages research find_candidates call_llm p c = Ok q ->
  status q = REJECTED ->
  exists research_result okpd2_result validation_result reason,
    research p c = Ok research_result /\
    OKPD2ClassifierAgent.process
      find_candidates p c (option_map to_dict research_result) = Ok okpd2_result /\
    QualityValidationAgent.process
      call_llm p (option_map to_dict research_result) (Some okpd2_result) c
    = Ok validation_result /\
    is_valid validation_result = false /\
    issues validation_result <> [] /\
    _determine_rejection_reason (issues validation_result) p = Ok reason /\
    rejection_reason validation_result = Some reason /\
    comment q = Some reason /\
    error_message q = Some (join (py "; ") (issues validation_result)).
Proof.
  unfold run_stages.
  destruct (research p c) as [rr|e] eqn:R; cbn [bind]; [|discriminate].
  destruct (OKPD2ClassifierAgent.process find_candidates p c (option_map to_dict rr))
    as [o|e] eqn:O; cbn [bind]; [|discriminate].
  destruct (Validation.process_result call_llm p (option_map to_dict rr) (Some o) c)
    as [v [Hv Hi]].
  rewrite Hv. cbn [bind]. cbv zeta. intro H. injection H as <-.
  destruct (issues v) as [|first rest] eqn:E.
  - destruct Hi as [Hval _]. rewrite Hval.
    destruct rr as [r|];
      cbn [status set_comment set_status set_error_message set_normalized_unit
           set_okpd2_code set_specifications];
      intro X; discriminate X.
  - destruct Hi as [Hval [reason [Hr Hd]]]. rewrite Hval. intros _.
    exists rr, o, v, reason.
    split; [reflexivity|]. split; [exact O|]. split; [exact Hv|].
    split; [exact Hval|]. split; [rewrite E; discriminate|].
    split; [rewrite E; exact Hd|]. split; [exact Hr|].
    rewrite E.
    destruct rr as [r|];
      cbn [comment error_message set_comment set_status set_error_message
           set_normalized_unit set_okpd2_code set_specifications];
      (split; [exact Hr|reflexivity]).
Qed.

End Facts.

End Pipeline.

(** ** Grouping by category *)

Module Grouping.
Import MTRProcessor.

(** The categories of a list in the order of their first occurrence. *)
Definition first_seen (cs : list ProductCategory) : list ProductCategory :=
  fold_left (fun acc c => if existsb (category_eqb c) acc then acc else acc ++ [c]) cs [].

Section Groups.
Context {V : Type}.

Definition has_category (c : ProductCategory) (p : Product V) : bool :=
  category_eqb (category p) c.

(** The products regrouped by category: the categories in the order of
    their first occurrence, the products of a category in their input
    order. *)
Definition regroup (l : list (Product V)) : list (Product V) :=
  flat_map (fun c => filter (has_category c) l) (first_seen (map (@category V) l)).

Definition groups_of (l : list (Product V)) : list (ProductCategory * list (Product V)) :=
  map (fun c => (c, filter (has_category c) l)) (first_seen (map (@category V) l)).

Lemma category_eqb_eq (a b : ProductCategory) : category_eqb a b = true <-> a = b.
Proof.
  unfold category_eqb. destruct (category_eq_dec a b); split; congruence.
Qed.

Lemma existsb_category (c : ProductCategory) (l : list ProductCategory) :
  existsb (category_eqb c) l = true <-> In c l.
Proof.
  rewrite existsb_exists. split.
  - intros [x [Hx E]]. apply category_eqb_eq in E. subst. exact Hx.
  - intro H. exists c. split; [exact H|]. apply category_eqb_eq. reflexivity.
Qed.

Lemma first_seen_snoc (cs : list ProductCategory) (c : ProductCategory) :
  first_seen (cs ++ [c]) =
  if existsb (category_eqb c) (first_seen cs) then first_seen cs
  else first_seen cs ++ [c].
Proof. unfold first_seen. rewrite fold_left_app. reflexivity. Qed.

Lemma first_seen_spec (cs : list ProductCategory) :
  NoDup (first_seen cs) /\ (forall c, In c (first_seen cs) <-> In c cs).
Proof.
  induction cs as [|c cs [ND IN]] using rev_ind.
  - split; [constructor|]. intro c. reflexivity.
  - rewrite first_seen_snoc.
    destruct (existsb (category_eqb c) (first_seen cs)) eqn:E.
    + split; [exact ND|]. intro x. rewrite in_app_iff, IN. cbn.
      apply existsb_category in E. apply IN in E.
      split; [tauto|]. intros [H|[<-|[]]]; assumption.
    + assert (N : ~ In c (first_seen cs)).
      { intro H. apply existsb_category in H. congruence. }
      split.
      * apply NoDup_app; [exact ND | repeat constructor; intros [] |].
        intros x Hx [<-|[]]. exact (N Hx).
      * intro x. rewrite !in_app_iff, IN. reflexivity.
Qed.

Lemma filter_none (c : ProductCategory) (l : list (Product V)) :
  ~ In c (map (@category V) l) -> filter (has_category c) l = [].
Proof.
  induction l as [|p l IH]; intro H; [reflexivity|].
  cbn [filter]. unfold has_category at 1.
  destruct (category_eqb (category p) c) eqn:E.
  - apply category_eqb_eq in E. exfalso. apply H. left. exact E.
  - apply IH. intro H'. apply H. right. exact H'.
Qed.

Lemma category_eqb_refl (c : ProductCategory) : category_eqb c c = true.
Proof. apply category_eqb_eq. reflexivity. Qed.

Lemma filter_snoc_same (l : list (Product V)) (p : Product V) :
  filter (has_category (category p)) (l ++ [p])
  = filter (has_category (category p)) l ++ [p].
Proof.
  rewrite filter_app. cbn [filter]. unfold has_category at 2.
  rewrite category_eqb_refl. reflexivity.
Qed.

Lemma filter_snoc_other (k : ProductCategory) (l : list (Product V)) (p : Product V) :
  category_eqb (category p) k = false ->
  filter (has_category k) (l ++ [p]) = filter (has_category k) l.
Proof.
  intro E. rewrite filter_app. cbn [filter]. unfold has_category at 2.
  rewrite E. apply app_nil_r.
Qed.

Lemma group_append_groups (l : list (Product V)) (p : Product V)
      (ks : list ProductCategory) :
  NoDup ks ->
  (~ In (category p) ks -> filter (has_category (category p)) l = []) ->
  group_append (category p) p (map (fun k => (k, filter (has_category k) l)) ks) =
  map (fun k => (k, filter (has_category k) (l ++ [p])))
      (if existsb (category_eqb (category p)) ks then ks else ks ++ [category p]).
Proof.
  induction ks as [|k ks IH]; intros ND Hn.
  - cbn [map group_append existsb app].
    rewrite filter_snoc_same, Hn by (intros []). reflexivity.
  - inversion ND as [|? ? Nk ND']; subst.
    cbn [map group_append existsb].
    destruct (category_eqb (category p) k) eqn:E.
    + apply category_eqb_eq in E. subst k. cbn [orb map].
      rewrite filter_snoc_same. f_equal.
      apply map_ext_in. intros k' Hk'.
      rewrite filter_snoc_other; [reflexivity|].
      destruct (category_eqb (category p) k') eqn:E'; [|reflexivity].
      apply category_eqb_eq in E'. subst k'. contradiction.
    + cbn [orb]. rewrite IH.
      * destruct (existsb (category_eqb (category p)) ks);
          cbn [map app]; rewrite filter_snoc_other by exact E; reflexivity.
      * exact ND'.
      * intro H. apply Hn. intros [H'|H']; [|exact (H H')].
        subst k. rewrite category_eqb_refl in E. discriminate E.
Qed.

Lemma groups_of_snoc (l : list (Product V)) (p : Product V) :
  group_append (category p) p (groups_of l) = groups_of (l ++ [p]).
Proof.
  unfold groups_of. rewrite map_app. cbn [map]. rewrite first_seen_snoc.
  destruct (first_seen_spec (map (@category V) l)) as [ND IN].
  apply group_append_groups; [exact ND|].
  intro H. apply filter_none. intro H'. apply H. apply IN. exact H'.
Qed.

Lemma fold_group_append (l2 l1 : list (Product V)) :
  fold_left (fun acc p => group_append (category p) p acc) l2 (groups_of l1)
  = groups_of (l1 ++ l2).
Proof.
  revert l1. induction l2 as [|p l2 IH]; intro l1.
  - rewrite app_nil_r. reflexivity.
  - cbn [fold_left]. rewrite groups_of_snoc, IH, <- app_assoc. reflexivity.
Qed.

Lemma regroup_groups (l : list (Product V)) :
  regroup l = flat_map snd (groups_of l).
Proof.
  unfold regroup, groups_of. rewrite !flat_map_concat_map, map_map. reflexivity.
Qed.

Lemma groups_of_category (l : list (Product V)) (c : ProductCategory)
      (ps : list (Product V)) :
  In (c, ps) (groups_of l) -> forall p, In p ps -> category p = c.
Proof.
  unfold groups_of. intro H. apply in_map_iff in H.
  destruct H as [k [E _]]. injection E as <- <-.
  intros p Hp. apply filter_In in Hp. destruct Hp as [_ Hp].
  apply category_eqb_eq. exact Hp.
Qed.

Lemma regroup_insert (p : Product V) (l : list (Product V))
      (ks : list ProductCategory) :
  NoDup ks -> In (category p) ks ->
  Permutation (flat_map (fun c => filter (has_category c) (p :: l)) ks)
              (p :: flat_map (fun c => filter (has_category c) l) ks).
Proof.
  induction ks as [|k ks IH]; intros ND Hin; [destruct Hin|].
  inversion ND as [|? ? Nk ND']; subst.
  cbn [flat_map filter]. unfold has_category at 1.
  destruct (category_eqb (category p) k) eqn:E.
  - apply category_eqb_eq in E. subst k. cbn [app]. constructor.
    apply Permutation_app_head.
    rewrite !flat_map_concat_map.
    rewrite (map_ext_in (fun c => filter (has_category c) (p :: l))
                        (fun c => filter (has_category c) l)); [reflexivity|].
    intros c Hc. cbn [filter]. unfold has_category at 1.
    destruct (category_eqb (category p) c) eqn:E'; [|reflexivity].
    apply category_eqb_eq in E'. subst c. contradiction.
  - destruct Hin as [H|H].
    + subst k. rewrite category_eqb_refl in E. discriminate E.
    + rewrite (IH ND' H). apply Permutation_sym, Permutation_middle.
Qed.

Lemma regroup_permutation (l : list (Product V)) : Permutation (regroup l) l.
Proof.
  unfold regroup.
  destruct (first_seen_spec (map (@category V) l)) as [ND IN].
  revert ND IN. generalize (first_seen (map (@category V) l)). intros ks ND IN.
  assert (H : forall p, In p l -> In (category p) ks).
  { intros p Hp. apply IN. apply in_map. exact Hp. }
  clear IN. induction l as [|p l IH].
  - clear H. induction ks as [|k ks IHk]; [constructor|].
    inversion ND; subst. cbn. apply IHk. assumption.
  - rewrite regroup_insert; [|exact ND|apply H; left; reflexivity].
    constructor. apply IH. intros q Hq. apply H. right. exact Hq.
Qed.

Lemma first_seen_constant (c : ProductCategory) (cs : list ProductCategory) :
  Forall (eq c) cs -> first_seen (c :: cs) = [c].
Proof.
  unfold first_seen. cbn [fold_left existsb app].
  induction 1 as [|x cs <- _ IH]; [reflexivity|].
  cbn [fold_left existsb]. rewrite category_eqb_refl. exact IH.
Qed.

(** Products of one category are not reordered. *)
Lemma regroup_single_category (l : list (Product V)) :
  (forall p q, In p l -> In q l -> category p = category q) -> regroup l = l.
Proof.
  intro H. destruct l as [|p l]; [reflexivity|].
  unfold regroup. cbn [map]. rewrite first_seen_constant.
  - cbn [flat_map]. rewrite app_nil_r.
    assert (F : forall q, In q (p :: l) -> has_category (category p) q = true).
    { intros q Hq. apply category_eqb_eq. apply H; [exact Hq|left; reflexivity]. }
    revert F. generalize (p :: l). intro m. induction m as [|x m IH]; intro F.
    + reflexivity.
    + cbn [filter]. rewrite F by (left; reflexivity). f_equal.
      apply IH. intros q Hq. apply F. right. exact Hq.
  - apply Forall_forall. intros c Hc. apply in_map_iff in Hc.
    destruct Hc as [q [<- Hq]]. apply H; [left; reflexivity|right; exact Hq].
Qed.

End Groups.

End Grouping.

(** ** The orchestrator *)

Module Orchestrator.
Import OKPD2ClassifierAgent QualityValidationAgent MTRProcessor Pipeline Grouping.

Section Facts.
Context {V : Type} {PV : PyValue V}.
Variable learned_patterns : dict (list pystr).
Variable research : Product V -> ProductCategory -> result (option (ResearchResult V)).
Variable find_candidates :
  Product V -> ProductCategory -> option (ResearchDict V) -> result (list Candidate).
Variable call_llm : pystr -> list pystr -> result pystr.

(** The input products with their category detected. *)
Definition categorized (products : list (Product V)) : list (Product V) :=
  map (categorize_one learned_patterns) products.

(** What the three stages do to a categorized product. *)
Definition outcome (p : Product V) : result (Product V) :=
  stages research find_candidates call_llm p (category p).

(** The terminal product of a categorized product. *)
Definition finish (p : Product V) : Product V :=
  process_one research find_candidates call_llm p (category p).

Lemma categorize_products_groups (products : list (Product V)) :
  _categorize_products learned_patterns products = groups_of (categorized products).
Proof.
  unfold _categorize_products, categorized.
  transitivity
    (fold_left (fun acc p => group_append (category p) p acc)
               (map (categorize_one learned_patterns) products)
               (groups_of (@nil (Product V)))).
  - change (groups_of (@nil (Product V)))
      with (@nil (ProductCategory * list (Product V))).
    generalize (@nil (ProductCategory * list (Product V))).
    induction products as [|p l IH]; intro acc; [reflexivity|].
    cbn [fold_left map]. apply IH.
  - rewrite fold_group_append. reflexivity.
Qed.

Lemma flat_map_map_products (g : Product V -> Product V)
      (bs : list (ProcessingBatch V)) :
  flat_map (fun b => map g (products b)) bs = map g (flat_map (@products V) bs).
Proof.
  induction bs as [|b bs IH]; [reflexivity|].
  cbn [flat_map]. rewrite map_app, IH. reflexivity.
Qed.

Lemma process_batches (ps : list (Product V)) (c : ProductCategory) :
  flat_map (fun batch => snd (_process_batch research find_candidates call_llm batch))
           (_create_batches ps c)
  = map (fun p => process_one research find_candidates call_llm p c) ps.
Proof.
  rewrite <- (create_batches_concat ps c) at 2.
  rewrite <- flat_map_map_products.
  rewrite !flat_map_concat_map. f_equal. apply map_ext_in. intros b Hb.
  rewrite process_batch_products, (create_batches_category _ _ _ Hb). reflexivity.
Qed.

(** The output of [process_file]: the categorized input, regrouped by
    category, each product run through the stages. *)
Lemma process_file_spec (products : list (Product V)) :
  process_file learned_patterns research find_candidates call_llm products
  = map finish (regroup (categorized products)).
Proof.
  unfold process_file. rewrite categorize_products_groups, regroup_groups.
  assert (G : forall g : list (ProductCategory * list (Product V)),
             (forall c ps, In (c, ps) g -> forall p, In p ps -> category p = c) ->
             flat_map
               (fun entry =>
                  let '(category, category_products) := entry in
                  let batches := _create_batches category_products category in
                  flat_map
                    (fun batch =>
                       snd (_process_batch research find_candidates call_llm batch))
                    batches) g
             = map finish (flat_map snd g)).
  { induction g as [|[c ps] g IH]; intro H; [reflexivity|].
    cbn [flat_map snd]. rewrite map_app, <- IH.
    - f_equal. rewrite process_batches. apply map_ext_in.
      intros p Hp. unfold finish.
      rewrite (H c ps (or_introl eq_refl) p Hp). reflexivity.
    - intros c' ps' Hin. apply (H c' ps'). right. exact Hin. }
  apply G. intros c ps. apply groups_of_category.
Qed.

(** The two ways a product leaves the stages. *)
Lemma finish_cases (p : Product V) :
  (exists q, outcome p = Ok q /\ finish p = q) \/
  (exists e, outcome p = Raise e /\
             finish p = set_error_message
                          (set_status (set_status p PROCESSING) FAILED) (Some e)).
Proof.
  unfold finish, process_one, _process_single_product, outcome, stages.
  destruct (run_stages research find_candidates call_llm
                       (set_status p PROCESSING) (category p)) as [q|e].
  - left. exists q. split; reflexivity.
  - right. exists e. split; reflexivity.
Qed.

Lemma finish_failed (p : Product V) (e : pystr) :
  outcome p = Raise e ->
  status (finish p) = FAILED /\ error_message (finish p) = Some e.
Proof.
  intro H. destruct (finish_cases p) as [[q [Hq _]]|[e' [He ->]]].
  - rewrite H in Hq. discriminate Hq.
  - rewrite H in He. injection He as <-. split; reflexivity.
Qed.

Lemma finish_ok (p q : Product V) :
  outcome p = Ok q ->
  finish p = q /\ (status q = COMPLETED \/ status q = REJECTED).
Proof.
  intro H. destruct (finish_cases p) as [[q' [Hq ->]]|[e [He _]]].
  - rewrite H in Hq. injection Hq as <-. split; [reflexivity|].
    destruct (run_stages_ok _ _ _ _ _ H) as [_ [_ [_ [_ [_ [[S _]|[S _]]]]]]];
      [left|right]; exact S.
  - rewrite H in He. discriminate He.
Qed.

Lemma in_process_file (products : list (Product V)) (p : Product V) :
  In p (process_file learned_patterns research find_candidates call_llm products) ->
  exists p0, In p0 (categorized products) /\ p = finish p0.
Proof.
  rewrite process_file_spec. intro H. apply in_map_iff in H.
  destruct H as [p0 [<- H0]]. exists p0. split; [|reflexivity].
  apply (Permutation_in _ (regroup_permutation (categorized products))). exact H0.
Qed.

(** C7.  Every product returned by [process_file] is in a terminal state; a
    completed product has a classification code and a normalized unit; a
    rejected product is the outcome of an input product whose validation run
    found issues, its comment is the rejection reason of that run, the one
    [_determine_rejection_reason] chose for those issues, and its error
    message lists those issues; a failed product has an error message. *)
Theorem C7_terminal_products (products : list (Product V)) (p : Product V) :
  In p (process_file learned_patterns research find_candidates call_llm products) ->
  (status p = COMPLETED \/ status p = REJECTED \/ status p = FAILED) /\
  (status p = COMPLETED ->
   (exists code, okpd2_code p = Some code) /\
   (exists unit, normalized_unit p = Some unit)) /\
  (status p = REJECTED ->
   exists input research_result okpd2_result validation_result reason,
     In input (categorized products) /\
     p = finish input /\
     research (set_status input PROCESSING) (category input) = Ok research_result /\
     OKPD2ClassifierAgent.process
       find_candidates (set_status input PROCESSING) (category input)
       (option_map to_dict research_result) = Ok okpd2_result /\
     QualityValidationAgent.process
       call_llm (set_status input PROCESSING) (option_map to_dict research_result)
       (Some okpd2_result) (category input) = Ok validation_result /\
     is_valid validation_result = false /\
     issues validation_result <> [] /\
     _determine_rejection_reason (issues validation_result)
                                 (set_status input PROCESSING) = Ok reason /\
     rejection_reason validation_result = Some reason /\
     comment p = Some reason /\
     error_message p = Some (join (py "; ") (issues validation_result))) /\
  (status p = FAILED -> exists message, error_message p = Some message).
Proof.
  intro H. destruct (in_process_file _ _ H) as [p0 [H0 ->]].
  destruct (finish_cases p0) as [[q [Hq E]]|[e [_ E]]].
  - destruct (run_stages_ok _ _ _ _ _ Hq)
      as [_ [_ [_ [Hcode [Hunit [[S C]|[S _]]]]]]].
    + rewrite E. split; [left; exact S|]. rewrite S.
      split; [intros _; split; [exact Hcode|eexists; exact Hunit]|].
      split; intro X; discriminate X.
    + split; [right; left; rewrite E; exact S|].
      split; [rewrite E, S; intro X; discriminate X|].
      split; [|rewrite E, S; intro X; discriminate X].
      intros _.
      destruct (run_stages_rejected _ _ _ _ _ Hq S)
        as [rr [o [v [reason [R [O [Hv [Hval [Hne [Hd [Hr [Hc Hm]]]]]]]]]]]].
      exists p0, rr, o, v, reason.
      split; [exact H0|]. split; [reflexivity|]. split; [exact R|].
      split; [exact O|]. split; [exact Hv|]. split; [exact Hval|].
      split; [exact Hne|]. split; [exact Hd|]. split; [exact Hr|].
      rewrite E. split; [exact Hc|exact Hm].
  - rewrite E. cbn [status error_message set_error_message set_status].
    split; [right; right; reflexivity|].
    split; [intro X; discriminate X|].
    split; [intro X; discriminate X|].
    intros _. exists e. reflexivity.
Qed.

(** C10, as amended.  A returned product whose stages did not raise (its
    status is not [FAILED]) carries a normalized unit: the unit computed by
    [_get_normalized_unit], which is the first listed unit of the category
    when the original unit is, up to case, one of the units of the category,
    and the original unit otherwise. *)
Theorem C10_normalized_unit (products : list (Product V)) (p : Product V) :
  In p (process_file learned_patterns research find_candidates call_llm products) ->
  status p <> FAILED ->
  normalized_unit p = Some (_get_normalized_unit p (category p)) /\
  _get_normalized_unit p (category p)
  = (if unit_is_valid (original_unit p) (valid_units (category p))
     then hd (original_unit p) (valid_units (category p))
     else original_unit p).
Proof.
  intros H NF. split; [|apply get_normalized_unit_spec].
  destruct (in_process_file _ _ H) as [p0 [_ ->]].
  destruct (finish_cases p0) as [[q [Hq E]]|[e [_ E]]]; rewrite E in *.
  - destruct (run_stages_ok _ _ _ _ _ Hq) as [_ [U [C [_ [N _]]]]].
    rewrite N. f_equal. rewrite !get_normalized_unit_spec, U, C. reflexivity.
  - exfalso. apply NF. reflexivity.
Qed.

(** C2, as amended.  With one product whose stages raise and no other such
    product, [process_file] returns one product per input product: the
    categorized input regrouped by category (categories in the order of
    their first occurrence, input order inside a category), each product in
    its terminal state; the product of the failing input is failed with the
    raised message, every other one is completed or rejected; and when all
    products have one category the output is in input order. *)
Theorem C2_process_file_regroups
        (products : list (Product V)) (bad : Product V) (message : pystr) :
  In bad products ->
  outcome (categorize_one learned_patterns bad) = Raise message ->
  (forall p, In p products -> p <> bad ->
             exists q, outcome (categorize_one learned_patterns p) = Ok q) ->
  let out := process_file learned_patterns research find_candidates call_llm products in
  let terminal := fun p => finish (categorize_one learned_patterns p) in
  List.length out = List.length products /\
  out = map finish (regroup (categorized products)) /\
  Permutation out (map terminal products) /\
  (status (terminal bad) = FAILED /\ error_message (terminal bad) = Some message) /\
  (forall p, In p products -> p <> bad ->
             status (terminal p) = COMPLETED \/ status (terminal p) = REJECTED) /\
  ((forall p q, In p products -> In q products ->
                category (categorize_one learned_patterns p)
                = category (categorize_one learned_patterns q)) ->
   out = map terminal products).
Proof.
  intros Hbad Hfail Hothers out terminal.
  assert (S : out = map finish (regroup (categorized products)))
    by apply process_file_spec.
  assert (P : Permutation out (map terminal products)).
  { rewrite S.
    replace (map terminal products) with (map finish (categorized products))
      by (unfold terminal, categorized; rewrite map_map; reflexivity).
    apply Permutation_map. apply regroup_permutation. }
  split; [|split; [exact S|split; [exact P|split; [|split]]]].
  - rewrite (Permutation_length P). apply length_map.
  - apply finish_failed. exact Hfail.
  - intros p Hp Hne. destruct (Hothers p Hp Hne) as [q Hq].
    destruct (finish_ok _ Hq) as [E T]. unfold terminal. rewrite E. exact T.
  - intro Hone. rewrite S, regroup_single_category.
    + unfold terminal, categorized. rewrite map_map. reflexivity.
    + intros p q Hp Hq. unfold categorized in Hp, Hq.
      apply in_map_iff in Hp. apply in_map_iff in Hq.
      destruct Hp as [p' [<- Hp]]. destruct Hq as [q' [<- Hq]].
      apply Hone; assumption.
Qed.

End Facts.

End Orchestrator.

(** ** A run of the processor on three products *)

Module Scenario.
Import OKPD2ClassifierAgent QualityValidationAgent MTRProcessor.
Import Pipeline Grouping Orchestrator Json.

Definition product_of (code name unit : string) (c : ProductCategory) : Product pyval :=
  mkProduct (py code) (py name) (py unit) (py "") c None None None [] PENDING None 0 None.

(** A hammer whose category is still to be detected, a tire whose research
    raises, and a hammer counted in kilograms. *)
Definition hammer_a : Product pyval := product_of "A" "Молоток Stanley слесарный" "шт" UNKNOWN.
Definition tire_b : Product pyval := product_of "B" "Шина зимняя Nokian" "шт" TIRE.
Definition hammer_c : Product pyval := product_of "C" "Молоток Gross" "кг" HAMMER.

Definition input : list (Product pyval) := [hammer_a; tire_b; hammer_c].

Definition no_learned_patterns : dict (list pystr) := [].

Definition research_stub (p : Product pyval) (c : ProductCategory)
  : result (option (ResearchResult pyval)) :=
  if str_eqb (internal_code p) (py "B") then Raise (py "research timed out")
  else Ok (Some {| product_name := original_name p;
                   manufacturer := Some (py "Stanley");
                   model := Some (py "STHT-51");
                   r_specifications :=
                     [(py "striker_weight_kg", PStr (py "0.5"));
                      (py "length_mm", PInt 320);
                      (py "type", PStr (py "слесарный"));
                      (py "handle_material", PStr (py "дерево"))];
                   sources := [];
                   r_confidence := 0.7 |}).

Definition candidates_stub (p : Product pyval) (c : ProductCategory)
           (r : option (ResearchDict pyval)) : result (list Candidate) :=
  Ok [ {| c_code := py "25.73.30.123"; c_name := py "Молотки слесарные";
          c_level := Some 4%Z |};
       {| c_code := py "25.73.30"; c_name := py "Инструмент ручной";
          c_level := Some 3%Z |} ].

Definition llm_stub (name : pystr) (issues : list pystr) : result pystr :=
  Raise (py "no network").

Abbreviation output :=
  (process_file no_learned_patterns research_stub candidates_stub llm_stub input).

(** The stages raise for the tire and for no other product. *)
Lemma only_the_tire_fails :
  In tire_b input /\
  outcome research_stub candidates_stub llm_stub
          (categorize_one no_learned_patterns tire_b)
  = Raise (py "research timed out") /\
  (forall p, In p input -> p <> tire_b ->
             exists q, outcome research_stub candidates_stub llm_stub
                               (categorize_one no_learned_patterns p) = Ok q).
Proof.
  split; [right; left; reflexivity|].
  split; [vm_compute; reflexivity|].
  intros p [<-|[<-|[<-|[]]]] Hne.
  - destruct (outcome research_stub candidates_stub llm_stub
                      (categorize_one no_learned_patterns hammer_a)) as [q|e] eqn:E;
      [exists q; reflexivity|vm_compute in E; discriminate E].
  - contradiction Hne. reflexivity.
  - destruct (outcome research_stub candidates_stub llm_stub
                      (categorize_one no_learned_patterns hammer_c)) as [q|e] eqn:E;
      [exists q; reflexivity|vm_compute in E; discriminate E].
Defined.

(** C2, as stated, fails: exactly one product fails, the output has three
    products, the failed one has its message, the others are completed or
    rejected, but the output order A, C, B is not the input order A, B, C. *)
Lemma C2_counterexample :
  (In tire_b input /\
   outcome research_stub candidates_stub llm_stub
           (categorize_one no_learned_patterns tire_b)
   = Raise (py "research timed out") /\
   (forall p, In p input -> p <> tire_b ->
              exists q, outcome research_stub candidates_stub llm_stub
                                (categorize_one no_learned_patterns p) = Ok q)) /\
  map (@internal_code pyval) input = map py ["A"; "B"; "C"] /\
  map (@internal_code pyval) output = map py ["A"; "C"; "B"] /\
  map (@status pyval) output = [COMPLETED; REJECTED; FAILED] /\
  map (@internal_code pyval) output <> map (@internal_code pyval) input.
Proof.
  split; [exact only_the_tire_fails|].
  split; [vm_compute; reflexivity|].
  split; [vm_compute; reflexivity|].
  split; [vm_compute; reflexivity|].
  intro H. vm_compute in H. discriminate H.
Qed.

(** The amended C2 on the three products. *)
Lemma C2_witness :
  List.length output = List.length input /\
  output = map (finish research_stub candidates_stub llm_stub)
               (regroup (categorized no_learned_patterns input)) /\
  status (finish research_stub candidates_stub llm_stub
                 (categorize_one no_learned_patterns tire_b)) = FAILED.
Proof.
  destruct only_the_tire_fails as [Hin [Hfail Hothers]].
  destruct (C2_process_file_regroups no_learned_patterns research_stub
              candidates_stub llm_stub input Hin Hfail Hothers)
    as [L [S [_ [[F _] _]]]].
  split; [exact L|]. split; [exact S|exact F].
Defined.

(** C7 on the first product of the output, the completed hammer. *)
Lemma C7_witness :
  In (hd hammer_a output) output /\
  status (hd hammer_a output) = COMPLETED /\
  (exists code, okpd2_code (hd hammer_a output) = Some code) /\
  (exists unit, normalized_unit (hd hammer_a output) = Some unit).
Proof.
  assert (I : In (hd hammer_a output) output) by (vm_compute; left; reflexivity).
  assert (S : status (hd hammer_a output) = COMPLETED) by (vm_compute; reflexivity).
  split; [exact I|]. split; [exact S|].
  destruct (C7_terminal_products no_learned_patterns research_stub
              candidates_stub llm_stub input (hd hammer_a output) I)
    as [_ [C _]].
  exact (C S).
Defined.

(** C10, as stated, fails: the tire, whose research raises, is returned as
    the third product of the output, failed, and with no normalized unit. *)
Lemma C10_counterexample :
  In (nth 2 output hammer_a) output /\
  internal_code (nth 2 output hammer_a) = py "B" /\
  status (nth 2 output hammer_a) = FAILED /\
  normalized_unit (nth 2 output hammer_a) = None /\
  ~ (forall p, In p output -> exists unit, normalized_unit p = Some unit).
Proof.
  assert (I : In (nth 2 output hammer_a) output)
    by (vm_compute; right; right; left; reflexivity).
  assert (N : normalized_unit (nth 2 output hammer_a) = None)
    by (vm_compute; reflexivity).
  split; [exact I|].
  split; [vm_compute; reflexivity|].
  split; [vm_compute; reflexivity|].
  split; [exact N|].
  intro H. destruct (H _ I) as [unit U]. rewrite N in U. discriminate U.
Qed.

(** The amended C10 on the second product of the output, the hammer counted
    in kilograms: its unit is kept. *)
Lemma C10_witness :
  In (nth 1 output hammer_a) output /\
  status (nth 1 output hammer_a) <> FAILED /\
  normalized_unit (nth 1 output hammer_a)
  = Some (_get_normalized_unit (nth 1 output hammer_a)
                               (category (nth 1 output hammer_a))).
Proof.
  assert (I : In (nth 1 output hammer_a) output)
    by (vm_compute; right; left; reflexivity).
  assert (S : status (nth 1 output hammer_a) <> FAILED)
    by (vm_compute; intro H; discriminate H).
  split; [exact I|]. split; [exact S|].
  exact (proj1 (C10_normalized_unit no_learned_patterns research_stub
                  candidates_stub llm_stub input (nth 1 output hammer_a) I S)).
Defined.

End Scenario.

(** ** Substrings, case folding and [_normalize_text] *)

Module TextFacts.
Import CategoryDetector.

Lemma in_range_spec (lo hi c : N) :
  in_range lo hi c = true <-> (lo <= c /\ c <= hi)%N.
Proof.
  unfold in_range. rewrite andb_true_iff, !N.leb_le. reflexivity.
Qed.

Lemma in_range_false (lo hi c : N) :
  (c < lo \/ hi < c)%N -> in_range lo hi c = false.
Proof.
  intro H. unfold in_range. apply andb_false_iff.
  rewrite !N.leb_gt. exact H.
Qed.

Lemma startswith_app (s p : pystr) :
  startswith s p = true <-> exists post, s = p ++ post.
Proof.
  revert s. induction p as [|x p IH]; intro s.
  - destruct s; simpl; split; intros _; try reflexivity; eexists; reflexivity.
  - destruct s as [|y s]; simpl.
    + split; [discriminate|]. intros [post H]. discriminate H.
    + rewrite andb_true_iff, N.eqb_eq, IH. split.
      * intros [-> [post ->]]. exists post. reflexivity.
      * intros [post H]. injection H as -> ->. split; [reflexivity|].
        exists post. reflexivity.
Qed.

Lemma contains_cons (c : N) (hay needle : pystr) :
  contains (c :: hay) needle = startswith (c :: hay) needle || contains hay needle.
Proof. reflexivity. Qed.

Lemma contains_nil (needle : pystr) :
  contains [] needle = startswith [] needle.
Proof. simpl. apply orb_false_r. Qed.

(** [needle in hay] holds exactly when [hay] splits around [needle]. *)
Lemma contains_app (hay needle : pystr) :
  contains hay needle = true <-> exists pre post, hay = pre ++ needle ++ post.
Proof.
  split.
  - induction hay as [|c hay IH].
    + rewrite contains_nil, startswith_app. intros [post H].
      exists [], post. exact H.
    + rewrite contains_cons, orb_true_iff, startswith_app.
      intros [[post H]|H].
      * exists [], post. exact H.
      * destruct (IH H) as [pre [post ->]]. exists (c :: pre), post. reflexivity.
  - intros [pre [post ->]]. induction pre as [|c pre IH].
    + change ([] ++ needle ++ post) with (needle ++ post).
      destruct (needle ++ post) eqn:E.
      * rewrite contains_nil. apply startswith_app. exists [].
        apply app_eq_nil in E. destruct E as [-> _]. reflexivity.
      * rewrite contains_cons, <- E. apply orb_true_iff. left.
        apply startswith_app. exists post. reflexivity.
    + change ((c :: pre) ++ needle ++ post) with (c :: (pre ++ needle ++ post)).
      rewrite contains_cons, IH. apply orb_true_r.
Qed.

Lemma lower_app (a b : pystr) : lower (a ++ b) = lower a ++ lower b.
Proof. apply map_app. Qed.

(** A literal occurrence is also an occurrence regardless of case. *)
Lemma contains_lower (hay needle : pystr) :
  contains hay needle = true -> contains (lower hay) (lower needle) = true.
Proof.
  rewrite !contains_app. intros [pre [post ->]].
  exists (lower pre), (lower post). rewrite !lower_app. reflexivity.
Qed.

(** The lower-case letters the keywords are written with: [a-z] and [а-я]. *)
Definition letter (d : N) : bool := in_range 97 122 d || in_range 1072 1103 d.

(** A character that folds to such a letter is that letter or its capital. *)
Lemma lower_char_letter (c d : N) :
  letter d = true -> lower_char c = d ->
  ((65 <= c /\ c <= 90) \/ (97 <= c /\ c <= 122) \/ (1040 <= c /\ c <= 1103))%N.
Proof.
  unfold letter, lower_char. rewrite orb_true_iff, !in_range_spec.
  intros L E.
  destruct (in_range 65 90 c) eqn:A; [apply in_range_spec in A; lia|].
  destruct (in_range 192 222 c && negb (c =? 215)%N) eqn:B.
  { apply andb_true_iff in B. destruct B as [B _]. apply in_range_spec in B. lia. }
  destruct (in_range 1040 1071 c) eqn:C; [apply in_range_spec in C; lia|].
  destruct (in_range 1024 1039 c) eqn:F; [apply in_range_spec in F; lia|].
  lia.
Qed.

Ltac disjuncts_false :=
  repeat (apply orb_false_intro);
  first [apply in_range_false; lia | apply N.eqb_neq; lia].

Lemma letter_not_space (c d : N) :
  letter d = true -> lower_char c = d -> is_space c = false.
Proof.
  intros L E. pose proof (@lower_char_letter c d L E) as R.
  unfold is_space. disjuncts_false.
Qed.

Lemma letter_kept (c d : N) :
  letter d = true -> lower_char c = d -> kept c = true.
Proof.
  intros L E. pose proof (@lower_char_letter c d L E) as R.
  unfold kept. destruct R as [R|[R|R]].
  - assert (W : is_word c = true).
    { unfold is_word. apply in_range_spec in R. rewrite R.
      rewrite orb_true_r. reflexivity. }
    rewrite W. reflexivity.
  - assert (W : is_word c = true).
    { unfold is_word. apply in_range_spec in R. rewrite R.
      rewrite orb_true_r. reflexivity. }
    rewrite W. reflexivity.
  - apply in_range_spec in R. rewrite R. apply orb_true_r.
Qed.

(** A run of characters that [_normalize_text] leaves alone. *)
Definition solid (occ : pystr) : Prop :=
  forall c, In c occ -> is_space c = false /\ kept c = true.

Lemma solid_cons (c : N) (occ : pystr) :
  solid (c :: occ) -> (is_space c = false /\ kept c = true) /\ solid occ.
Proof.
  intro H. split; [apply H; left; reflexivity|].
  intros x Hx. apply H. right. exact Hx.
Qed.

Lemma solid_rev (occ : pystr) : solid occ -> solid (rev occ).
Proof. intros H c Hc. apply H. apply in_rev. exact Hc. Qed.

Lemma collapse_spaces_cons (c : N) (rest : pystr) :
  exists pfx, collapse_spaces (c :: rest) = pfx ++ collapse_spaces rest.
Proof.
  simpl. destruct (is_space c).
  - destruct rest as [|d rest'].
    + exists [32%N]. reflexivity.
    + destruct (is_space d).
      * exists []. reflexivity.
      * exists [32%N]. reflexivity.
  - exists [c]. reflexivity.
Qed.

Lemma collapse_spaces_solid (occ post : pystr) :
  solid occ -> collapse_spaces (occ ++ post) = occ ++ collapse_spaces post.
Proof.
  induction occ as [|c occ IH]; intro H; [reflexivity|].
  apply solid_cons in H. destruct H as [[S _] H].
  change ((c :: occ) ++ post) with (c :: (occ ++ post)).
  simpl collapse_spaces at 1. rewrite S, (IH H). reflexivity.
Qed.

Lemma collapse_spaces_keeps (pre occ post : pystr) :
  solid occ ->
  exists pre' post', collapse_spaces (pre ++ occ ++ post) = pre' ++ occ ++ post'.
Proof.
  intro H. induction pre as [|c pre [pre' [post' IH]]].
  - exists [], (collapse_spaces post). exact (@collapse_spaces_solid occ post H).
  - destruct (collapse_spaces_cons c (pre ++ occ ++ post)) as [pfx E].
    exists (pfx ++ pre'), post'.
    change ((c :: pre) ++ occ ++ post) with (c :: (pre ++ occ ++ post)).
    rewrite E, IH, app_assoc. reflexivity.
Qed.

Lemma blank_special_keeps (pre occ post : pystr) :
  solid occ ->
  blank_special (pre ++ occ ++ post)
  = blank_special pre ++ occ ++ blank_special post.
Proof.
  intro H. unfold blank_special. rewrite !map_app. f_equal. f_equal.
  induction occ as [|c occ IH]; [reflexivity|].
  apply solid_cons in H. destruct H as [[_ K] H].
  simpl. rewrite K, (IH H). reflexivity.
Qed.

Lemma lstrip_keeps (pre occ post : pystr) :
  occ <> [] -> solid occ ->
  exists pre', lstrip (pre ++ occ ++ post) = pre' ++ occ ++ post.
Proof.
  intros N H. induction pre as [|c pre [pre' IH]].
  - exists []. destruct occ as [|c occ]; [contradiction N; reflexivity|].
    apply solid_cons in H. destruct H as [[S _] _].
    simpl. rewrite S. reflexivity.
  - simpl. destruct (is_space c).
    + exists pre'. exact IH.
    + exists (c :: pre). reflexivity.
Qed.

Lemma strip_keeps (pre occ post : pystr) :
  occ <> [] -> solid occ ->
  exists pre' post', strip (pre ++ occ ++ post) = pre' ++ occ ++ post'.
Proof.
  intros N H. unfold strip.
  destruct (@lstrip_keeps pre occ post N H) as [pre' ->].
  rewrite !rev_app_distr, <- app_assoc.
  assert (N' : rev occ <> []).
  { intro E. apply N. rewrite <- (rev_involutive occ), E. reflexivity. }
  destruct (@lstrip_keeps (rev post) (rev occ) (rev pre') N' (@solid_rev occ H)) as [post' ->].
  exists pre', (rev post').
  rewrite !rev_app_distr, !rev_involutive, <- app_assoc. reflexivity.
Qed.

(** [_normalize_text] keeps every non-empty solid run of its argument. *)
Lemma normalize_text_keeps (pre occ post : pystr) :
  occ <> [] -> solid occ ->
  exists pre' post', _normalize_text (pre ++ occ ++ post) = pre' ++ occ ++ post'.
Proof.
  intros N H. unfold _normalize_text.
  destruct (@collapse_spaces_keeps pre occ post H) as [p1 [q1 ->]].
  rewrite (@blank_special_keeps p1 occ q1 H).
  apply strip_keeps; assumption.
Qed.

(** [keyword.lower() in name.lower()] *)
Definition mentions (name keyword : pystr) : bool :=
  contains (lower name) (lower keyword).

(** A keyword written in letters that occurs in a name, in whatever case,
    still occurs in the normalised name. *)
Lemma mentions_normalized (name keyword : pystr) :
  keyword <> [] -> forallb letter (lower keyword) = true ->
  mentions name keyword = true ->
  name <> [] /\ mentions (_normalize_text name) keyword = true.
Proof.
  intros N L M. unfold mentions in *.
  apply contains_app in M. destruct M as [pre [post M]].
  unfold lower in M at 1.
  apply map_eq_app in M. destruct M as [pre0 [rest [-> [_ M]]]].
  apply map_eq_app in M. destruct M as [occ [post0 [-> [M _]]]].
  assert (N' : occ <> []).
  { intro E. apply N. rewrite E in M. simpl in M.
    destruct keyword; [reflexivity|discriminate M]. }
  assert (H : solid occ).
  { intros c Hc.
    assert (Ld : letter (lower_char c) = true).
    { rewrite forallb_forall in L. apply L. rewrite <- M.
      apply in_map. exact Hc. }
    split; [exact (@letter_not_space c _ Ld eq_refl)|exact (@letter_kept c _ Ld eq_refl)]. }
  split.
  - intro E. apply N'. destruct pre0; [|discriminate E].
    destruct occ; [reflexivity|discriminate E].
  - destruct (@normalize_text_keeps pre0 occ post0 N' H) as [pre' [post' ->]].
    apply contains_app. exists (lower pre'), (lower post').
    rewrite !lower_app. unfold lower at 2. rewrite M. reflexivity.
Qed.

Lemma count_le {A} (p q : A -> bool) (xs : list A) :
  (forall x, In x xs -> p x = true -> q x = true) ->
  (count p xs <= count q xs)%nat.
Proof.
  unfold count. induction xs as [|x xs IH]; intro H; [apply Nat.le_refl|].
  assert (IH' : (List.length (filter p xs) <= List.length (filter q xs))%nat).
  { apply IH. intros y Hy. apply H. right. exact Hy. }
  simpl. destruct (p x) eqn:P.
  - rewrite (H x (or_introl eq_refl) P). simpl. lia.
  - destruct (q x); simpl; lia.
Qed.

Lemma count_pos {A} (p : A -> bool) (xs : list A) :
  (0 < count p xs)%nat -> exists x, In x xs /\ p x = true.
Proof.
  unfold count. induction xs as [|x xs IH]; simpl; [lia|].
  destruct (p x) eqn:P.
  - intros _. exists x. split; [left; reflexivity|exact P].
  - intro H. destruct (IH H) as [y [Hy Py]]. exists y.
    split; [right; exact Hy|exact Py].
Qed.

End TextFacts.

(** ** Category detection *)

Module Detection.
Import CategoryDetector TextFacts FloatFacts.

(** The categories that are scored: every member but [UNKNOWN]. *)
Definition supported : list ProductCategory :=
  [PRESSURE_SENSOR; STEEL_CIRCLE; HAMMER; TIRE].

(** The largest of a non-empty collection of scores. *)
Definition maximum (first : float) (rest : list float) : float :=
  fold_left (fun m s => if (m <? s)%float then s else m) rest first.

(** A name of whitespace only (the empty name included). *)
Definition blank (name : pystr) : bool := forallb is_space name.

(** [self.categories[category.value].get("keywords", [])] *)
Definition keywords_of (c : ProductCategory) : list pystr :=
  match dict_get (KStr (value c)) PRODUCT_CATEGORIES with
  | Some cfg => keywords cfg
  | None => []
  end.

(** No keyword of a category other than [c] occurs in the name. *)
Definition others_absent (name : pystr) (c : ProductCategory) : bool :=
  forallb (fun c' =>
             category_eqb c' c
             || forallb (fun k => negb (mentions name k)) (keywords_of c'))
          members.

Definition nonempty (s : pystr) : bool :=
  match s with [] => false | _ :: _ => true end.

Lemma supported_members :
  filter (fun category => negb (category_eqb category UNKNOWN)) members = supported.
Proof. reflexivity. Qed.

Lemma supported_spec (c : ProductCategory) : In c supported <-> c <> UNKNOWN.
Proof.
  split.
  - intros H E. subst c. simpl in H. intuition discriminate.
  - intro H. destruct c; simpl; auto 6; contradiction H; reflexivity.
Qed.

(** *** The entry chosen by [max(scores, key=scores.get)] *)

Section Best.
Variable f : ProductCategory -> float.

Definition scored (cs : list ProductCategory) : list (ProductCategory * float) :=
  map (fun c => (c, f c)) cs.

Lemma best_of_maximum (l : list (ProductCategory * float)) (b : ProductCategory * float) :
  snd (best_of b l) = maximum (snd b) (map snd l).
Proof.
  revert b. induction l as [|x l IH]; intro b; [reflexivity|].
  simpl. unfold maximum. simpl.
  destruct (snd b <? snd x)%float; apply IH.
Qed.

Lemma scored_snd (cs : list ProductCategory) : map snd (scored cs) = map f cs.
Proof.
  unfold scored. rewrite map_map. reflexivity.
Qed.

(** The chosen category carries its own score; the categories before it
    score strictly less and those after it score no more. *)
Lemma best_of_split (cs : list ProductCategory) (c0 : ProductCategory) :
  exists l1 l2,
    c0 :: cs = l1 ++ fst (best_of (c0, f c0) (scored cs)) :: l2 /\
    snd (best_of (c0, f c0) (scored cs)) = f (fst (best_of (c0, f c0) (scored cs))) /\
    (forall x, In x l1 -> f x < f (fst (best_of (c0, f c0) (scored cs)))) /\
    (forall x, In x l2 -> f x <= f (fst (best_of (c0, f c0) (scored cs)))).
Proof.
  revert c0. induction cs as [|c1 cs IH]; intro c0.
  - exists [], []. simpl. repeat split; intros x [].
  - simpl. destruct (f c0 <? f c1)%float eqn:E.
    + apply ltb_lt in E.
      destruct (IH c1) as [l1 [l2 [S [V [B A]]]]].
      exists (c0 :: l1), l2.
      split; [simpl; f_equal; exact S|].
      split; [exact V|].
      split; [|exact A].
      intros x [<-|Hx]; [|apply B; exact Hx].
      apply (Qlt_le_trans _ (f c1)); [exact E|].
      destruct l1 as [|y l1]; simpl in S; injection S as S1 S2.
      * rewrite <- S1. apply Qle_refl.
      * apply Qlt_le_weak. apply B. left. symmetry. exact S1.
    + apply ltb_ge in E.
      destruct (IH c0) as [l1 [l2 [S [V [B A]]]]].
      destruct l1 as [|y l1]; simpl in S; injection S as S1 S2.
      * exists [], (c1 :: l2).
        split; [simpl; f_equal; [exact S1|f_equal; exact S2]|].
        split; [exact V|].
        split; [intros x []|].
        intros x [<-|Hx]; [|apply A; exact Hx].
        rewrite <- S1. exact E.
      * exists (c0 :: c1 :: l1), l2.
        split; [simpl; f_equal; f_equal; exact S2|].
        split; [exact V|].
        split; [|exact A].
        assert (B0 : f c0 < f (fst (best_of (c0, f c0) (scored cs)))).
        { apply B. left. symmetry. exact S1. }
        intros x [<-|[<-|Hx]].
        -- exact B0.
        -- apply (Qle_lt_trans _ (f c0)); [exact E|exact B0].
        -- apply B. right. exact Hx.
Qed.

Lemma find_first (l1 l2 : list ProductCategory) (c : ProductCategory) (m : float) :
  (forall x, In x l1 -> f x < m) -> f c = m ->
  find (fun x => Qeq_bool (f x) m) (l1 ++ c :: l2) = Some c.
Proof.
  intros B E. induction l1 as [|y l1 IH]; simpl.
  - rewrite E, (proj2 (Qeq_bool_iff m m) (Qeq_refl m)). reflexivity.
  - destruct (Qeq_bool (f y) m) eqn:Y.
    + apply Qeq_bool_iff in Y. exfalso.
      apply (Qlt_not_eq (f y) m); [apply B; left; reflexivity|exact Y].
    + apply IH. intros x Hx. apply B. right. exact Hx.
Qed.

End Best.

(** *** [detect_category] against its description *)

Section Spec.
Context {D : Detector}.

(** The maximum category score of a normalised name. *)
Definition max_score (text : pystr) : float :=
  match map (_calculate_category_score text) supported with
  | [] => 0
  | s :: ss => maximum s ss
  end.

(** The first category, in declaration order, that reaches it. *)
Definition max_scoring (text : pystr) : ProductCategory :=
  match find (fun c => Qeq_bool (_calculate_category_score text c) (max_score text))
             supported with
  | Some c => c
  | None => UNKNOWN
  end.

(** Detection as described: a blank name gives [(UNKNOWN, 0.0)]; a maximum
    score below 0.3 gives [UNKNOWN] with that score; otherwise the
    maximum-scoring category with its score. *)
Definition spec_detect (name : pystr) : ProductCategory * float :=
  if blank name then (UNKNOWN, 0)
  else
    let text := _normalize_text name in
    if (max_score text <? 0.3)%float then (UNKNOWN, max_score text)
    else (max_scoring text, max_score text).

(** The entry [detect_category] picks for a normalised name. *)
Definition winner (text : pystr) : ProductCategory * float :=
  best_of (PRESSURE_SENSOR, _calculate_category_score text PRESSURE_SENSOR)
          (scored (_calculate_category_score text) [STEEL_CIRCLE; HAMMER; TIRE]).

Lemma detect_category_winner (name : pystr) :
  name <> [] ->
  detect_category name
  = if (snd (winner (_normalize_text name)) <? 0.3)%float
    then (UNKNOWN, snd (winner (_normalize_text name)))
    else winner (_normalize_text name).
Proof.
  intro N. destruct name as [|c name]; [contradiction N; reflexivity|].
  unfold detect_category, category_scores. rewrite supported_members.
  cbv zeta. remember (_normalize_text (c :: name)) as text.
  change (map (fun category => (category, _calculate_category_score text category))
              supported)
    with ((PRESSURE_SENSOR, _calculate_category_score text PRESSURE_SENSOR)
            :: scored (_calculate_category_score text) [STEEL_CIRCLE; HAMMER; TIRE]).
  cbv iota. fold (winner text). destruct (winner text) as [b conf]. reflexivity.
Qed.

Lemma winner_max_score (text : pystr) : snd (winner text) = max_score text.
Proof.
  unfold winner, max_score. rewrite best_of_maximum, scored_snd. reflexivity.
Qed.

Lemma winner_facts (text : pystr) :
  In (fst (winner text)) supported /\
  fst (winner text) = max_scoring text /\
  (forall c, c <> UNKNOWN ->
             _calculate_category_score text c <= snd (winner text)).
Proof.
  destruct (best_of_split (_calculate_category_score text)
                          [STEEL_CIRCLE; HAMMER; TIRE] PRESSURE_SENSOR)
    as [l1 [l2 [S [V [B A]]]]].
  fold (winner text) in S, V, B, A.
  change (PRESSURE_SENSOR :: [STEEL_CIRCLE; HAMMER; TIRE]) with supported in S.
  split; [rewrite S; apply in_or_app; right; left; reflexivity|].
  split.
  - unfold max_scoring. rewrite <- winner_max_score. rewrite S.
    rewrite (@find_first (_calculate_category_score text) l1 l2 (fst (winner text))
                         (snd (winner text)));
      [reflexivity| |symmetry; exact V].
    intros x Hx. rewrite V. apply B. exact Hx.
  - intros c Hc. apply supported_spec in Hc. rewrite S in Hc. rewrite V.
    apply in_app_or in Hc. destruct Hc as [Hc|[<-|Hc]].
    + apply Qlt_le_weak. apply B. exact Hc.
    + apply Qle_refl.
    + apply A. exact Hc.
Qed.

Lemma collapse_spaces_blank (name : pystr) :
  name <> [] -> blank name = true -> collapse_spaces name = [32%N].
Proof.
  induction name as [|c name IH]; intros N B; [contradiction N; reflexivity|].
  simpl in B. apply andb_true_iff in B. destruct B as [C B].
  simpl. rewrite C. destruct name as [|d name]; [reflexivity|].
  assert (E : is_space d = true).
  { simpl in B. apply andb_true_iff in B. apply B. }
  rewrite E. apply IH; [discriminate|exact B].
Qed.

Lemma normalize_text_blank (name : pystr) :
  name <> [] -> blank name = true -> _normalize_text name = [].
Proof.
  intros N B. unfold _normalize_text.
  rewrite (collapse_spaces_blank N B). reflexivity.
Qed.

(** A detector scores the empty text at zero in every category. *)
Hypothesis empty_text_scores :
  forall c, c <> UNKNOWN -> _calculate_category_score [] c = 0.

Lemma winner_empty : winner [] = (PRESSURE_SENSOR, 0).
Proof.
  unfold winner, scored. simpl.
  rewrite !empty_text_scores by discriminate. reflexivity.
Qed.

Lemma detect_category_spec (name : pystr) :
  detect_category name = spec_detect name.
Proof.
  unfold spec_detect. destruct name as [|c name]; [reflexivity|].
  rewrite detect_category_winner by discriminate.
  destruct (blank (c :: name)) eqn:B.
  - rewrite normalize_text_blank by (discriminate || exact B).
    rewrite winner_empty. reflexivity.
  - cbv zeta. destruct (winner_facts (_normalize_text (c :: name))) as [_ [F _]].
    rewrite <- F, <- winner_max_score.
    destruct (snd (winner (_normalize_text (c :: name))) <? 0.3)%float;
      [reflexivity|].
    destruct (winner (_normalize_text (c :: name))). reflexivity.
Qed.

(** C9: [detect_category] is the described function: a blank name gives
    [(UNKNOWN, 0.0)], a name whose maximum category score is below 0.3 gives
    [UNKNOWN] with that score, and every other name gives the maximum-scoring
    category (the first one in declaration order) with its score; hence
    [UNKNOWN] is returned exactly for blank names and for maximum scores
    below 0.3. *)
Theorem C9_detect_category_refines (name : pystr) :
  detect_category name = spec_detect name /\
  (fst (detect_category name) = UNKNOWN <->
   blank name = true \/ max_score (_normalize_text name) < 0.3).
Proof.
  split; [apply detect_category_spec|].
  rewrite detect_category_spec. unfold spec_detect.
  destruct (blank name) eqn:B.
  - split; [intros _; left; reflexivity|reflexivity].
  - cbv zeta.
    destruct (max_score (_normalize_text name) <? 0.3)%float eqn:L.
    + apply ltb_lt in L. split; [intros _; right; exact L|reflexivity].
    + apply ltb_ge in L. simpl. split.
      * intro U. exfalso.
        destruct (winner_facts (_normalize_text name)) as [I [F _]].
        rewrite F, U in I. apply supported_spec in I. apply I. reflexivity.
      * intros [H|H]; [discriminate H|].
        exfalso. apply (Qlt_not_le _ _ H L).
Qed.

(** A category that scores 0.3 or more keeps the detector off [UNKNOWN]. *)
Lemma detect_at_least (name : pystr) (c : ProductCategory) :
  name <> [] -> c <> UNKNOWN ->
  0.3 <= _calculate_category_score (_normalize_text name) c ->
  fst (detect_category name) <> UNKNOWN /\
  _calculate_category_score (_normalize_text name) c <= snd (detect_category name).
Proof.
  intros N Hc S. rewrite detect_category_winner by exact N.
  destruct (winner_facts (_normalize_text name)) as [I [_ M]].
  specialize (M c Hc).
  destruct (snd (winner (_normalize_text name)) <? 0.3)%float eqn:L.
  - apply ltb_lt in L. exfalso.
    apply (Qlt_not_le _ _ L). apply (Qle_trans _ _ _ S M).
  - split; [apply supported_spec; exact I|exact M].
Qed.

End Spec.

(** The base detector scores the empty text at zero. *)
Lemma base_empty_text_scores (c : ProductCategory) :
  c <> UNKNOWN -> base_score [] c = 0.
Proof.
  intro H. destruct c; [vm_compute; reflexivity..|contradiction H; reflexivity].
Qed.

(** *** Keywords *)

Lemma keywords_letters (c : ProductCategory) (k : pystr) :
  In k (keywords_of c) -> k <> [] /\ forallb letter (lower k) = true.
Proof.
  assert (A : forallb (fun k => nonempty k && forallb letter (lower k))
                      (keywords_of c) = true)
    by (destruct c; vm_compute; reflexivity).
  intro H. rewrite forallb_forall in A. specialize (A k H).
  apply andb_true_iff in A. destruct A as [N L].
  split; [|exact L]. intro E. rewrite E in N. discriminate N.
Qed.

(** The keywords found in a name are found in its normalised form. *)
Lemma count_keywords_normalized (name : pystr) (c : ProductCategory) :
  (count (mentions name) (keywords_of c)
   <= count (mentions (_normalize_text name)) (keywords_of c))%nat.
Proof.
  apply count_le. intros k Hk M.
  destruct (@keywords_letters c k Hk) as [N L].
  exact (proj2 (@mentions_normalized name k N L M)).
Qed.

Lemma two_keywords_nonempty (name : pystr) (c : ProductCategory) :
  (2 <= count (mentions name) (keywords_of c))%nat -> name <> [].
Proof.
  intro H.
  destruct (@count_pos _ (mentions name) (keywords_of c)) as [k [Hk M]]; [lia|].
  destruct (@keywords_letters c k Hk) as [N L].
  exact (proj1 (@mentions_normalized name k N L M)).
Qed.

Lemma pattern_part_nonneg (n : nat) : 0 <= (0 + of_nat n * 0.3)%float.
Proof.
  rewrite add_spec, mul_spec. pose proof (of_nat_nonneg n). lra.
Qed.

(** Two keywords alone bring the base score to 0.4. *)
Lemma base_score_two (text : pystr) (c : ProductCategory) :
  c <> UNKNOWN ->
  (2 <= count (mentions text) (keywords_of c))%nat ->
  0.4 <= base_score text c.
Proof.
  intros Hc H. unfold base_score. cbv zeta.
  rewrite EnumKeys.value_in_PRODUCT_CATEGORIES.
  replace (category_eqb c UNKNOWN) with false
    by (destruct c; try reflexivity; contradiction Hc; reflexivity).
  cbv [negb]. unfold keywords_of in H.
  destruct (dict_get (KStr (value c)) PRODUCT_CATEGORIES) as [cfg|] eqn:G;
    [|unfold count in H; simpl in H; lia].
  fold (mentions text).
  match goal with
  | |- _ <= Float.min (Float.add ?P _) _ => assert (HP : 0 <= P); [|set (p := P) in *]
  end.
  { destruct (dict_in (KEnum c) patterns); [|apply Qle_refl].
    destruct (dict_get (KEnum c) patterns); [|apply Qle_refl].
    apply pattern_part_nonneg. }
  apply min_glb; [|lra].
  rewrite add_spec, mul_spec.
  pose proof (@of_nat_le _ _ H) as K.
  change (of_nat 2) with 2 in K.
  change (fun keyword : pystr => contains (lower text) (lower keyword))
    with (mentions text).
  lra.
Qed.

Lemma base_score_le_smart (learned_patterns : dict (list pystr))
      (text : pystr) (c : ProductCategory) (x : float) :
  x <= 1 -> x <= base_score text c -> x <= smart_score learned_patterns text c.
Proof.
  intros X H. unfold smart_score. cbv zeta.
  apply min_glb; [|exact X].
  destruct (dict_in (KEnum c) learned_patterns); [|exact H].
  destruct (dict_get (KEnum c) learned_patterns) as [ps|]; [|exact H].
  rewrite add_spec, mul_spec.
  pose proof (of_nat_nonneg
                (count (fun pattern => contains (lower text) pattern) ps)).
  lra.
Qed.

(** Two keywords of a supported category in the name, in whatever case and
    whatever else the name holds, keep both detectors off [UNKNOWN]. *)
Lemma two_keywords_detected (learned_patterns : dict (list pystr))
      (c : ProductCategory) (name : pystr) :
  c <> UNKNOWN ->
  (2 <= count (mentions name) (keywords_of c))%nat ->
  (fst (@detect_category CategoryDetector name) <> UNKNOWN /\
   0.3 <= snd (@detect_category CategoryDetector name)) /\
  (fst (@detect_category (SmartCategoryDetector learned_patterns) name) <> UNKNOWN /\
   0.3 <= snd (@detect_category (SmartCategoryDetector learned_patterns) name)).
Proof.
  intros Hc H.
  pose proof (@two_keywords_nonempty name c H) as N.
  assert (B : 0.4 <= base_score (_normalize_text name) c).
  { apply base_score_two; [exact Hc|].
    apply (Nat.le_trans _ _ _ H). apply count_keywords_normalized. }
  assert (S : 0.4 <= smart_score learned_patterns (_normalize_text name) c).
  { apply base_score_le_smart; [lra|exact B]. }
  split.
  - destruct (@detect_at_least CategoryDetector name c N Hc) as [U L].
    + simpl. lra.
    + split; [exact U|]. simpl in L. lra.
  - destruct (@detect_at_least (SmartCategoryDetector learned_patterns) name c N Hc)
      as [U L].
    + simpl. lra.
    + split; [exact U|]. simpl in L. lra.
Qed.

(** C8: for every supported category, a name that contains at least two of
    the category's declared keywords and no keyword of any other category
    is detected with confidence at least 0.3 and not as [UNKNOWN], by the
    base detector and by the learning detector whatever it has learned.
    (The absence of other keywords is not needed for the conclusion.) *)
Theorem C8_two_keywords_confident (learned_patterns : dict (list pystr))
        (c : ProductCategory) (name : pystr) :
  c <> UNKNOWN ->
  (2 <= count (mentions name) (keywords_of c))%nat ->
  others_absent name c = true ->
  (fst (@detect_category CategoryDetector name) <> UNKNOWN /\
   0.3 <= snd (@detect_category CategoryDetector name)) /\
  (fst (@detect_category (SmartCategoryDetector learned_patterns) name) <> UNKNOWN /\
   0.3 <= snd (@detect_category (SmartCategoryDetector learned_patterns) name)).
Proof.
  intros Hc H _. exact (@two_keywords_detected learned_patterns c name Hc H).
Qed.

(** C8 on a hammer named by both of its keywords. *)
Lemma C8_witness :
  HAMMER <> UNKNOWN /\
  (2 <= count (mentions (py "Молоток Hammer 500 г")) (keywords_of HAMMER))%nat /\
  others_absent (py "Молоток Hammer 500 г") HAMMER = true /\
  fst (@detect_category CategoryDetector (py "Молоток Hammer 500 г")) <> UNKNOWN /\
  0.3 <= snd (@detect_category CategoryDetector (py "Молоток Hammer 500 г")).
Proof.
  assert (A : HAMMER <> UNKNOWN) by discriminate.
  assert (B : (2 <= count (mentions (py "Молоток Hammer 500 г"))
                          (keywords_of HAMMER))%nat)
    by (vm_compute; apply le_n).
  assert (C : others_absent (py "Молоток Hammer 500 г") HAMMER = true)
    by (vm_compute; reflexivity).
  split; [exact A|]. split; [exact B|]. split; [exact C|].
  exact (proj1 (@C8_two_keywords_confident [] HAMMER (py "Молоток Hammer 500 г")
                  A B C)).
Defined.

(** C9 for the base detector, on a name of two spaces. *)
Lemma C9_witness :
  (forall c, c <> UNKNOWN -> base_score [] c = 0) /\
  @detect_category CategoryDetector (py "  ")
  = @spec_detect CategoryDetector (py "  ").
Proof.
  split; [exact base_empty_text_scores|].
  exact (proj1 (@C9_detect_category_refines CategoryDetector
                  base_empty_text_scores (py "  "))).
Defined.

End Detection.

(** ** More on the detector: scores, learning and normalisation *)

Module DetectorFacts.
Import CategoryDetector TextFacts FloatFacts Detection.

Lemma min_le_r (x y : float) : Float.min x y <= y.
Proof.
  unfold Float.min. destruct (y <? x)%float eqn:E.
  - apply Qle_refl.
  - apply ltb_ge in E. exact E.
Qed.

Lemma min_le_l (x y : float) : Float.min x y <= x.
Proof.
  unfold Float.min. destruct (y <? x)%float eqn:E.
  - apply ltb_lt in E. apply Qlt_le_weak. exact E.
  - apply Qle_refl.
Qed.

(** [min(x, 1.0)] is [x] itself when [x] does not exceed 1. *)
Lemma min_one_id (x : float) : x <= 1 -> Float.min x 1 = x.
Proof.
  intro H. unfold Float.min. destruct (1 <? x)%float eqn:E; [|reflexivity].
  apply ltb_lt in E. exfalso. apply (Qlt_not_le _ _ E H).
Qed.

Lemma term_nonneg (s : float) (n : nat) (w : float) :
  0 <= s -> 0 <= w -> 0 <= (s + of_nat n * w)%float.
Proof.
  intros Hs Hw. rewrite add_spec, mul_spec.
  pose proof (of_nat_nonneg n) as Hn.
  assert (0 <= of_nat n * w) by (apply Qmult_le_0_compat; assumption).
  lra.
Qed.

Lemma base_score_range (text : pystr) (c : ProductCategory) :
  0 <= base_score text c /\ base_score text c <= 1.
Proof.
  unfold base_score. cbv zeta. split; [|apply min_le_r].
  apply min_glb; [|lra].
  assert (P : 0 <= (if dict_in (KEnum c) patterns
                    then match dict_get (KEnum c) patterns with
                         | Some ps =>
                           (0 + of_nat (count (fun pattern => Re.search pattern text) ps)
                                * 0.3)%float
                         | None => 0
                         end
                    else 0)).
  { destruct (dict_in (KEnum c) patterns); [|apply Qle_refl].
    destruct (dict_get (KEnum c) patterns); [|apply Qle_refl].
    apply term_nonneg; lra. }
  destruct (dict_in (KStr (value c)) PRODUCT_CATEGORIES); [|exact P].
  destruct (dict_get (KStr (value c)) PRODUCT_CATEGORIES); [|exact P].
  apply term_nonneg; [exact P|lra].
Qed.

Lemma smart_score_range (learned_patterns : dict (list pystr))
      (text : pystr) (c : ProductCategory) :
  base_score text c <= smart_score learned_patterns text c /\
  smart_score learned_patterns text c <= 1.
Proof.
  destruct (base_score_range text c) as [B0 B1].
  split.
  - apply base_score_le_smart; [exact B1|apply Qle_refl].
  - unfold smart_score. cbv zeta. apply min_le_r.
Qed.

(** Without learned patterns the learning detector scores as the base one. *)
Lemma smart_score_fresh (text : pystr) (c : ProductCategory) :
  smart_score [] text c = base_score text c.
Proof.
  unfold smart_score. cbv zeta. cbn [dict_in existsb].
  apply min_one_id. apply base_score_range.
Qed.

Section Range.
Context {D : Detector}.
Hypothesis score_range :
  forall text c, 0 <= _calculate_category_score text c /\
                 _calculate_category_score text c <= 1.

Lemma winner_score (text : pystr) :
  snd (winner text) = _calculate_category_score text (fst (winner text)).
Proof.
  destruct (best_of_split (_calculate_category_score text)
                          [STEEL_CIRCLE; HAMMER; TIRE] PRESSURE_SENSOR)
    as [l1 [l2 [_ [V _]]]].
  exact V.
Qed.

Lemma detect_category_range (name : pystr) :
  0 <= snd (detect_category name) /\ snd (detect_category name) <= 1.
Proof.
  destruct name as [|c name]; [cbn; split; lra|].
  rewrite detect_category_winner by discriminate.
  pose proof (winner_score (_normalize_text (c :: name))) as W.
  destruct (score_range (_normalize_text (c :: name))
                        (fst (winner (_normalize_text (c :: name))))) as [L U].
  rewrite <- W in L, U.
  destruct (snd (winner (_normalize_text (c :: name))) <? 0.3)%float;
    cbn [snd]; split; assumption.
Qed.

End Range.

(** The confidence that [detect_category] returns lies between 0 and 1, for
    the base detector and for the learning detector whatever it has
    learned. *)
Theorem detect_category_confidence_range
        (learned_patterns : dict (list pystr)) (name : pystr) :
  (0 <= snd (@detect_category CategoryDetector name) /\
   snd (@detect_category CategoryDetector name) <= 1) /\
  (0 <= snd (@detect_category (SmartCategoryDetector learned_patterns) name) /\
   snd (@detect_category (SmartCategoryDetector learned_patterns) name) <= 1).
Proof.
  split.
  - apply (@detect_category_range CategoryDetector). intros text c.
    apply base_score_range.
  - apply (@detect_category_range (SmartCategoryDetector learned_patterns)).
    intros text c. cbn [_calculate_category_score SmartCategoryDetector].
    destruct (base_score_range text c) as [B0 _].
    destruct (smart_score_range learned_patterns text c) as [S0 S1].
    split; [apply (Qle_trans _ _ _ B0 S0)|exact S1].
Qed.

(** Learned patterns never lower the score of a category, and a learning
    detector that has learned nothing detects exactly as the base
    detector. *)
Theorem smart_detector_extends_base
        (learned_patterns : dict (list pystr)) (text name : pystr)
        (c : ProductCategory) :
  base_score text c <= smart_score learned_patterns text c /\
  @detect_category (SmartCategoryDetector []) name
  = @detect_category CategoryDetector name.
Proof.
  split; [apply smart_score_range|].
  unfold detect_category, category_scores.
  cbn [_calculate_category_score SmartCategoryDetector CategoryDetector].
  destruct name as [|a name]; [reflexivity|]. cbv zeta.
  rewrite (map_ext (fun category => (category, smart_score [] (_normalize_text (a :: name)) category))
                   (fun category => (category, base_score (_normalize_text (a :: name)) category)));
    [reflexivity|].
  intro category. rewrite smart_score_fresh. reflexivity.
Qed.

(** *** The shape of a normalised name *)

Lemma collapse_spaces_unfold (a : N) (s : pystr) :
  collapse_spaces (a :: s)
  = if is_space a
    then match s with
         | [] => [32%N]
         | d :: _ => if is_space d then collapse_spaces s
                     else 32%N :: collapse_spaces s
         end
    else a :: collapse_spaces s.
Proof. reflexivity. Qed.

(** After [re.sub(r'\s+', ' ', text)] the only whitespace is the space. *)
Lemma collapse_spaces_whitespace (s : pystr) (c : N) :
  In c (collapse_spaces s) -> is_space c = true -> c = 32%N.
Proof.
  induction s as [|a s IH]; intros Hin Hs; [contradiction Hin|].
  rewrite collapse_spaces_unfold in Hin.
  destruct (is_space a) eqn:A.
  - destruct s as [|d s'].
    + destruct Hin as [<-|[]]. reflexivity.
    + destruct (is_space d).
      * apply IH; assumption.
      * destruct Hin as [<-|Hin]; [reflexivity|apply IH; assumption].
  - destruct Hin as [<-|Hin]; [congruence|apply IH; assumption].
Qed.

Lemma collapse_spaces_length (s : pystr) :
  (List.length (collapse_spaces s) <= List.length s)%nat.
Proof.
  induction s as [|a s IH]; [apply Nat.le_refl|].
  rewrite collapse_spaces_unfold.
  destruct (is_space a).
  - destruct s as [|d s']; [apply Nat.le_refl|].
    destruct (is_space d); cbn [List.length] in *; lia.
  - cbn [List.length]. lia.
Qed.

Lemma blank_special_whitespace (s : pystr) :
  (forall c, In c s -> is_space c = true -> c = 32%N) ->
  forall c, In c (blank_special s) ->
            kept c = true /\ (is_space c = true -> c = 32%N).
Proof.
  intros H c Hin. unfold blank_special in Hin. apply in_map_iff in Hin.
  destruct Hin as [x [E Hx]]. destruct (kept x) eqn:K.
  - subst c. split; [exact K|]. apply H. exact Hx.
  - subst c. split; [reflexivity|]. intros _. reflexivity.
Qed.

Lemma lstrip_suffix (s : pystr) :
  exists pre, s = pre ++ lstrip s /\ forallb is_space pre = true.
Proof.
  induction s as [|a s [pre [E B]]]; [exists []; split; reflexivity|].
  cbn [lstrip]. destruct (is_space a) eqn:A.
  - exists (a :: pre). split; [cbn; f_equal; exact E|].
    cbn [forallb]. rewrite A, B. reflexivity.
  - exists []. split; reflexivity.
Qed.

Lemma lstrip_head (s : pystr) :
  lstrip s = [] \/ is_space (hd 0%N (lstrip s)) = false.
Proof.
  induction s as [|a s IH]; [left; reflexivity|].
  cbn [lstrip]. destruct (is_space a) eqn:A; [exact IH|].
  right. exact A.
Qed.

Lemma hd_rev {A} (d : A) (l : list A) : hd d (rev l) = last l d.
Proof.
  induction l as [|a l IH]; [reflexivity|].
  destruct l as [|b l']; [reflexivity|].
  change (last (a :: b :: l') d) with (last (b :: l') d). rewrite <- IH.
  change (rev (a :: b :: l')) with (rev (b :: l') ++ [a]).
  destruct (rev (b :: l')) eqn:E; [|reflexivity].
  cbn [rev] in E. apply app_eq_nil in E. destruct E as [_ E]. discriminate E.
Qed.

Lemma last_rev {A} (d : A) (l : list A) : last (rev l) d = hd d l.
Proof. rewrite <- hd_rev, rev_involutive. reflexivity. Qed.

Lemma last_app_nonempty {A} (d : A) (l1 l2 : list A) :
  l2 <> [] -> last (l1 ++ l2) d = last l2 d.
Proof.
  intro H. induction l1 as [|a l1 IH]; [reflexivity|].
  cbn [app]. destruct (l1 ++ l2) as [|b t] eqn:E.
  - apply app_eq_nil in E. destruct E as [_ E]. contradiction.
  - exact IH.
Qed.

(** [s.strip()] is a part of [s] that neither starts nor ends with
    whitespace. *)
Lemma strip_spec (s : pystr) :
  (exists pre post, s = pre ++ strip s ++ post) /\
  (strip s = [] \/
   (is_space (hd 0%N (strip s)) = false /\ is_space (last (strip s) 0%N) = false)).
Proof.
  unfold strip.
  destruct (lstrip_suffix s) as [pre [E1 _]].
  destruct (lstrip_suffix (rev (lstrip s))) as [post [E2 _]].
  split.
  - exists pre, (rev post). rewrite E1 at 1. f_equal.
    rewrite <- (rev_involutive (lstrip s)) at 1. rewrite E2 at 1.
    rewrite rev_app_distr. reflexivity.
  - pose proof (lstrip_head (rev (lstrip s))) as V.
    destruct (lstrip (rev (lstrip s))) as [|v0 vs] eqn:Ev; [left; reflexivity|].
    right. destruct V as [V|V]; [discriminate V|]. cbn [hd] in V.
    split.
    + rewrite hd_rev.
      rewrite <- (@last_app_nonempty _ 0%N post (v0 :: vs)) by discriminate.
      rewrite <- E2, last_rev.
      destruct (lstrip_head s) as [U|U]; [|exact U].
      rewrite U in Ev. discriminate Ev.
    + rewrite last_rev. exact V.
Qed.

(** The normalised name is no longer than the name, has the space as its
    only whitespace character, and neither starts nor ends with it. *)
Theorem normalize_text_shape (text : pystr) :
  (List.length (_normalize_text text) <= List.length text)%nat /\
  (forall c, In c (_normalize_text text) -> is_space c = true -> c = 32%N) /\
  (_normalize_text text = [] \/
   (is_space (hd 0%N (_normalize_text text)) = false /\
    is_space (last (_normalize_text text) 0%N) = false)).
Proof.
  unfold _normalize_text.
  destruct (strip_spec (blank_special (collapse_spaces text)))
    as [[pre [post E]] S].
  split; [|split; [|exact S]].
  - apply (Nat.le_trans _ (List.length (blank_special (collapse_spaces text)))).
    + rewrite E at 2. rewrite !length_app. lia.
    + unfold blank_special. rewrite length_map. apply collapse_spaces_length.
  - intros c Hc.
    refine (proj2 (@blank_special_whitespace (collapse_spaces text) _ c _)).
    + intros x Hx Sx. apply (@collapse_spaces_whitespace text); assumption.
    + rewrite E. apply in_or_app. right. apply in_or_app. left. exact Hc.
Qed.

End DetectorFacts.

(** ** Learning from corrections *)

Module Learning.
Import CategoryDetector Learner TextFacts FloatFacts Detection DetectorFacts.

(** A detector after a series of corrections, starting from a new one. *)
Definition learn_all (corrections : list Correction) : SmartState :=
  fold_left
    (fun st c => learn_from_correction st (m_product c) (m_predicted c) (m_correct c))
    corrections fresh.

(** The patterns learned for a category. *)
Definition learned_of (d : dict (list pystr)) (c : ProductCategory) : list pystr :=
  match dict_get (KEnum c) d with
  | Some ps => ps
  | None => []
  end.

(** *** Dictionary facts *)

Lemma str_eqb_eq (a b : pystr) : str_eqb a b = true <-> a = b.
Proof.
  unfold str_eqb. destruct (list_eq_dec N.eq_dec a b); split; intro H;
    congruence.
Qed.

Lemma category_eqb_iff (a b : ProductCategory) : category_eqb a b = true <-> a = b.
Proof.
  unfold category_eqb. destruct (category_eq_dec a b); split; intro H;
    congruence.
Qed.

Lemma key_eqb_eq (a b : pykey) : key_eqb a b = true <-> a = b.
Proof.
  destruct a as [x|x], b as [y|y]; cbn [key_eqb].
  - rewrite str_eqb_eq. split; congruence.
  - split; discriminate.
  - split; discriminate.
  - rewrite category_eqb_iff. split; congruence.
Qed.

Lemma dict_get_cons {A} (k k' : pykey) (v : A) (d : dict A) :
  dict_get k ((k', v) :: d) = if key_eqb k k' then Some v else dict_get k d.
Proof.
  unfold dict_get. cbn [find fst]. destruct (key_eqb k k'); reflexivity.
Qed.

Lemma dict_in_get {A} (k : pykey) (d : dict A) :
  dict_in k d = match dict_get k d with Some _ => true | None => false end.
Proof.
  induction d as [|[k' v] d IH]; [reflexivity|].
  rewrite dict_get_cons. unfold dict_in in *. cbn [existsb fst].
  destruct (key_eqb k k'); [reflexivity|exact IH].
Qed.

Lemma dict_get_in {A} (k : pykey) (d : dict A) (v : A) :
  dict_get k d = Some v -> In (k, v) d.
Proof.
  induction d as [|[k' v'] d IH]; [discriminate|].
  rewrite dict_get_cons. destruct (key_eqb k k') eqn:E.
  - apply key_eqb_eq in E. subst k'. intro H. injection H as ->.
    left. reflexivity.
  - intro H. right. apply IH. exact H.
Qed.

Lemma dict_get_extend_same (k : pykey) (ps : list pystr) (d : dict (list pystr)) :
  dict_get k (dict_extend k ps d)
  = Some (match dict_get k d with Some v => v | None => [] end ++ ps).
Proof.
  induction d as [|[k' v] d IH].
  - cbn [dict_extend]. rewrite dict_get_cons.
    rewrite (proj2 (key_eqb_eq k k) eq_refl). reflexivity.
  - cbn [dict_extend]. rewrite dict_get_cons.
    destruct (key_eqb k k') eqn:E; rewrite dict_get_cons, E; [reflexivity|exact IH].
Qed.

Lemma dict_get_extend_other (k k0 : pykey) (ps : list pystr) (d : dict (list pystr)) :
  k0 <> k -> dict_get k0 (dict_extend k ps d) = dict_get k0 d.
Proof.
  intro H.
  assert (F : key_eqb k0 k = false).
  { destruct (key_eqb k0 k) eqn:E; [|reflexivity].
    apply key_eqb_eq in E. contradiction. }
  induction d as [|[k' v] d IH].
  - cbn [dict_extend]. rewrite dict_get_cons, F. reflexivity.
  - cbn [dict_extend]. destruct (key_eqb k k') eqn:E.
    + apply key_eqb_eq in E. subst k'. rewrite !dict_get_cons, F. reflexivity.
    + rewrite !dict_get_cons. destruct (key_eqb k0 k'); [reflexivity|exact IH].
Qed.

Lemma dict_extend_in (k k' : pykey) (ps v' : list pystr) (d : dict (list pystr)) :
  In (k', v') (dict_extend k ps d) ->
  (k' = k /\ forall p, In p v' -> In p ps \/ exists v, In (k', v) d /\ In p v)
  \/ In (k', v') d.
Proof.
  induction d as [|[k0 v0] d IH]; cbn [dict_extend].
  - intros [H|[]]. injection H as <- <-. left. split; [reflexivity|].
    intros p Hp. left. exact Hp.
  - destruct (key_eqb k k0) eqn:E.
    + apply key_eqb_eq in E. subst k0. intros [H|H].
      * injection H as <- <-. left. split; [reflexivity|].
        intros p Hp. apply in_app_or in Hp. destruct Hp as [Hp|Hp].
        -- right. exists v0. split; [left; reflexivity|exact Hp].
        -- left. exact Hp.
      * right. right. exact H.
    + intros [H|H].
      * right. left. exact H.
      * destruct (IH H) as [[-> Hp]|Hin].
        -- left. split; [reflexivity|]. intros p Hpv.
           destruct (Hp p Hpv) as [L|[v [Hv Hpv']]]; [left; exact L|].
           right. exists v. split; [right; exact Hv|exact Hpv'].
        -- right. right. exact Hin.
Qed.

(** *** What a correction stores *)

(** A pattern of [ngrams] is made of one to three consecutive words. *)
Lemma ngrams_spec (words : list pystr) (p : pystr) :
  In p (ngrams words) ->
  exists i n, (1 <= n <= 3)%nat /\ (i + n <= List.length words)%nat /\
              p = join (py " ") (firstn n (skipn i words)).
Proof.
  unfold ngrams. intro H. apply in_flat_map in H. destruct H as [i [Hi H]].
  apply in_map_iff in H. destruct H as [j [<- Hj]].
  apply in_seq in Hi. apply in_seq in Hj.
  exists i, (j - i)%nat. split; [lia|]. split; [lia|reflexivity].
Qed.

Lemma flat_map_length_le {A B} (f : A -> list B) (k : nat) (l : list A) :
  (forall x, (List.length (f x) <= k)%nat) ->
  (List.length (flat_map f l) <= k * List.length l)%nat.
Proof.
  intro H. induction l as [|a l IH]; [cbn; lia|].
  cbn [flat_map List.length]. rewrite length_app. specialize (H a). lia.
Qed.

Lemma ngrams_length (words : list pystr) :
  (List.length (ngrams words) <= 3 * List.length words)%nat.
Proof.
  unfold ngrams.
  pose proof (@flat_map_length_le _ _
                (fun i =>
                   map (fun j => join (py " ") (firstn (j - i) (skipn i words)))
                       (seq (i + 1) (Nat.min (i + 4) (List.length words + 1) - (i + 1))))
                3 (seq 0 (List.length words))) as H.
  rewrite length_seq in H. apply H. intro i. rewrite length_map, length_seq. lia.
Qed.

(** Every stored pattern is longer than three characters. *)
Definition all_long (d : dict (list pystr)) : Prop :=
  forall k ps p, In (k, ps) d -> In p ps -> (3 < List.length p)%nat.

Lemma learn_keeps_long (st : SmartState) (name : pystr)
      (predicted correct : ProductCategory) :
  all_long (s_learned_patterns st) ->
  all_long (s_learned_patterns (learn_from_correction st name predicted correct)).
Proof.
  intro H. unfold learn_from_correction.
  destruct (negb (category_eqb correct UNKNOWN)); cbn [s_learned_patterns];
    [|exact H].
  intros k ps p Hin Hp. apply dict_extend_in in Hin.
  destruct Hin as [[-> Hps]|Hin].
  - destruct (Hps p Hp) as [L|[v [Hv Hpv]]].
    + apply filter_In in L. destruct L as [_ L]. apply Nat.ltb_lt in L. exact L.
    + apply (H _ _ _ Hv Hpv).
  - apply (H _ _ _ Hin Hp).
Qed.

Lemma learn_records (st : SmartState) (name : pystr)
      (predicted correct : ProductCategory) :
  s_misclassified (learn_from_correction st name predicted correct)
  = s_misclassified st
      ++ [ {| m_product := name; m_predicted := predicted; m_correct := correct |} ].
Proof.
  unfold learn_from_correction.
  destruct (negb (category_eqb correct UNKNOWN)); reflexivity.
Qed.

Lemma fold_learn (corrections : list Correction) (st : SmartState) :
  all_long (s_learned_patterns st) ->
  all_long (s_learned_patterns
              (fold_left
                 (fun st c =>
                    learn_from_correction st (m_product c) (m_predicted c) (m_correct c))
                 corrections st)) /\
  s_misclassified
    (fold_left
       (fun st c =>
          learn_from_correction st (m_product c) (m_predicted c) (m_correct c))
       corrections st)
  = s_misclassified st ++ corrections.
Proof.
  revert st. induction corrections as [|c cs IH]; intros st H.
  - cbn [fold_left]. rewrite app_nil_r. split; [exact H|reflexivity].
  - cbn [fold_left].
    destruct (IH (learn_from_correction st (m_product c) (m_predicted c) (m_correct c))
                 (@learn_keeps_long st _ _ _ H)) as [L M].
    split; [exact L|]. rewrite M, learn_records, <- app_assoc.
    destruct c. reflexivity.
Qed.

(** Whatever corrections a new detector is given, it records every one of
    them in order, and every pattern it has learned is longer than three
    characters. *)
Theorem learned_patterns_invariant (corrections : list Correction) :
  s_misclassified (learn_all corrections) = corrections /\
  forall k ps p,
    In (k, ps) (s_learned_patterns (learn_all corrections)) -> In p ps ->
    (3 < List.length p)%nat.
Proof.
  destruct (@fold_learn corrections fresh) as [L M].
  - intros k ps p [].
  - split; [exact M|exact L].
Qed.

(** What one correction adds: nothing for a correction to [UNKNOWN];
    otherwise at most three patterns per word of the name, each longer than
    three characters and made of one to three consecutive words of the name
    in lower case, joined by single spaces. *)
Theorem correction_adds_ngrams (st : SmartState) (name : pystr)
        (predicted correct : ProductCategory) :
  let st' := learn_from_correction st name predicted correct in
  let words := split_ws (lower name) in
  (correct = UNKNOWN -> s_learned_patterns st' = s_learned_patterns st) /\
  (correct <> UNKNOWN ->
   exists added,
     learned_of (s_learned_patterns st') correct
     = learned_of (s_learned_patterns st) correct ++ added /\
     (List.length added <= 3 * List.length words)%nat /\
     forall p, In p added ->
       (3 < List.length p)%nat /\
       exists i n, (1 <= n <= 3)%nat /\ (i + n <= List.length words)%nat /\
                   p = join (py " ") (firstn n (skipn i words))).
Proof.
  cbv zeta. unfold learn_from_correction. split.
  - intros ->. reflexivity.
  - intro H.
    replace (category_eqb correct UNKNOWN) with false
      by (destruct correct; try reflexivity; contradiction H; reflexivity).
    cbn [negb s_learned_patterns].
    exists (filter (fun pattern => (3 <? List.length pattern)%nat)
                   (ngrams (split_ws (lower name)))).
    split; [|split].
    + unfold learned_of. rewrite dict_get_extend_same. reflexivity.
    + apply (Nat.le_trans _ (List.length (ngrams (split_ws (lower name))))).
      * apply filter_length_le.
      * apply ngrams_length.
    + intros p Hp. apply filter_In in Hp. destruct Hp as [Hp L].
      split; [apply Nat.ltb_lt; exact L|]. apply ngrams_spec. exact Hp.
Qed.

(** *** Learning and scores *)

Lemma count_app {A} (f : A -> bool) (a b : list A) :
  count f (a ++ b) = (count f a + count f b)%nat.
Proof. unfold count. rewrite filter_app, length_app. reflexivity. Qed.

Lemma count_zero {A} (f : A -> bool) (l : list A) :
  (forall x, In x l -> f x = false) -> count f l = 0%nat.
Proof.
  intro H. unfold count. induction l as [|a l IH]; [reflexivity|].
  cbn [filter]. rewrite (H a (or_introl eq_refl)). apply IH.
  intros x Hx. apply H. right. exact Hx.
Qed.

(** The score of the learning detector: the base score plus 0.1 for every
    learned pattern of the category found in the text, capped at 1. *)
Lemma smart_score_value (d : dict (list pystr)) (text : pystr) (c : ProductCategory) :
  smart_score d text c
  == Qmin (base_score text c
           + of_nat (count (fun pattern => contains (lower text) pattern)
                           (learned_of d c)) * 0.1) 1.
Proof.
  unfold smart_score, learned_of. cbv zeta. rewrite dict_in_get.
  destruct (dict_get (KEnum c) d) as [ps|].
  - rewrite min_spec, add_spec, mul_spec. reflexivity.
  - rewrite min_spec. apply Q.min_compat; [|reflexivity].
    unfold count, of_nat. cbn. ring.
Qed.

Lemma learned_of_learn (st : SmartState) (name : pystr)
      (predicted correct c : ProductCategory) :
  exists added,
    learned_of (s_learned_patterns (learn_from_correction st name predicted correct)) c
    = learned_of (s_learned_patterns st) c ++ added /\
    (c <> correct -> added = []).
Proof.
  unfold learn_from_correction.
  destruct (negb (category_eqb correct UNKNOWN)); cbn [s_learned_patterns].
  - destruct (category_eq_dec c correct) as [->|N].
    + eexists. split; [|intro X; contradiction X; reflexivity].
      unfold learned_of. rewrite dict_get_extend_same. reflexivity.
    + exists []. split; [|reflexivity]. rewrite app_nil_r.
      unfold learned_of. rewrite dict_get_extend_other; [reflexivity|].
      intro E. injection E as E. contradiction.
  - exists []. split; [|reflexivity]. rewrite app_nil_r. reflexivity.
Qed.

(** A correction never lowers a score, whatever the text and the category,
    and it leaves the scores of the categories other than the corrected one
    as they were. *)
Theorem learning_never_lowers_scores (st : SmartState) (name : pystr)
        (predicted correct : ProductCategory) (text : pystr) (c : ProductCategory) :
  let st' := learn_from_correction st name predicted correct in
  smart_score (s_learned_patterns st) text c
  <= smart_score (s_learned_patterns st') text c /\
  (c <> correct ->
   smart_score (s_learned_patterns st') text c
   == smart_score (s_learned_patterns st) text c).
Proof.
  cbv zeta.
  destruct (learned_of_learn st name predicted correct c) as [added [E O]].
  rewrite !smart_score_value, E, count_app. split.
  - apply Q.min_le_compat_r.
    pose proof (@of_nat_le
                  (count (fun pattern => contains (lower text) pattern)
                         (learned_of (s_learned_patterns st) c))
                  (count (fun pattern => contains (lower text) pattern)
                         (learned_of (s_learned_patterns st) c)
                   + count (fun pattern => contains (lower text) pattern) added)
                  ltac:(lia)) as L.
    lra.
  - intro N. rewrite (O N). unfold count at 2. cbn [filter List.length].
    rewrite Nat.add_0_r. reflexivity.
Qed.

Lemma base_score_empty (c : ProductCategory) : base_score [] c = 0.
Proof. destruct c; vm_compute; reflexivity. Qed.

Lemma smart_score_empty (d : dict (list pystr)) (c : ProductCategory) :
  all_long d -> smart_score d [] c = 0.
Proof.
  intro H. unfold smart_score. cbv zeta. rewrite base_score_empty.
  destruct (dict_in (KEnum c) d); [|vm_compute; reflexivity].
  destruct (dict_get (KEnum c) d) as [ps|] eqn:G; [|vm_compute; reflexivity].
  rewrite count_zero; [vm_compute; reflexivity|].
  intros p Hp. apply dict_get_in in G. specialize (H _ _ _ G Hp).
  destruct p as [|a p]; [cbn in H; lia|]. reflexivity.
Qed.

(** No series of corrections makes the detector see a category in a blank
    name: it still answers [(UNKNOWN, 0.0)]. *)
Theorem learning_keeps_blank_unknown (corrections : list Correction) (name : pystr) :
  blank name = true ->
  @detect_category
    (SmartCategoryDetector (s_learned_patterns (learn_all corrections))) name
  = (UNKNOWN, 0).
Proof.
  intro B.
  rewrite (@detect_category_spec
             (SmartCategoryDetector (s_learned_patterns (learn_all corrections)))).
  - unfold spec_detect. rewrite B. reflexivity.
  - intros c _. cbn [_calculate_category_score SmartCategoryDetector].
    apply smart_score_empty.
    destruct (@fold_learn corrections fresh) as [L _]; [intros k ps p []|].
    exact L.
Qed.

(** On a detector taught that a hammer is a hammer, for a name of three
    spaces. *)
Lemma learning_keeps_blank_unknown_witness :
  blank (py "   ") = true /\
  @detect_category
    (SmartCategoryDetector
       (s_learned_patterns
          (learn_all [ {| m_product := py "Молоток слесарный 500 г";
                          m_predicted := UNKNOWN; m_correct := HAMMER |} ])))
    (py "   ")
  = (UNKNOWN, 0).
Proof.
  assert (B : blank (py "   ") = true) by (vm_compute; reflexivity).
  split; [exact B|].
  exact (@learning_keeps_blank_unknown
           [ {| m_product := py "Молоток слесарный 500 г";
                m_predicted := UNKNOWN; m_correct := HAMMER |} ]
           (py "   ") B).
Defined.

End Learning.

(** ** The OKPD2 agent: selection, levels and parent codes *)

Module Selection.
Import OKPD2ClassifierAgent FloatFacts.

(** *** The sort of [_select_best_code] *)

Lemma sort_desc_cons (x : float * Candidate) (l : list (float * Candidate)) :
  sort_desc (x :: l) = insert_desc x (sort_desc l).
Proof. reflexivity. Qed.

Lemma insert_desc_perm (x : float * Candidate) (l : list (float * Candidate)) :
  Permutation (insert_desc x l) (x :: l).
Proof.
  induction l as [|y l IH]; [reflexivity|].
  cbn [insert_desc]. destruct (fst x <? fst y)%float; [|reflexivity].
  rewrite IH. apply perm_swap.
Qed.

Lemma sort_desc_perm (l : list (float * Candidate)) : Permutation (sort_desc l) l.
Proof.
  induction l as [|x l IH]; [constructor|].
  rewrite sort_desc_cons, insert_desc_perm. constructor. exact IH.
Qed.

(** Scores from the highest to the lowest. *)
Definition descending (l : list (float * Candidate)) : Prop :=
  StronglySorted (fun a b => fst b <= fst a) l.

Lemma insert_desc_sorted (x : float * Candidate) (l : list (float * Candidate)) :
  descending l -> descending (insert_desc x l).
Proof.
  unfold descending. induction l as [|y l IH]; intro H.
  - repeat constructor.
  - cbn [insert_desc]. inversion H as [|? ? Hl Hy]; subst.
    destruct (fst x <? fst y)%float eqn:E.
    + constructor; [apply IH; exact Hl|].
      apply Forall_forall. intros z Hz.
      apply (Permutation_in _ (insert_desc_perm x l)) in Hz.
      destruct Hz as [<-|Hz].
      * apply ltb_lt in E. apply Qlt_le_weak. exact E.
      * rewrite Forall_forall in Hy. apply Hy. exact Hz.
    + apply ltb_ge in E. constructor; [exact H|].
      constructor; [exact E|].
      apply Forall_forall. intros z Hz. rewrite Forall_forall in Hy.
      apply (Qle_trans _ (fst y)); [apply Hy; exact Hz|exact E].
Qed.

Lemma sort_desc_sorted (l : list (float * Candidate)) : descending (sort_desc l).
Proof.
  induction l as [|x l IH]; [constructor|].
  rewrite sort_desc_cons. apply insert_desc_sorted. exact IH.
Qed.

Section Scored.
Variable score : Candidate -> float.

Definition scored (c : Candidate) : float * Candidate := (score c, c).

(** The sort is stable: the head of the sorted list is the first candidate
    of the highest score. *)
Lemma sort_desc_head (first : Candidate) (rest : list Candidate) :
  exists before best after others,
    first :: rest = before ++ best :: after /\
    sort_desc (map scored (first :: rest)) = scored best :: others /\
    (forall c, In c before -> score c < score best) /\
    (forall c, In c after -> score c <= score best).
Proof.
  revert first. induction rest as [|b rest IH]; intro a.
  - exists [], a, [], []. split; [reflexivity|]. split; [reflexivity|].
    split; intros c [].
  - destruct (IH b) as [l1 [best [l2 [others [E [S [B A]]]]]]].
    change (map scored (a :: b :: rest)) with (scored a :: map scored (b :: rest)).
    rewrite sort_desc_cons, S. cbn [insert_desc scored fst].
    destruct (score a <? score best)%float eqn:L.
    + apply ltb_lt in L.
      exists (a :: l1), best, l2, (insert_desc (score a, a) others).
      split; [rewrite E; reflexivity|]. split; [reflexivity|].
      split; [|exact A].
      intros c [<-|Hc]; [exact L|apply B; exact Hc].
    + apply ltb_ge in L.
      exists [], a, (b :: rest), ((score best, best) :: others).
      split; [reflexivity|]. split; [reflexivity|].
      split; [intros c []|].
      intros c Hc. rewrite E in Hc. apply in_app_or in Hc.
      apply (Qle_trans _ (score best)); [|exact L].
      destruct Hc as [Hc|[<-|Hc]].
      * apply Qlt_le_weak. apply B. exact Hc.
      * apply Qle_refl.
      * apply A. exact Hc.
Qed.

Lemma descending_scored (l : list Candidate) :
  descending (map scored l) -> StronglySorted (fun a b => score b <= score a) l.
Proof.
  unfold descending. induction l as [|c l IH]; intro H; [constructor|].
  cbn [map] in H. inversion H as [|? ? Hl Hc]; subst.
  constructor; [apply IH; exact Hl|].
  rewrite Forall_map in Hc. exact Hc.
Qed.

Lemma map_scored_cons (l : list Candidate) (best : Candidate)
      (others : list (float * Candidate)) :
  map scored l = scored best :: others ->
  exists rest, l = best :: rest /\ others = map scored rest.
Proof.
  destruct l as [|c rest]; [discriminate|].
  cbn [map]. unfold scored at 1 3. intro H. injection H as _ -> <-.
  exists rest. split; reflexivity.
Qed.

End Scored.

(** An alternative as [_select_best_code] builds it. *)
Definition alternative (score : Candidate -> float) (c : Candidate) : Alternative :=
  {| alt_code := c_code c; alt_name := c_name c; alt_score := score c |}.

(** With at least one candidate, [_select_best_code] returns the first
    candidate of the highest score: no candidate scores higher and every
    candidate listed before it scores lower.  The confidence is that score
    capped at 1.  The alternatives are the first three of the remaining
    candidates in the order of their score, from the highest. *)
Theorem select_best_code_maximal {V} (first : Candidate) (rest : list Candidate)
        (product : Product V) (category : ProductCategory)
        (research_result : option (ResearchDict V)) :
  let score := fun c => _score_candidate c product category research_result in
  let result := _select_best_code (first :: rest) product category research_result in
  exists before best after others,
    first :: rest = before ++ best :: after /\
    (forall c, In c before -> score c < score best) /\
    (forall c, In c after -> score c <= score best) /\
    code result = c_code best /\
    name result = c_name best /\
    level result = candidate_level best /\
    parent_code result = _get_parent_code (c_code best) /\
    confidence result = Float.min (score best) 1 /\
    confidence result <= 1 /\
    Permutation others (before ++ after) /\
    StronglySorted (fun a b => score b <= score a) (best :: others) /\
    alternative_codes result = map (alternative score) (firstn 3 others).
Proof.
  intros score result.
  destruct (sort_desc_head score first rest)
    as [before [best [after [pairs [E [S [B A]]]]]]].
  pose proof (sort_desc_perm (map (scored score) (first :: rest))) as P.
  apply Permutation_map_inv in P. destruct P as [sorted [M P]].
  pose proof (sort_desc_sorted (map (scored score) (first :: rest))) as D.
  rewrite M in D. apply descending_scored in D.
  rewrite S in M. symmetry in M. apply map_scored_cons in M.
  destruct M as [others [-> ->]].
  exists before, best, after, others.
  split; [exact E|]. split; [exact B|]. split; [exact A|].
  assert (R : result
              = {| code := c_code best; name := c_name best;
                   level := candidate_level best;
                   parent_code := _get_parent_code (c_code best);
                   confidence := Float.min (score best) 1;
                   alternative_codes :=
                     map (fun sc => {| alt_code := c_code (snd sc);
                                       alt_name := c_name (snd sc);
                                       alt_score := fst sc |})
                         (firstn 3 (map (scored score) others)) |}).
  { unfold result, _select_best_code.
    change (map (fun candidate =>
                   (_score_candidate candidate product category research_result,
                    candidate)) (first :: rest))
      with (map (scored score) (first :: rest)).
    rewrite S. reflexivity. }
  rewrite R. cbn [code name level parent_code confidence alternative_codes].
  repeat (split; [reflexivity|]).
  split; [apply DetectorFacts.min_le_r|].
  split.
  - rewrite E in P. apply Permutation_sym in P.
    apply Permutation_cons_app_inv in P. exact P.
  - split; [exact D|]. rewrite firstn_map, map_map. reflexivity.
Qed.

(** *** Levels and confidence of a selected code *)

Lemma select_best_code_best {V} (first : Candidate) (rest : list Candidate)
      (product : Product V) (category : ProductCategory)
      (research_result : option (ResearchDict V)) :
  exists best,
    In best (first :: rest) /\
    level (_select_best_code (first :: rest) product category research_result)
    = candidate_level best /\
    confidence (_select_best_code (first :: rest) product category research_result)
    = Float.min (_score_candidate best product category research_result) 1.
Proof.
  destruct (sort_desc_head
              (fun c => _score_candidate c product category research_result)
              first rest)
    as [before [best [after [pairs [E [S _]]]]]].
  exists best. split; [rewrite E; apply in_or_app; right; left; reflexivity|].
  unfold _select_best_code.
  change (map (fun candidate =>
                 (_score_candidate candidate product category research_result,
                  candidate)) (first :: rest))
    with (map (scored (fun c => _score_candidate c product category research_result))
              (first :: rest)).
  rewrite S. split; reflexivity.
Qed.

(** Every term that [_score_candidate] adds to the level term is positive
    or zero. *)
Lemma score_lower_bound {V} (candidate : Candidate) (product : Product V)
      (category : ProductCategory) (research_result : option (ResearchDict V)) :
  inject_Z (candidate_level candidate) * 0.2
  <= _score_candidate candidate product category research_result.
Proof.
  unfold _score_candidate. cbv zeta.
  rewrite EnumKeys.enum_not_in_PRODUCT_CATEGORIES.
  set (m := CategoryDetector.count _ _).
  assert (M : 0 <= Float.min (of_nat m * 0.1) 0.3).
  { apply min_glb; [|lra]. rewrite mul_spec.
    pose proof (of_nat_nonneg m). nra. }
  assert (B : inject_Z (candidate_level candidate) * 0.2
              <= (0 + of_int (candidate_level candidate) * 0.2
                  + Float.min (of_nat m * 0.1) 0.3)%float).
  { rewrite !add_spec, mul_spec. unfold of_int. lra. }
  destruct research_result as [r|]; [|exact B].
  destruct (d_product_type r) as [[|a t]|]; try exact B.
  destruct (contains (lower (c_name candidate)) (lower (a :: t))); [|exact B].
  rewrite add_spec. lra.
Qed.

(** A code selected among candidates at level 3 or more has a confidence of
    0.5 or more: the validation agent never reports a low confidence for
    such a code without also reporting its level. *)
Theorem specific_code_is_confident {V} (first : Candidate) (rest : list Candidate)
        (product : Product V) (category : ProductCategory)
        (research_result : option (ResearchDict V)) :
  let result := _select_best_code (first :: rest) product category research_result in
  ((level result < 3)%Z \/ 0.5 <= confidence result) /\
  (Validation.confidence_issue result <> [] -> Validation.level_issue result <> []).
Proof.
  cbv zeta.
  destruct (select_best_code_best first rest product category research_result)
    as [best [_ [L C]]].
  assert (D : (level (_select_best_code (first :: rest) product category research_result)
               < 3)%Z \/
              0.5 <= confidence (_select_best_code (first :: rest) product category
                                                   research_result)).
  { destruct (Z.lt_ge_cases
                (level (_select_best_code (first :: rest) product category
                                          research_result)) 3) as [Lt|Ge];
      [left; exact Lt|right].
    rewrite C. apply min_glb; [|lra].
    pose proof (score_lower_bound best product category research_result) as B.
    rewrite L in Ge.
    assert (G : inject_Z 3 <= inject_Z (candidate_level best))
      by (rewrite <- Zle_Qle; exact Ge).
    change (inject_Z 3) with 3 in G. lra. }
  split; [exact D|].
  unfold Validation.confidence_issue, Validation.level_issue.
  destruct D as [Lt|Ge].
  - apply Z.ltb_lt in Lt. rewrite Lt. intros _. discriminate.
  - apply ltb_ge in Ge. rewrite Ge. intro X. contradiction X. reflexivity.
Qed.

(** *** Splitting and joining on the dot *)

Lemma dot_literal : py "." = [46%N].
Proof. vm_compute. reflexivity. Qed.

Lemma split_on_nonempty (sep : N) (s : pystr) : split_on sep s <> [].
Proof.
  destruct s as [|c s]; cbn [split_on]; [discriminate|].
  destruct (c =? sep)%N; [discriminate|].
  destruct (split_on sep s); discriminate.
Qed.

Lemma join_cons (sep p : pystr) (rest : list pystr) :
  rest <> [] -> join sep (p :: rest) = p ++ sep ++ join sep rest.
Proof. destruct rest; [intro H; contradiction H; reflexivity|reflexivity]. Qed.

(** [sep.join(s.split(sep)) == s] *)
Lemma join_split (sep : N) (s : pystr) : join [sep] (split_on sep s) = s.
Proof.
  induction s as [|c s IH]; [reflexivity|].
  cbn [split_on]. destruct (c =? sep)%N eqn:E.
  - apply N.eqb_eq in E. subst c.
    rewrite join_cons by apply split_on_nonempty. rewrite IH. reflexivity.
  - pose proof (split_on_nonempty sep s) as NE.
    destruct (split_on sep s) as [|w ws]; [contradiction NE; reflexivity|].
    destruct ws as [|w' ws].
    + cbn [join] in *. rewrite IH. reflexivity.
    + rewrite join_cons in IH by discriminate.
      rewrite join_cons by discriminate. rewrite <- IH. reflexivity.
Qed.

(** No segment of a split holds the separator. *)
Lemma split_on_segments (sep : N) (s p : pystr) :
  In p (split_on sep s) -> ~ In sep p.
Proof.
  revert p. induction s as [|c s IH]; intros p H.
  - destruct H as [<-|[]]. intros [].
  - cbn [split_on] in H. destruct (c =? sep)%N eqn:E.
    + destruct H as [<-|H]; [intros []|apply IH; exact H].
    + apply N.eqb_neq in E.
      pose proof (split_on_nonempty sep s) as NE.
      destruct (split_on sep s) as [|w ws]; [contradiction NE; reflexivity|].
      destruct H as [<-|H].
      * intros [X|X]; [apply E; exact X|].
        apply (IH w); [left; reflexivity|exact X].
      * apply IH. right. exact H.
Qed.

Lemma split_on_solid (sep : N) (p : pystr) : ~ In sep p -> split_on sep p = [p].
Proof.
  induction p as [|c p IH]; intro H; [reflexivity|].
  cbn [split_on]. destruct (c =? sep)%N eqn:E.
  - apply N.eqb_eq in E. exfalso. apply H. left. exact E.
  - rewrite IH; [reflexivity|]. intro X. apply H. right. exact X.
Qed.

Lemma split_on_app (sep : N) (p s : pystr) :
  ~ In sep p -> split_on sep (p ++ sep :: s) = p :: split_on sep s.
Proof.
  induction p as [|c p IH]; intro H.
  - cbn [app split_on]. rewrite N.eqb_refl. reflexivity.
  - cbn [app split_on]. destruct (c =? sep)%N eqn:E.
    + apply N.eqb_eq in E. exfalso. apply H. left. exact E.
    + rewrite IH; [reflexivity|]. intro X. apply H. right. exact X.
Qed.

(** [sep.join(parts).split(sep) == parts] when no part holds the
    separator. *)
Lemma split_join (sep : N) (parts : list pystr) :
  parts <> [] -> (forall p, In p parts -> ~ In sep p) ->
  split_on sep (join [sep] parts) = parts.
Proof.
  induction parts as [|p parts IH]; intros NE H; [contradiction NE; reflexivity|].
  destruct parts as [|q parts].
  - cbn [join]. apply split_on_solid. apply H. left. reflexivity.
  - rewrite join_cons by discriminate. cbn [app].
    rewrite split_on_app by (apply H; left; reflexivity).
    rewrite IH; [reflexivity|discriminate|].
    intros x Hx. apply H. right. exact Hx.
Qed.

Lemma join_snoc (sep : pystr) (parts : list pystr) (p : pystr) :
  parts <> [] -> join sep (parts ++ [p]) = join sep parts ++ sep ++ p.
Proof.
  induction parts as [|q parts IH]; intro NE; [contradiction NE; reflexivity|].
  destruct parts as [|q' parts].
  - reflexivity.
  - change ((q :: q' :: parts) ++ [p]) with (q :: ((q' :: parts) ++ [p])).
    rewrite join_cons by (cbn [app]; discriminate).
    rewrite IH by discriminate.
    rewrite (@join_cons sep q (q' :: parts)) by discriminate.
    rewrite <- !app_assoc. reflexivity.
Qed.

(** The parent code by the number of segments. *)
Lemma get_parent_code_parts (code : pystr) :
  let parts := split_on 46 code in
  _get_parent_code code
  = if ((2 <=? List.length parts) && (List.length parts <=? 4))%nat
    then Some (join [46%N] (removelast parts))
    else None.
Proof.
  cbv zeta. unfold _get_parent_code. rewrite dot_literal.
  destruct (split_on 46 code) as [|a [|b [|c [|d [|e parts]]]]]; reflexivity.
Qed.

(** A code with two, three or four segments has as parent the code without
    its last segment and the dot before it; the parent has one segment
    less.  Any other code has no parent: a code without a dot, and a code
    of five segments or more. *)
Theorem parent_code_round_trip (code : pystr) :
  let segments := fun s => List.length (split_on 46 s) in
  match _get_parent_code code with
  | Some parent =>
    (2 <= segments code <= 4)%nat /\
    segments parent = (segments code - 1)%nat /\
    exists last_segment,
      ~ In 46%N last_segment /\ code = parent ++ py "." ++ last_segment
  | None => segments code = 1%nat \/ (4 < segments code)%nat
  end.
Proof.
  cbv zeta. rewrite get_parent_code_parts. cbv zeta.
  pose proof (join_split 46 code) as J.
  pose proof (split_on_segments 46 code) as S.
  pose proof (split_on_nonempty 46 code) as NE.
  destruct ((2 <=? List.length (split_on 46 code))
            && (List.length (split_on 46 code) <=? 4))%nat eqn:B.
  - apply andb_true_iff in B. destruct B as [B1 B2].
    apply Nat.leb_le in B1. apply Nat.leb_le in B2.
    destruct (exists_last NE) as [front [last_segment E]].
    rewrite E in *. rewrite removelast_last.
    rewrite length_app in *. cbn [List.length] in *.
    assert (F : front <> []) by (destruct front; [cbn in B1; lia|discriminate]).
    split; [lia|]. split.
    + rewrite split_join; [lia|exact F|].
      intros p Hp. apply S. apply in_or_app. left. exact Hp.
    + exists last_segment. split.
      * apply S. apply in_or_app. right. left. reflexivity.
      * rewrite dot_literal, <- J. apply join_snoc. exact F.
  - apply andb_false_iff in B. rewrite Nat.leb_gt in B. rewrite Nat.leb_gt in B.
    destruct (split_on 46 code) as [|a l]; [contradiction NE; reflexivity|].
    cbn [List.length] in *. lia.
Qed.

(** *** Levels *)

(** The level by the segments of the code. *)
Definition level_of (parts : list pystr) : Z :=
  if (3 <=? List.length parts)%nat && negb (str_eqb (nth 2 parts []) (py "00"))
  then if (List.length parts =? 4)%nat then 4 else 3
  else if (2 <=? List.length parts)%nat && negb (str_eqb (nth 1 parts []) (py "00"))
  then 2
  else 1.

Lemma get_code_level_split (code : pystr) :
  _get_code_level code = level_of (split_on 46 code).
Proof. reflexivity. Qed.

Lemma get_code_level_parts (parts : list pystr) :
  parts <> [] -> (forall p, In p parts -> ~ In 46%N p) ->
  _get_code_level (join [46%N] parts) = level_of parts.
Proof.
  intros NE H. rewrite get_code_level_split, split_join by assumption.
  reflexivity.
Qed.

(** The level of a code lies between 1 and 4.  The parent of a code is never
    of a higher level than the code, and the parent of a code of level 4 is
    of level 3.  A code without a parent is of level 3 at most. *)
Theorem code_level_of_parent (code : pystr) :
  (1 <= _get_code_level code <= 4)%Z /\
  match _get_parent_code code with
  | Some parent =>
    (_get_code_level parent <= _get_code_level code)%Z /\
    (_get_code_level code = 4%Z -> _get_code_level parent = 3%Z)
  | None => (_get_code_level code <= 3)%Z
  end.
Proof.
  rewrite get_parent_code_parts. cbv zeta.
  rewrite (get_code_level_split code).
  pose proof (split_on_segments 46 code) as S.
  pose proof (split_on_nonempty 46 code) as NE.
  destruct (split_on 46 code) as [|a [|b [|c [|d [|e parts]]]]];
    [contradiction NE; reflexivity| | | | |].
  - cbn. split; lia.
  - cbn [List.length Nat.leb Nat.eqb andb nth removelast].
    rewrite (@get_code_level_parts [a]);
      [|discriminate|intros p Hp; apply S; cbn in Hp |- *; tauto].
    unfold level_of. cbn [List.length Nat.leb Nat.eqb andb nth].
    destruct (str_eqb b (py "00")); cbn [negb andb]; repeat split; lia.
  - cbn [List.length Nat.leb Nat.eqb andb nth removelast].
    rewrite (@get_code_level_parts [a; b]);
      [|discriminate|intros p Hp; apply S; cbn in Hp |- *; tauto].
    unfold level_of. cbn [List.length Nat.leb Nat.eqb andb nth].
    destruct (str_eqb c (py "00")), (str_eqb b (py "00"));
      cbn [negb andb]; repeat split; lia.
  - cbn [List.length Nat.leb Nat.eqb andb nth removelast].
    rewrite (@get_code_level_parts [a; b; c]);
      [|discriminate|intros p Hp; apply S; cbn in Hp |- *; tauto].
    unfold level_of. cbn [List.length Nat.leb Nat.eqb andb nth].
    destruct (str_eqb c (py "00")), (str_eqb b (py "00"));
      cbn [negb andb]; repeat split; lia.
  - unfold level_of. cbn [List.length Nat.leb Nat.eqb andb nth].
    destruct (str_eqb c (py "00")), (str_eqb b (py "00"));
      cbn [negb andb]; repeat split; lia.
Qed.

End Selection.

(** ** What a valid product guarantees; suggestions; the code format *)

Module ValidationFacts.
Import OKPD2ClassifierAgent QualityValidationAgent FloatFacts Validation.

Lemma filter_nil {A} (f : A -> bool) (l : list A) :
  filter f l = [] -> forall x, In x l -> f x = false.
Proof.
  induction l as [|a l IH]; intros H x Hx; [contradiction Hx|].
  cbn [filter] in H. destruct (f a) eqn:E; [discriminate H|].
  destruct Hx as [<-|Hx]; [exact E|apply IH; assumption].
Qed.

Section Checks.
Context {V : Type} {PV : PyValue V}.
Variable call_llm : pystr -> list pystr -> result pystr.

(** The issue of the first step of [process]. *)
Definition category_issue (category : ProductCategory) : list pystr :=
  if category_eqb category UNKNOWN
  then [py "Не удалось определить категорию продукта"]
  else [].

(** The issue of the fourth step. *)
Definition unit_issues (product : Product V) (category : ProductCategory) : list pystr :=
  match _validate_unit product category with
  | Some issue => [issue]
  | None => []
  end.

(** The issues of the six steps of [process], in the order of the steps. *)
Definition all_issues (product : Product V)
           (research_result : option (ResearchDict V))
           (okpd2_result : option OKPD2Result) (category : ProductCategory)
  : list pystr :=
  category_issue category
  ++ _validate_okpd2 okpd2_result category
  ++ _validate_specifications research_result category product
  ++ unit_issues product category
  ++ _check_variability product research_result
  ++ _apply_business_rules product research_result okpd2_result.

Lemma process_issues (product : Product V)
      (research_result : option (ResearchDict V))
      (okpd2_result : option OKPD2Result) (category : ProductCategory)
      (v : ValidationResult) :
  process call_llm product research_result okpd2_result category = Ok v ->
  issues v = all_issues product research_result okpd2_result category /\
  is_valid v = (List.length (issues v) =? 0)%nat /\
  (is_valid v = true -> rejection_reason v = None /\ suggestions v = []).
Proof.
  unfold process. cbv zeta.
  match goal with
  | |- context [(List.length ?l =? 0)%nat] =>
    assert (E : l = all_issues product research_result okpd2_result category)
  end.
  { unfold all_issues, category_issue, unit_issues.
    destruct (category_eqb category UNKNOWN);
      destruct (_validate_unit product category);
      cbn [app]; rewrite <- ?app_assoc; reflexivity. }
  rewrite E.
  generalize (all_issues product research_result okpd2_result category).
  intros [|first rest].
  - cbn [List.length Nat.eqb negb bind]. intro H. injection H as <-.
    cbn [issues is_valid rejection_reason suggestions List.length Nat.eqb].
    repeat split.
  - cbn [List.length Nat.eqb negb].
    destruct (_determine_rejection_reason (first :: rest) product) as [r|e];
      cbn [bind]; intro H; [|discriminate H].
    injection H as <-.
    cbn [issues is_valid rejection_reason suggestions List.length Nat.eqb].
    split; [reflexivity|]. split; [reflexivity|]. intro X. discriminate X.
Qed.

Lemma validate_okpd2_nil (okpd2_result : option OKPD2Result)
      (category : ProductCategory) :
  _validate_okpd2 okpd2_result category = [] ->
  exists r,
    okpd2_result = Some r /\ _is_valid_okpd2_format (code r) = true /\
    (3 <= level r)%Z /\ 0.5 <= confidence r.
Proof.
  rewrite validate_okpd2_checks. destruct okpd2_result as [r|]; [|discriminate].
  unfold format_issue, level_issue, confidence_issue.
  destruct (_is_valid_okpd2_format (code r)) eqn:F; [|discriminate].
  destruct (level r <? 3)%Z eqn:L; [discriminate|].
  destruct (confidence r <? 0.5)%float eqn:C; [discriminate|].
  intros _. exists r. split; [reflexivity|]. split; [exact F|].
  split; [apply Z.ltb_ge in L; exact L|apply ltb_ge in C; exact C].
Qed.

Lemma validate_specifications_nil (research_result : option (ResearchDict V))
      (category : ProductCategory) (product : Product V) :
  _validate_specifications research_result category product = [] ->
  exists research criteria,
    research_result = Some research /\
    dict_get (KEnum category) validation_criteria = Some criteria /\
    (forall spec, In spec (required_specs criteria) ->
                  exists x, str_get spec (d_specifications research) = Some x /\
                            truthy x = true) /\
    (min_specs_count criteria
     <= List.length (filter (fun kv => truthy (snd kv)) (d_specifications research)))%nat /\
    (forall kv, In kv (d_specifications research) ->
                str_in (lower (py_str (snd kv))) placeholder_patterns = false).
Proof.
  unfold _validate_specifications.
  destruct research_result as [research|]; [|discriminate].
  destruct (negb (dict_in (KEnum category) validation_criteria)); [discriminate|].
  destruct (dict_get (KEnum category) validation_criteria) as [criteria|];
    [|discriminate].
  cbv zeta.
  destruct (filter _ (required_specs criteria)) as [|m ms] eqn:M.
  - destruct (_ <? min_specs_count criteria)%nat eqn:L.
    + destruct (map fst _); cbn [app]; discriminate.
    + destruct (map fst _) as [|p ps] eqn:P; [|cbn [app]; discriminate].
      intros _. exists research, criteria.
      split; [reflexivity|]. split; [reflexivity|]. split; [|split].
      * intros spec Hs. pose proof (filter_nil _ _ M spec Hs) as F.
        cbv beta in F.
        destruct (str_get spec (d_specifications research)) as [x|];
          [|discriminate F].
        exists x. split; [reflexivity|].
        destruct (truthy x); [reflexivity|discriminate F].
      * apply Nat.ltb_ge in L. exact L.
      * apply map_eq_nil in P. apply (filter_nil _ _ P).
  - destruct (_ <? min_specs_count criteria)%nat;
      destruct (map fst _); cbn [app]; discriminate.
Qed.

Lemma validate_unit_none (product : Product V) (category : ProductCategory)
      (criteria : Criteria) :
  dict_get (KEnum category) validation_criteria = Some criteria ->
  _validate_unit product category = None ->
  unit_is_valid (original_unit product) (unit_options criteria) = true.
Proof.
  intro G. unfold _validate_unit. rewrite Learning.dict_in_get, G.
  cbn [negb]. cbv zeta.
  destruct (unit_is_valid (original_unit product) (unit_options criteria));
    [reflexivity|discriminate].
Qed.

Lemma apply_business_rules_nil (product : Product V) (research : ResearchDict V)
      (okpd2_result : option OKPD2Result) :
  _apply_business_rules product (Some research) okpd2_result = [] ->
  (exists manufacturer,
      d_manufacturer research = Some manufacturer /\ manufacturer <> [] /\
      str_in (lower manufacturer) (map py ["unknown"; "неизвестно"]) = false) /\
  (forall model, d_model research = Some model ->
                 model = [] \/ (3 <= List.length model)%nat) /\
  existsb (fun term => contains (lower (original_name product)) term)
          (map py ["прочие"; "другие"; "разные"; "various"; "other"; "misc"])
  = false.
Proof.
  unfold _apply_business_rules. cbv zeta.
  destruct (existsb (fun term => contains (lower (original_name product)) term)
                    (map py ["прочие"; "другие"; "разные"; "various"; "other"; "misc"])).
  { intro H. apply app_eq_nil in H. destruct H as [_ H]. discriminate H. }
  destruct (d_manufacturer research) as [[|a m]|]; cbn [nonempty negb orb].
  - destruct (d_model research) as [[|b mo]|];
      repeat match goal with
             | |- context [if ?c then _ else _] => destruct c
             end; cbn [app]; discriminate.
  - destruct (str_in (lower (a :: m)) (map py ["unknown"; "неизвестно"])) eqn:U.
    + destruct (d_model research) as [[|b mo]|];
        repeat match goal with
               | |- context [if ?c then _ else _] => destruct c
               end; cbn [app]; discriminate.
    + destruct (d_model research) as [[|b mo]|].
      * intros _. split; [exists (a :: m); repeat split; [discriminate|exact U]|].
        split; [|reflexivity]. intros model E. injection E as <-. left. reflexivity.
      * destruct (List.length (b :: mo) <? 3)%nat eqn:L; [cbn [app]; discriminate|].
        intros _. split; [exists (a :: m); repeat split; [discriminate|exact U]|].
        split; [|reflexivity]. intros model E. injection E as <-. right.
        apply Nat.ltb_ge in L. exact L.
      * intros _. split; [exists (a :: m); repeat split; [discriminate|exact U]|].
        split; [|reflexivity]. intros model E. discriminate E.
  - destruct (d_model research) as [[|b mo]|];
      repeat match goal with
             | |- context [if ?c then _ else _] => destruct c
             end; cbn [app]; discriminate.
Qed.

(** Every step of a valid run came back empty-handed. *)
Lemma valid_checks_pass (product : Product V)
      (research_result : option (ResearchDict V))
      (okpd2_result : option OKPD2Result) (category : ProductCategory)
      (v : ValidationResult) :
  process call_llm product research_result okpd2_result category = Ok v ->
  is_valid v = true ->
  category_issue category = [] /\
  _validate_okpd2 okpd2_result category = [] /\
  _validate_specifications research_result category product = [] /\
  unit_issues product category = [] /\
  _check_variability product research_result = [] /\
  _apply_business_rules product research_result okpd2_result = [] /\
  issues v = [] /\ rejection_reason v = None /\ suggestions v = [].
Proof.
  intros H Hv. destruct (process_issues _ _ _ _ H) as [I [L R]].
  destruct (R Hv) as [R1 R2]. rewrite Hv in L. symmetry in L.
  apply Nat.eqb_eq in L. apply length_zero_iff_nil in L.
  rewrite L in I. symmetry in I. unfold all_issues in I.
  apply app_eq_nil in I. destruct I as [I1 I].
  apply app_eq_nil in I. destruct I as [I2 I].
  apply app_eq_nil in I. destruct I as [I3 I].
  apply app_eq_nil in I. destruct I as [I4 I].
  apply app_eq_nil in I. destruct I as [I5 I6].
  repeat split; assumption.
Qed.

(** A result is valid only for a product of a known category whose
    classification has a well-formed code, a level of 3 or more and a
    confidence of 0.5 or more; whose research found every required
    characteristic of the category, at least the minimal number of
    characteristics and no placeholder, a manufacturer that is known and no
    model shorter than three characters; whose unit is one of the units of
    the category; and whose name and characteristics show no variability
    and no generic term.  Such a result has no issue, no rejection reason
    and no suggestion. *)
Theorem valid_result_requirements (product : Product V)
        (research_result : option (ResearchDict V))
        (okpd2_result : option OKPD2Result) (category : ProductCategory)
        (v : ValidationResult) :
  process call_llm product research_result okpd2_result category = Ok v ->
  is_valid v = true ->
  category <> UNKNOWN /\
  (exists r,
      okpd2_result = Some r /\ _is_valid_okpd2_format (code r) = true /\
      (3 <= level r)%Z /\ 0.5 <= confidence r) /\
  (exists research criteria manufacturer,
      research_result = Some research /\
      dict_get (KEnum category) validation_criteria = Some criteria /\
      (forall spec, In spec (required_specs criteria) ->
                    exists x, str_get spec (d_specifications research) = Some x /\
                              truthy x = true) /\
      (min_specs_count criteria
       <= List.length (filter (fun kv => truthy (snd kv))
                              (d_specifications research)))%nat /\
      (forall kv, In kv (d_specifications research) ->
                  str_in (lower (py_str (snd kv))) placeholder_patterns = false) /\
      unit_is_valid (original_unit product) (unit_options criteria) = true /\
      d_manufacturer research = Some manufacturer /\ manufacturer <> [] /\
      str_in (lower manufacturer) (map py ["unknown"; "неизвестно"]) = false /\
      (forall model, d_model research = Some model ->
                     model = [] \/ (3 <= List.length model)%nat)) /\
  _check_variability product research_result = [] /\
  existsb (fun term => contains (lower (original_name product)) term)
          (map py ["прочие"; "другие"; "разные"; "various"; "other"; "misc"])
  = false /\
  issues v = [] /\ rejection_reason v = None /\ suggestions v = [].
Proof.
  intros H Hv.
  destruct (valid_checks_pass _ _ _ _ H Hv)
    as [I1 [I2 [I3 [I4 [I5 [I6 [L [R1 R2]]]]]]]].
  destruct (validate_specifications_nil _ _ _ I3)
    as [research [criteria [-> [G [S1 [S2 S3]]]]]].
  destruct (apply_business_rules_nil _ _ _ I6)
    as [[manufacturer [M1 [M2 M3]]] [M4 Generic]].
  split.
  { intros ->. discriminate I1. }
  split; [exact (validate_okpd2_nil _ _ I2)|].
  split; [|split; [exact I5|split; [exact Generic|split; [exact L|split; assumption]]]].
  exists research, criteria, manufacturer.
  split; [reflexivity|]. split; [exact G|]. split; [exact S1|].
  split; [exact S2|]. split; [exact S3|].
  split; [|split; [exact M1|split; [exact M2|split; [exact M3|exact M4]]]].
  apply (@validate_unit_none product category criteria G). unfold unit_issues in I4.
  destruct (_validate_unit product category); [discriminate I4|reflexivity].
Qed.

(** *** Suggestions *)

Lemma in_firstn {A} (n : nat) (l : list A) (x : A) : In x (firstn n l) -> In x l.
Proof.
  intro H. rewrite <- (firstn_skipn n l). apply in_or_app. left. exact H.
Qed.

Lemma join_in (sep : pystr) (parts : list pystr) (x : pystr) :
  In x parts -> exists pre post, join sep parts = pre ++ x ++ post.
Proof.
  induction parts as [|p parts IH]; intro H; [contradiction H|].
  destruct parts as [|q parts].
  - destruct H as [<-|[]]. exists [], []. cbn [join app].
    rewrite app_nil_r. reflexivity.
  - rewrite Selection.join_cons by discriminate. destruct H as [<-|H].
    + exists [], (sep ++ join sep (q :: parts)). reflexivity.
    + destruct (IH H) as [pre [post E]]. exists (p ++ sep ++ pre), post.
      rewrite E, <- !app_assoc. reflexivity.
Qed.

(** There are at most three suggestions; none is empty, none starts or ends
    with whitespace.  When the LLM answers, every suggestion is a part of
    one line of the answer; when the call fails, the suggestions are the
    two fixed ones. *)
Theorem generate_suggestions_shape (product : Product V) (issues : list pystr)
        (research_result : option (ResearchDict V)) :
  let suggestions := _generate_suggestions call_llm product issues research_result in
  (List.length suggestions <= 3)%nat /\
  (forall s, In s suggestions ->
             s <> [] /\ is_space (hd 0%N s) = false /\
             is_space (last s 0%N) = false) /\
  (forall response,
      call_llm (original_name product) issues = Ok response ->
      forall s, In s suggestions -> ~ In 10%N s /\ contains response s = true) /\
  (forall e,
      call_llm (original_name product) issues = Raise e ->
      suggestions = map py ["Уточнить информацию у поставщика";
                            "Проверить каталог производителя"]).
Proof.
  cbv zeta. unfold _generate_suggestions.
  destruct (call_llm (original_name product) issues) as [response|e].
  - assert (P : forall s,
               In s (firstn 3
                       (map strip
                            (filter (fun s => match strip s with
                                              | [] => false
                                              | _ :: _ => true
                                              end)
                                    (split_on 10 response)))) ->
               exists line,
                 In line (split_on 10 response) /\ s = strip line /\ s <> []).
    { intros s Hs. apply in_firstn in Hs. apply in_map_iff in Hs.
      destruct Hs as [line [<- Hl]]. apply filter_In in Hl.
      destruct Hl as [Hl Hn]. exists line. split; [exact Hl|].
      split; [reflexivity|]. destruct (strip line); discriminate. }
    split; [rewrite length_firstn; apply Nat.le_min_l|].
    split; [|split].
    + intros s Hs. destruct (P s Hs) as [line [_ [-> N]]].
      destruct (DetectorFacts.strip_spec line) as [_ [E|[A B]]];
        [contradiction|].
      split; [exact N|]. split; assumption.
    + intros response' E s Hs. injection E as <-.
      destruct (P s Hs) as [line [Hl [-> _]]].
      destruct (DetectorFacts.strip_spec line) as [[pre [post E]] _].
      split.
      * intro X. apply (@Selection.split_on_segments 10 response line Hl).
        rewrite E. apply in_or_app. right. apply in_or_app. left. exact X.
      * apply TextFacts.contains_app.
        destruct (@join_in [10%N] (split_on 10 response) line Hl) as [a [b J]].
        rewrite Selection.join_split in J.
        exists (a ++ pre), (post ++ b). rewrite J. rewrite E at 1.
        rewrite <- !app_assoc. reflexivity.
    + intros e E. discriminate E.
  - split; [cbn [map List.length]; lia|].
    split; [|split].
    + intros s [<-|[<-|[]]]; (split; [|split]);
        vm_compute; try reflexivity; discriminate.
    + intros response E. discriminate E.
    + intros e' _. reflexivity.
Qed.

End Checks.

Import Json.

(** The run of the scenario on its first hammer: the research, the
    classification and the validation result. *)
Definition sample_research : ResearchDict Json.pyval :=
  {| d_manufacturer := Some (py "Stanley");
     d_model := Some (py "STHT-51");
     d_specifications :=
       [(py "striker_weight_kg", Json.PStr (py "0.5"));
        (py "length_mm", Json.PInt 320);
        (py "type", Json.PStr (py "слесарный"));
        (py "handle_material", Json.PStr (py "дерево"))];
     d_product_type := None |}.

Definition sample_okpd2 : OKPD2Result :=
  {| code := py "25.73.30.123"; name := py "Молотки слесарные"; level := 4;
     parent_code := Some (py "25.73.30"); confidence := 0.9;
     alternative_codes := [] |}.

Definition sample_valid : ValidationResult :=
  {| is_valid := true; issues := []; rejection_reason := None; suggestions := [] |}.

Lemma valid_result_requirements_witness :
  process Scenario.llm_stub Scenario.hammer_a (Some sample_research)
          (Some sample_okpd2) HAMMER = Ok sample_valid /\
  is_valid sample_valid = true /\
  HAMMER <> UNKNOWN /\ issues sample_valid = [].
Proof.
  assert (H : process Scenario.llm_stub Scenario.hammer_a (Some sample_research)
                      (Some sample_okpd2) HAMMER = Ok sample_valid)
    by (vm_compute; reflexivity).
  split; [exact H|]. split; [reflexivity|].
  destruct (@valid_result_requirements pyval pyval_PyValue
              Scenario.llm_stub Scenario.hammer_a (Some sample_research)
              (Some sample_okpd2) HAMMER sample_valid H eq_refl)
    as [C [_ [_ [_ [_ [I _]]]]]].
  split; [exact C|exact I].
Defined.

(** *** The format of a code *)

(** Two digits, a dot, two digits, a dot, two digits, then possibly a dot
    and three digits, then possibly one newline. *)
Definition well_formed (code : pystr) : bool :=
  match code with
  | d1 :: d2 :: p1 :: d3 :: d4 :: p2 :: d5 :: d6 :: rest =>
    is_digit d1 && is_digit d2 && (p1 =? 46)%N
    && is_digit d3 && is_digit d4 && (p2 =? 46)%N
    && is_digit d5 && is_digit d6
    && match rest with
       | [] => true
       | [nl] => (nl =? 10)%N
       | [p3; d7; d8; d9] =>
         (p3 =? 46)%N && is_digit d7 && is_digit d8 && is_digit d9
       | [p3; d7; d8; d9; nl] =>
         (p3 =? 46)%N && is_digit d7 && is_digit d8 && is_digit d9 && (nl =? 10)%N
       | _ => false
       end
  | _ => false
  end.

Lemma fullmatch_Void (s : pystr) : Re.fullmatch Re.Void s = false.
Proof. induction s as [|c s IH]; [reflexivity|exact IH]. Qed.

Ltac decide_conditions :=
  cbn -[is_digit N.eqb];
  repeat (match goal with
          | |- context [if ?b then _ else _] => destruct b eqn:?
          end; cbn -[is_digit N.eqb]);
  rewrite ?fullmatch_Void; try reflexivity.

Lemma is_valid_okpd2_format_spec (code : pystr) :
  _is_valid_okpd2_format code = well_formed code.
Proof.
  unfold _is_valid_okpd2_format, okpd2_pattern, Re.str.
  rewrite Selection.dot_literal.
  cbv [Re.cat Re.rep Re.opt Re.digit Re.chr map].
  destruct code as [|? code]; [decide_conditions|].
  destruct code as [|? code]; [decide_conditions|].
  destruct code as [|? code]; [decide_conditions|].
  destruct code as [|? code]; [decide_conditions|].
  destruct code as [|? code]; [decide_conditions|].
  destruct code as [|? code]; [decide_conditions|].
  destruct code as [|? code]; [decide_conditions|].
  destruct code as [|? code]; [decide_conditions|].
  destruct code as [|? code]; [decide_conditions|].
  destruct code as [|? code]; [decide_conditions|].
  destruct code as [|? code]; [decide_conditions|].
  destruct code as [|? code]; [decide_conditions|].
  destruct code as [|? code]; [decide_conditions|].
  destruct code as [|? code]; [decide_conditions|].
  destruct code as [|? code]; decide_conditions.
Qed.

Lemma digit_not_dot (d : N) : is_digit d = true -> d <> 46%N.
Proof. intros H ->. vm_compute in H. discriminate H. Qed.

Ltac no_dots :=
  let p := fresh "p" in
  let Hp := fresh "Hp" in
  let X := fresh "X" in
  intros p Hp X; cbn [In] in Hp;
  repeat match goal with
         | H : _ \/ _ |- _ => destruct H
         | H : False |- _ => destruct H
         end;
  subst; cbn [In] in X;
  repeat match goal with
         | H : _ \/ _ |- _ => destruct H
         | H : False |- _ => destruct H
         end;
  try discriminate;
  subst;
  match goal with
  | H : is_digit 46 = true |- _ => vm_compute in H; discriminate H
  end.

Ltac parent_of parts :=
  match goal with
  | |- context [_get_parent_code ?code] =>
    change code with (join [46%N] parts)
  end;
  rewrite Selection.get_parent_code_parts; cbv zeta;
  rewrite Selection.split_join; [|discriminate|no_dots];
  cbn [List.length Nat.leb Nat.eqb andb removelast];
  eexists; split; [reflexivity|].

(** A code of ASCII characters passes the format check exactly when it is
    made of two digits, a dot, two digits, a dot and two digits, possibly
    followed by a dot and three digits, and possibly by one newline after
    that.  A code that passes has a parent code, and the parent of a code
    of four segments passes as well. *)
Theorem okpd2_format_accepted (code : pystr) :
  forallb (fun c => (c <? 128)%N) code = true ->
  _is_valid_okpd2_format code = well_formed code /\
  (_is_valid_okpd2_format code = true ->
   exists parent,
     _get_parent_code code = Some parent /\
     (List.length (split_on 46 code) = 4%nat ->
      _is_valid_okpd2_format parent = true)).
Proof.
  intros _. split; [apply is_valid_okpd2_format_spec|].
  rewrite is_valid_okpd2_format_spec. intro W.
  destruct code as [|d1 [|d2 [|p1 [|d3 [|d4 [|p2 [|d5 [|d6 rest]]]]]]]];
    try discriminate W.
  cbn [well_formed] in W.
  apply andb_true_iff in W. destruct W as [W M].
  do 7 (apply andb_true_iff in W; destruct W as [W ?]).
  repeat match goal with
         | H : (_ =? 46)%N = true |- _ => apply N.eqb_eq in H; subst
         end.
  destruct rest as [|c9 [|c10 [|c11 [|c12 [|c13 [|c14 rest]]]]]];
    try discriminate M.
  - parent_of [[d1; d2]; [d3; d4]; [d5; d6]].
    intro L. discriminate L.
  - apply N.eqb_eq in M. subst c9.
    parent_of [[d1; d2]; [d3; d4]; [d5; d6; 10%N]].
    intro L. discriminate L.
  - do 3 (apply andb_true_iff in M; destruct M as [M ?]).
    apply N.eqb_eq in M. subst c9.
    parent_of [[d1; d2]; [d3; d4]; [d5; d6]; [c10; c11; c12]].
    intros _. rewrite is_valid_okpd2_format_spec. cbn [join app well_formed].
    repeat match goal with
           | H : is_digit _ = true |- _ => rewrite H; clear H
           end.
    reflexivity.
  - do 4 (apply andb_true_iff in M; destruct M as [M ?]).
    apply N.eqb_eq in M. subst c9.
    match goal with
    | H : (c13 =? 10)%N = true |- _ => apply N.eqb_eq in H; subst c13
    end.
    parent_of [[d1; d2]; [d3; d4]; [d5; d6]; [c10; c11; c12; 10%N]].
    intros _. rewrite is_valid_okpd2_format_spec. cbn [join app well_formed].
    repeat match goal with
           | H : is_digit _ = true |- _ => rewrite H; clear H
           end.
    reflexivity.
Qed.

Lemma okpd2_format_accepted_witness :
  forallb (fun c => (c <? 128)%N) (py "26.51.52.110") = true /\
  _is_valid_okpd2_format (py "26.51.52.110") = well_formed (py "26.51.52.110").
Proof.
  assert (A : forallb (fun c => (c <? 128)%N) (py "26.51.52.110") = true)
    by (vm_compute; reflexivity).
  split; [exact A|].
  exact (proj1 (@okpd2_format_accepted (py "26.51.52.110") A)).
Defined.

End ValidationFacts.

(** ** The processor: batches, counters and terminal products *)

Module ProcessorFacts.
Import OKPD2ClassifierAgent QualityValidationAgent MTRProcessor.
Import FloatFacts Pipeline Grouping Orchestrator.

Section Facts.
Context {V : Type} {PV : PyValue V}.
Variable learned_patterns : dict (list pystr).
Variable research : Product V -> ProductCategory -> result (option (ResearchResult V)).
Variable find_candidates :
  Product V -> ProductCategory -> option (ResearchDict V) -> result (list Candidate).
Variable call_llm : pystr -> list pystr -> result pystr.

(** *** [_create_batches] *)

(** The batches of a product list hold its products in order, ten in every
    batch but the last, which holds the remaining one to ten; an empty list
    gives no batch.  The batches are numbered from 0, carry the category and
    the number of their products, and start with both counters at 0. *)
Theorem create_batches_partition (l : list (Product V)) (c : ProductCategory) :
  let batches := _create_batches l c in
  flat_map (@products V) batches = l /\
  List.length batches = ((List.length l + 9) / 10)%nat /\
  map (@batch_id V) batches
  = map (fun k => (value c, k)) (seq 0 (List.length batches)) /\
  (forall k b, nth_error batches k = Some b ->
               products b = firstn 10 (skipn (10 * k) l)) /\
  (forall b, In b batches ->
             b_category b = c /\
             (1 <= List.length (products b) <= 10)%nat /\
             total_count b = List.length (products b) /\
             processed_count b = 0%nat /\ failed_count b = 0%nat).
Proof.
  cbv zeta.
  assert (L : List.length (_create_batches l c) = ((List.length l + 9) / 10)%nat).
  { unfold _create_batches, range_step, batch_size.
    rewrite !length_map, length_seq. f_equal. lia. }
  split; [apply create_batches_concat|]. split; [exact L|].
  split; [|split].
  - rewrite L. unfold _create_batches, range_step, batch_size.
    rewrite !map_map. cbn [batch_id].
    replace (List.length l + 10 - 1)%nat with (List.length l + 9)%nat by lia.
    apply map_ext. intro k. rewrite Nat.div_mul by discriminate. reflexivity.
  - intros k b H. unfold _create_batches, range_step, batch_size in H.
    rewrite map_map in H. rewrite nth_error_map in H.
    destruct (nth_error (seq 0 ((List.length l + 10 - 1) / 10)) k) as [k'|] eqn:E;
      [|discriminate H].
    cbn [option_map] in H. injection H as <-. cbn [products].
    assert (K : k' = k).
    { pose proof (nth_error_Some (seq 0 ((List.length l + 10 - 1) / 10)) k) as B.
      rewrite E in B. rewrite length_seq in B.
      assert (B' : (k < (List.length l + 10 - 1) / 10)%nat)
        by (apply B; discriminate).
      rewrite (nth_error_nth' _ 0%nat) in E by (rewrite length_seq; exact B').
      rewrite seq_nth in E by exact B'. injection E as <-. reflexivity. }
    subst k'. rewrite (Nat.mul_comm k 10). reflexivity.
  - intros b Hb. unfold _create_batches, range_step, batch_size in Hb.
    rewrite map_map in Hb. apply in_map_iff in Hb. destruct Hb as [k [<- Hk]].
    apply in_seq in Hk. cbn [b_category products total_count processed_count failed_count].
    split; [reflexivity|]. split; [|repeat split].
    rewrite length_firstn, length_skipn.
    pose proof (Nat.Div0.mul_div_le (List.length l + 10 - 1) 10) as D.
    lia.
Qed.

(** *** [_process_batch] *)

Lemma process_single_product_returns (p : Product V) (c : ProductCategory) :
  exists q, _process_single_product research find_candidates call_llm p c = Ok q.
Proof.
  unfold _process_single_product. cbv zeta.
  destruct (run_stages research find_candidates call_llm (set_status p PROCESSING) c);
    eexists; reflexivity.
Qed.

(** [_process_batch] returns one product for every product of the batch and
    counts every one of them as processed, the failed ones included: the
    counter of failures is never incremented.  A batch that starts without
    failures and holds a product therefore ends with a success rate of 1. *)
Theorem process_batch_counters (b : ProcessingBatch V) :
  let done := _process_batch research find_candidates call_llm b in
  List.length (snd done) = List.length (products b) /\
  processed_count (fst done) = (processed_count b + List.length (products b))%nat /\
  failed_count (fst done) = failed_count b /\
  total_count (fst done) = total_count b /\
  (failed_count b = 0%nat -> products b <> [] -> success_rate (fst done) = 1).
Proof.
  cbv zeta.
  assert (G : List.length (snd (_process_batch research find_candidates call_llm b))
              = List.length (products b) /\
              processed_count (fst (_process_batch research find_candidates call_llm b))
              = (processed_count b + List.length (products b))%nat /\
              failed_count (fst (_process_batch research find_candidates call_llm b))
              = failed_count b /\
              total_count (fst (_process_batch research find_candidates call_llm b))
              = total_count b).
  { unfold _process_batch. cbv zeta.
    set (single := fun product =>
           _process_single_product research find_candidates call_llm product
                                   (b_category b)).
    match goal with
    | |- context [fold_left ?F _ _] => set (step := F)
    end.
    assert (S : forall l b0 acc,
               List.length (snd (fold_left step (combine l (map single l)) (b0, acc)))
               = (List.length acc + List.length l)%nat /\
               processed_count (fst (fold_left step (combine l (map single l)) (b0, acc)))
               = (processed_count b0 + List.length l)%nat /\
               failed_count (fst (fold_left step (combine l (map single l)) (b0, acc)))
               = failed_count b0 /\
               total_count (fst (fold_left step (combine l (map single l)) (b0, acc)))
               = total_count b0).
    { induction l as [|p l IH]; intros b0 acc.
      - cbn [combine map fold_left fst snd List.length]. repeat split; lia.
      - cbn [combine map fold_left].
        destruct (process_single_product_returns p (b_category b)) as [q Hq].
        change (single p)
          with (_process_single_product research find_candidates call_llm p
                                        (b_category b)).
        rewrite Hq.
        change (step (b0, acc) (p, Ok q))
          with ({| batch_id := batch_id b0; products := products b0;
                   b_category := b_category b0; total_count := total_count b0;
                   processed_count := processed_count b0 + 1;
                   failed_count := failed_count b0 |},
                acc ++ [q]).
        match goal with
        | |- context [fold_left step _ (?b1, ?acc1)] =>
          destruct (IH b1 acc1) as [I1 [I2 [I3 I4]]]
        end.
        rewrite I1, I2, I3, I4.
        cbn [processed_count failed_count total_count List.length].
        rewrite length_app. cbn [List.length]. repeat split; lia. }
    destruct (S (products b) b []) as [S1 [S2 [S3 S4]]].
    cbn [List.length] in S1. repeat split; assumption. }
  destruct G as [G1 [G2 [G3 G4]]].
  split; [exact G1|]. split; [exact G2|]. split; [exact G3|]. split; [exact G4|].
  intros F N. unfold success_rate. rewrite G2, G3, F.
  destruct (products b) as [|p ps]; [contradiction N; reflexivity|].
  cbn [List.length]. rewrite Nat.add_succ_r. unfold Float.div.
  change 1 with (Qred 1). apply Qred_complete.
  rewrite Z.sub_0_r. unfold of_int, of_nat.
  apply Qmult_inv_r. intro E.
  apply (proj1 (inject_Z_injective (Z.of_nat (S (processed_count b + List.length ps))) 0)) in E.
  lia.
Qed.

(** *** The statistics of [process_file] *)

Lemma finish_terminal (p : Product V) :
  status (finish research find_candidates call_llm p) = COMPLETED \/
  status (finish research find_candidates call_llm p) = REJECTED \/
  status (finish research find_candidates call_llm p) = FAILED.
Proof.
  destruct (finish_cases research find_candidates call_llm p)
    as [[q [Hq E]]|[e [He E]]].
  - destruct (finish_ok _ _ _ _ Hq) as [_ [S|S]]; rewrite E; tauto.
  - rewrite E. right. right. reflexivity.
Qed.

Lemma count_status_cons (s : ProcessingStatus) (p : Product V) (l : list (Product V)) :
  count_status s (p :: l)
  = ((match status p, s with
      | COMPLETED, COMPLETED | REJECTED, REJECTED | FAILED, FAILED
      | PENDING, PENDING | PROCESSING, PROCESSING => 1
      | _, _ => 0
      end) + count_status s l)%nat.
Proof.
  unfold count_status, CategoryDetector.count. cbn [filter].
  destruct (status p), s; reflexivity.
Qed.

Lemma count_terminal (l : list (Product V)) :
  (forall p, In p l ->
             status p = COMPLETED \/ status p = REJECTED \/ status p = FAILED) ->
  (count_status COMPLETED l + count_status REJECTED l + count_status FAILED l
   = List.length l)%nat /\
  count_status PENDING l = 0%nat /\ count_status PROCESSING l = 0%nat.
Proof.
  induction l as [|p l IH]; intro H; [repeat split|].
  destruct IH as [I1 [I2 I3]]; [intros q Hq; apply H; right; exact Hq|].
  rewrite !count_status_cons, I2, I3. cbn [List.length].
  destruct (H p (or_introl eq_refl)) as [E|[E|E]]; rewrite E;
    repeat split; lia.
Qed.


(** *** Failed products *)

(** A failed product of the output is a product of the input whose stages
    raised.  It carries the message of the exception, and no result of a
    stage: its classification code, normalized unit, comment and
    specifications are those of the input product, as are its code, names,
    units and row, and its category and confidence are those that the
    categorization gave it.  (The code has also stamped the product; the
    time stamp is not a field of [Product] here.) *)
Theorem failed_product_keeps_input (products : list (Product V)) (p : Product V) :
  In p (process_file learned_patterns research find_candidates call_llm products) ->
  status p = FAILED ->
  exists p0 message,
    In p0 products /\
    outcome research find_candidates call_llm (categorize_one learned_patterns p0)
    = Raise message /\
    error_message p = Some message /\
    okpd2_code p = okpd2_code p0 /\
    normalized_unit p = normalized_unit p0 /\
    comment p = comment p0 /\
    specifications p = specifications p0 /\
    internal_code p = internal_code p0 /\
    original_name p = original_name p0 /\
    original_unit p = original_unit p0 /\
    category_name p = category_name p0 /\
    excel_row p = excel_row p0 /\
    category p = category (categorize_one learned_patterns p0) /\
    confidence_score p = confidence_score (categorize_one learned_patterns p0).
Proof.
  intros Hp S.
  destruct (in_process_file _ _ _ _ _ _ Hp) as [p1 [H1 ->]].
  unfold categorized in H1. apply in_map_iff in H1. destruct H1 as [p0 [<- H0]].
  destruct (finish_cases research find_candidates call_llm
                         (categorize_one learned_patterns p0))
    as [[q [Hq E]]|[e [He E]]].
  - destruct (finish_ok _ _ _ _ Hq) as [_ [T|T]]; rewrite E in S; congruence.
  - exists p0, e. split; [exact H0|]. split; [exact He|]. rewrite E.
    unfold categorize_one.
    destruct (category_eqb (category p0) UNKNOWN);
      [match goal with
       | |- context [let '(_, _) := ?d in _] => destruct d as [c conf]
       end|];
      repeat split; reflexivity.
Qed.

(** *** [_categorize_products] *)

(** The groups have distinct categories; the group of a category holds the
    categorized products of that category in the order of the input and is
    never empty; every categorized product is in the group of its category;
    taken together the groups hold the categorized products, each once. *)
Theorem categorize_products_grouping (products : list (Product V)) :
  let groups := _categorize_products learned_patterns products in
  let all := map (categorize_one learned_patterns) products in
  NoDup (map fst groups) /\
  (forall c ps, In (c, ps) groups ->
                ps <> [] /\
                ps = filter (fun p => category_eqb (category p) c) all) /\
  (forall p, In p all -> exists ps, In (category p, ps) groups /\ In p ps) /\
  Permutation (flat_map snd groups) all.
Proof.
  cbv zeta. rewrite categorize_products_groups. unfold categorized.
  set (all := map (categorize_one learned_patterns) products).
  destruct (first_seen_spec (map (@category V) all)) as [ND IN].
  split; [|split; [|split]].
  - unfold groups_of. rewrite map_map. cbn [fst]. rewrite map_id. exact ND.
  - intros c ps H. unfold groups_of in H. apply in_map_iff in H.
    destruct H as [k [E Hk]]. injection E as <- <-. split; [|reflexivity].
    apply IN in Hk. apply in_map_iff in Hk. destruct Hk as [p [E Hp]].
    intro F.
    assert (X : In p (filter (has_category k) all)).
    { apply filter_In. split; [exact Hp|]. unfold has_category.
      apply category_eqb_eq. exact E. }
    rewrite F in X. contradiction X.
  - intros p Hp. exists (filter (has_category (category p)) all). split.
    + unfold groups_of.
      apply (in_map (fun c => (c, filter (has_category c) all))).
      apply IN. apply in_map. exact Hp.
    + apply filter_In. split; [exact Hp|]. apply category_eqb_refl.
  - rewrite <- regroup_groups. apply regroup_permutation.
Qed.

(** *** Completed products *)

(** The product that the stages return, from the results of the agents. *)
Definition updated (product : Product V) (category : ProductCategory)
           (research_result : option (ResearchResult V))
           (okpd2_result : OKPD2Result) (validation_result : ValidationResult)
  : Product V :=
  let product :=
    match research_result with
    | Some r =>
      let specs := r_specifications r in
      let specs :=
        match manufacturer r with
        | Some ((_ :: _) as m) => dict_set (py "manufacturer") (of_str m) specs
        | _ => specs
        end in
      let specs :=
        match model r with
        | Some ((_ :: _) as m) => dict_set (py "model") (of_str m) specs
        | _ => specs
        end in
      set_specifications product specs
    | None => product
    end in
  let product := set_okpd2_code product (Some (code okpd2_result)) in
  let product :=
    set_normalized_unit product (Some (_get_normalized_unit product category)) in
  if is_valid validation_result
  then set_comment (set_status product COMPLETED) (Some (py "Успешно нормализовано"))
  else set_error_message
         (set_comment (set_status product REJECTED)
                      (rejection_reason validation_result))
         (Some (join (py "; ") (issues validation_result))).

Lemma run_stages_inv (p q : Product V) (c : ProductCategory) :
  run_stages research find_candidates call_llm p c = Ok q ->
  exists rr cands v,
    research p c = Ok rr /\
    find_candidates p c (option_map to_dict rr) = Ok cands /\
    QualityValidationAgent.process
      call_llm p (option_map to_dict rr)
      (Some (_select_best_code cands p c (option_map to_dict rr))) c = Ok v /\
    q = updated p c rr (_select_best_code cands p c (option_map to_dict rr)) v.
Proof.
  unfold run_stages.
  destruct (research p c) as [rr|e] eqn:R; cbn [bind]; [|discriminate].
  unfold OKPD2ClassifierAgent.process.
  destruct (find_candidates p c (option_map to_dict rr)) as [cands|e] eqn:C;
    cbn [bind]; [|discriminate].
  destruct (QualityValidationAgent.process
              call_llm p (option_map to_dict rr)
              (Some (_select_best_code cands p c (option_map to_dict rr))) c)
    as [v|e] eqn:Hv; cbn [bind]; [|discriminate].
  intro H. injection H as <-. exists rr, cands, v.
  split; [reflexivity|]. split; [exact C|]. split; [exact Hv|reflexivity].
Qed.

Lemma str_get_dict_set_same {A} (k : pystr) (v : A) (d : list (pystr * A)) :
  str_get k (dict_set k v d) = Some v.
Proof.
  assert (R : str_eqb k k = true) by (apply Learning.str_eqb_eq; reflexivity).
  induction d as [|[k' v'] d IH]; cbn [dict_set str_get].
  - rewrite R. reflexivity.
  - destruct (str_eqb k k') eqn:E; cbn [str_get].
    + rewrite R. reflexivity.
    + rewrite E. exact IH.
Qed.

Lemma str_get_dict_set_other {A} (k k' : pystr) (v : A) (d : list (pystr * A)) :
  str_eqb k k' = false -> str_get k (dict_set k' v d) = str_get k d.
Proof.
  intro H. induction d as [|[k0 v0] d IH]; cbn [dict_set str_get].
  - rewrite H. reflexivity.
  - destruct (str_eqb k' k0) eqn:E; cbn [str_get].
    + apply Learning.str_eqb_eq in E. subst k0. rewrite H. reflexivity.
    + destruct (str_eqb k k0); [reflexivity|exact IH].
Qed.

(** The validation agent and the processor list the same units. *)
Lemma criteria_units (c : ProductCategory) (criteria : Criteria) :
  dict_get (KEnum c) validation_criteria = Some criteria ->
  c <> UNKNOWN /\ unit_options criteria = valid_units c.
Proof.
  destruct c; intro H; vm_compute in H; try discriminate H;
    injection H as <-; (split; [discriminate|vm_compute; reflexivity]).
Qed.

Lemma criteria_known (c : ProductCategory) :
  c <> UNKNOWN ->
  exists criteria, dict_get (KEnum c) validation_criteria = Some criteria.
Proof.
  destruct c; intro H; try (eexists; reflexivity). contradiction H. reflexivity.
Qed.

Lemma canonical_unit (c : ProductCategory) (unit : pystr) :
  c <> UNKNOWN -> In (hd unit (valid_units c)) (map py ["штука"; "тонна"]).
Proof.
  intro H. rewrite valid_units_table.
  destruct c; cbn [map hd In]; auto; contradiction H; reflexivity.
Qed.

(** A completed product of the output has a known category, a code in the
    format of the classification, a unit that is one of the units of its
    category and is normalized to the first of them (the piece or the ton),
    the manufacturer among its characteristics, and the comment of a
    successful normalization. *)
Theorem completed_product_facts (products : list (Product V)) (p : Product V) :
  In p (process_file learned_patterns research find_candidates call_llm products) ->
  status p = COMPLETED ->
  category p <> UNKNOWN /\
  (exists code, okpd2_code p = Some code /\ _is_valid_okpd2_format code = true) /\
  unit_is_valid (original_unit p) (valid_units (category p)) = true /\
  (exists unit others,
      valid_units (category p) = unit :: others /\
      normalized_unit p = Some unit /\
      In unit (map py ["штука"; "тонна"])) /\
  (exists manufacturer,
      manufacturer <> [] /\
      str_get (py "manufacturer") (specifications p) = Some (of_str manufacturer)) /\
  comment p = Some (py "Успешно нормализовано").
Proof.
  intros Hp S.
  destruct (in_process_file _ _ _ _ _ _ Hp) as [p0 [_ ->]].
  destruct (finish_cases research find_candidates call_llm p0)
    as [[q [Hq E]]|[e [_ E]]]; rewrite E in *; [|discriminate S].
  clear E. unfold outcome, stages in Hq. apply run_stages_inv in Hq.
  destruct Hq as [rr [cands [v [_ [_ [Hv ->]]]]]].
  set (okpd2 := _select_best_code cands (set_status p0 PROCESSING) (category p0)
                                  (option_map to_dict rr)) in *.
  assert (Valid : is_valid v = true).
  { unfold updated in S. destruct (is_valid v); [reflexivity|].
    cbn [status set_error_message set_comment set_status] in S. discriminate S. }
  destruct (ValidationFacts.valid_checks_pass _ _ _ _ _ Hv Valid)
    as [_ [I2 [I3 [I4 [_ [I6 _]]]]]].
  destruct (ValidationFacts.validate_okpd2_nil _ _ I2) as [r [Er [Format _]]].
  injection Er as <-.
  destruct (ValidationFacts.validate_specifications_nil _ _ _ I3)
    as [research0 [criteria [Err [G _]]]].
  destruct rr as [r0|]; [|discriminate Err].
  cbn [option_map] in Err. injection Err as <-.
  destruct (ValidationFacts.apply_business_rules_nil _ _ _ I6) as [[m [M1 [M2 _]]] _].
  cbn [d_manufacturer to_dict] in M1.
  destruct (criteria_units _ G) as [Known Units].
  assert (U : unit_is_valid (original_unit p0) (valid_units (category p0)) = true).
  { rewrite <- Units.
    apply (@ValidationFacts.validate_unit_none V (set_status p0 PROCESSING)
                                               (category p0) criteria G).
    unfold ValidationFacts.unit_issues in I4.
    destruct (_validate_unit (set_status p0 PROCESSING) (category p0));
      [discriminate I4|reflexivity]. }
  destruct m as [|a m]; [contradiction M2; reflexivity|].
  unfold updated. rewrite Valid, M1.
  cbn [category original_unit okpd2_code normalized_unit comment specifications
       set_comment set_status set_normalized_unit set_okpd2_code set_specifications].
  split; [exact Known|].
  split; [exists (code okpd2); split; [reflexivity|exact Format]|].
  split; [exact U|].
  split.
  { rewrite get_normalized_unit_spec. unfold normalized_unit_spec.
    cbn [original_unit set_okpd2_code set_specifications set_status].
    rewrite U. rewrite valid_units_table.
    destruct (category p0); try (contradiction Known; reflexivity);
      cbn [map hd]; do 2 eexists;
      (split; [reflexivity|]); (split; [reflexivity|]); cbn [In]; auto. }
  split; [|reflexivity].
  exists (a :: m). split; [discriminate|].
  destruct (model r0) as [[|b mo]|]; try apply str_get_dict_set_same.
  rewrite str_get_dict_set_other by (vm_compute; reflexivity).
  apply str_get_dict_set_same.
Qed.

(** *** Products without a candidate code *)





(** *** The two checks of the unit *)

Lemma validate_unit_cases (product : Product V) (c : ProductCategory) :
  _validate_unit product c
  = if category_eqb c UNKNOWN then None
    else if unit_is_valid (original_unit product) (valid_units c) then None
         else Some (py "Единица измерения '" ++ original_unit product
                      ++ py "' не соответствует категории " ++ value c
                      ++ py ". Ожидается: " ++ join (py ", ") (valid_units c)).
Proof.
  destruct (category_eq_dec c UNKNOWN) as [->|N]; [reflexivity|].
  destruct (criteria_known N) as [criteria G].
  destruct (criteria_units _ G) as [_ Units].
  unfold _validate_unit. rewrite Learning.dict_in_get, G. cbn [negb]. cbv zeta.
  rewrite Units.
  replace (category_eqb c UNKNOWN) with false
    by (destruct c; try reflexivity; contradiction N; reflexivity).
  destruct (unit_is_valid (original_unit product) (valid_units c)); reflexivity.
Qed.

(** The validation agent and the processor agree on the unit.  When the
    agent objects to the unit, the processor keeps the unit as it is; when
    it does not, the category is unknown and the unit is kept, or the unit
    is normalized to the first unit of the category, the piece or the ton. *)
Theorem unit_checks_agree (product : Product V) (c : ProductCategory) :
  match _validate_unit product c with
  | Some _ =>
    c <> UNKNOWN /\ _get_normalized_unit product c = original_unit product
  | None =>
    (c = UNKNOWN /\ _get_normalized_unit product c = original_unit product) \/
    (c <> UNKNOWN /\
     _get_normalized_unit product c = hd (original_unit product) (valid_units c) /\
     In (_get_normalized_unit product c) (map py ["штука"; "тонна"]))
  end.
Proof.
  rewrite validate_unit_cases, get_normalized_unit_spec. unfold normalized_unit_spec.
  destruct (category_eq_dec c UNKNOWN) as [->|N].
  - left. split; reflexivity.
  - replace (category_eqb c UNKNOWN) with false
      by (destruct c; try reflexivity; contradiction N; reflexivity).
    destruct (unit_is_valid (original_unit product) (valid_units c)).
    + right. split; [exact N|]. split; [reflexivity|].
      apply canonical_unit. exact N.
    + split; [exact N|reflexivity].
Qed.

End Facts.

(** *** On the run of the scenario *)

Import Json.

Lemma failed_product_keeps_input_witness :
  In (nth 2 Scenario.output Scenario.hammer_a) Scenario.output /\
  status (nth 2 Scenario.output Scenario.hammer_a) = FAILED /\
  exists p0 message,
    In p0 Scenario.input /\
    error_message (nth 2 Scenario.output Scenario.hammer_a) = Some message /\
    internal_code (nth 2 Scenario.output Scenario.hammer_a) = internal_code p0 /\
    okpd2_code (nth 2 Scenario.output Scenario.hammer_a) = okpd2_code p0 /\
    normalized_unit (nth 2 Scenario.output Scenario.hammer_a) = normalized_unit p0.
Proof.
  assert (I : In (nth 2 Scenario.output Scenario.hammer_a) Scenario.output)
    by (vm_compute; right; right; left; reflexivity).
  assert (S : status (nth 2 Scenario.output Scenario.hammer_a) = FAILED)
    by (vm_compute; reflexivity).
  split; [exact I|]. split; [exact S|].
  destruct (@failed_product_keeps_input pyval pyval_PyValue
              Scenario.no_learned_patterns Scenario.research_stub
              Scenario.candidates_stub Scenario.llm_stub Scenario.input
              (nth 2 Scenario.output Scenario.hammer_a) I S)
    as [p0 [message [H0 [_ [M [C [U [_ [_ [K _]]]]]]]]]].
  exists p0, message.
  split; [exact H0|]. split; [exact M|]. split; [exact K|]. split; [exact C|exact U].
Defined.

Lemma completed_product_facts_witness :
  In (hd Scenario.hammer_a Scenario.output) Scenario.output /\
  status (hd Scenario.hammer_a Scenario.output) = COMPLETED /\
  category (hd Scenario.hammer_a Scenario.output) <> UNKNOWN /\
  comment (hd Scenario.hammer_a Scenario.output) = Some (py "Успешно нормализовано").
Proof.
  assert (I : In (hd Scenario.hammer_a Scenario.output) Scenario.output)
    by (vm_compute; left; reflexivity).
  assert (S : status (hd Scenario.hammer_a Scenario.output) = COMPLETED)
    by (vm_compute; reflexivity).
  split; [exact I|]. split; [exact S|].
  destruct (@completed_product_facts pyval pyval_PyValue
              Scenario.no_learned_patterns Scenario.research_stub
              Scenario.candidates_stub Scenario.llm_stub Scenario.input
              (hd Scenario.hammer_a Scenario.output) I S)
    as [K [_ [_ [_ [_ C]]]]].
  split; [exact K|exact C].
Defined.



End ProcessorFacts.

(** ** Counters, the search for candidates and the summary *)

Module ReportFacts.
Import CategoryDetector Counting DetectorReports.
Import OKPD2ClassifierAgent OKPD2Search MTRProcessor ProcessingSummary.

(** *** Tallies *)

Section Tally.
Context {K : Type}.
Variable eqb : K -> K -> bool.
Hypothesis eqb_eq : forall a b, eqb a b = true <-> a = b.

(** The count of a key, 0 when the key is missing. *)
Definition tally_of (k : K) (d : list (K * nat)) : nat :=
  match find (fun e => eqb k (fst e)) d with
  | Some e => snd e
  | None => 0
  end.

Definition positive (d : list (K * nat)) : Prop :=
  forall k n, In (k, n) d -> (1 <= n)%nat.

Lemma eqb_refl (k : K) : eqb k k = true.
Proof. apply eqb_eq. reflexivity. Qed.

Lemma tally_total (k : K) (d : list (K * nat)) :
  list_sum (map snd (tally eqb k d)) = S (list_sum (map snd d)).
Proof.
  unfold list_sum. induction d as [|[k' n] d IH]; [reflexivity|].
  cbn [tally]. destruct (eqb k k'); cbn [map snd fold_right]; [lia|].
  rewrite IH. lia.
Qed.

Lemma tally_of_tally (k k0 : K) (d : list (K * nat)) :
  tally_of k0 (tally eqb k d)
  = (tally_of k0 d + if eqb k0 k then 1 else 0)%nat.
Proof.
  unfold tally_of. induction d as [|[k' n] d IH].
  - cbn [tally find fst snd]. destruct (eqb k0 k); reflexivity.
  - cbn [tally]. destruct (eqb k k') eqn:E.
    + apply eqb_eq in E. subst k'. cbn [find fst snd].
      destruct (eqb k0 k); [reflexivity|]. lia.
    + cbn [find fst snd]. destruct (eqb k0 k') eqn:E0; [|exact IH].
      apply eqb_eq in E0. subst k'.
      destruct (eqb k0 k) eqn:E1; [|lia].
      apply eqb_eq in E1. subst k0. rewrite eqb_refl in E. discriminate E.
Qed.

Lemma tally_keys (k k0 : K) (d : list (K * nat)) :
  In k0 (map fst (tally eqb k d)) <-> In k0 (map fst d) \/ k0 = k.
Proof.
  induction d as [|[k' n] d IH].
  - cbn. split; [intros [H|[]]; right; symmetry; exact H|].
    intros [[]|H]. left. symmetry. exact H.
  - cbn [tally]. destruct (eqb k k') eqn:E.
    + apply eqb_eq in E. subst k'. cbn [map fst In]. split; [tauto|].
      intros [H|H]; [exact H|]. left. symmetry. exact H.
    + cbn [map fst In]. rewrite IH. tauto.
Qed.

Lemma tally_nodup (k : K) (d : list (K * nat)) :
  NoDup (map fst d) -> NoDup (map fst (tally eqb k d)).
Proof.
  induction d as [|[k' n] d IH]; intro H.
  - cbn. constructor; [intros []|constructor].
  - cbn [tally]. cbn [map fst] in H. inversion H as [|? ? N H']; subst.
    destruct (eqb k k') eqn:E.
    + cbn [map fst]. constructor; assumption.
    + cbn [map fst]. constructor; [|apply IH; exact H'].
      intro X. apply tally_keys in X. destruct X as [X|X]; [exact (N X)|].
      subst k'. rewrite eqb_refl in E. discriminate E.
Qed.

Lemma tally_positive (k : K) (d : list (K * nat)) :
  positive d -> positive (tally eqb k d).
Proof.
  unfold positive. induction d as [|[k' n] d IH]; intros H k0 n0 Hin.
  - destruct Hin as [E|[]]. injection E as <- <-. lia.
  - cbn [tally] in Hin. destruct (eqb k k').
    + destruct Hin as [E|Hin].
      * injection E as <- <-. lia.
      * apply (H k0). right. exact Hin.
    + destruct Hin as [E|Hin].
      * apply (H k0). left. exact E.
      * apply (IH (fun a b X => H a b (or_intror X)) k0). exact Hin.
Qed.

Lemma tally_of_in (k : K) (n : nat) (d : list (K * nat)) :
  NoDup (map fst d) -> In (k, n) d -> tally_of k d = n.
Proof.
  unfold tally_of. induction d as [|[k' n'] d IH]; intros ND H; [destruct H|].
  cbn [map fst] in ND. inversion ND as [|? ? N ND']; subst.
  cbn [find fst snd]. destruct H as [E|H].
  - injection E as <- <-. rewrite eqb_refl. reflexivity.
  - destruct (eqb k k') eqn:E; [|apply IH; assumption].
    apply eqb_eq in E. subst k'. exfalso. apply N.
    apply (in_map fst) in H. exact H.
Qed.

Lemma in_tally_of (k : K) (d : list (K * nat)) :
  In k (map fst d) -> In (k, tally_of k d) d.
Proof.
  unfold tally_of. induction d as [|[k' n'] d IH]; intro H; [destruct H|].
  cbn [find fst snd]. destruct (eqb k k') eqn:E.
  - apply eqb_eq in E. subst k'. left. reflexivity.
  - right. apply IH. destruct H as [H|H]; [|exact H].
    cbn [fst] in H. subst k'. rewrite eqb_refl in E. discriminate E.
Qed.

(** The counter of a list of keys. *)
Definition tally_all (keys : list K) (d : list (K * nat)) : list (K * nat) :=
  fold_left (fun d k => tally eqb k d) keys d.

Lemma tally_all_facts (keys : list K) (d : list (K * nat)) :
  list_sum (map snd (tally_all keys d))
  = (list_sum (map snd d) + List.length keys)%nat /\
  (NoDup (map fst d) -> NoDup (map fst (tally_all keys d))) /\
  (positive d -> positive (tally_all keys d)) /\
  (forall k, tally_of k (tally_all keys d)
             = (tally_of k d + count (eqb k) keys)%nat) /\
  (forall k, In k (map fst (tally_all keys d)) <-> In k (map fst d) \/ In k keys).
Proof.
  revert d. induction keys as [|a keys IH]; intro d.
  - cbn [tally_all fold_left List.length]. unfold count. cbn [filter List.length].
    split; [lia|]. split; [tauto|]. split; [tauto|].
    split; [intro k; lia|]. intro k. cbn [In]. tauto.
  - unfold tally_all. cbn [fold_left]. fold (tally_all keys (tally eqb a d)).
    destruct (IH (tally eqb a d)) as [I1 [I2 [I3 [I4 I5]]]].
    split; [rewrite I1, tally_total; cbn [List.length]; lia|].
    split; [intro H; apply I2, tally_nodup, H|].
    split; [intro H; apply I3, tally_positive, H|].
    split.
    + intro k. rewrite I4, tally_of_tally. unfold count. cbn [filter].
      destruct (eqb k a); cbn [List.length]; lia.
    + intro k. rewrite I5, tally_keys. cbn [In].
      split; [intros [[H|H]|H]|intros [H|[H|H]]]; auto.
Qed.

(** What a counter started empty holds. *)
Lemma tally_all_spec (keys : list K) :
  list_sum (map snd (tally_all keys [])) = List.length keys /\
  NoDup (map fst (tally_all keys [])) /\
  (forall k n, In (k, n) (tally_all keys []) <->
               (1 <= n)%nat /\ n = count (eqb k) keys).
Proof.
  destruct (tally_all_facts keys []) as [F1 [F2 [F3 [F4 F5]]]].
  assert (ND : NoDup (map fst (tally_all keys []))) by (apply F2; constructor).
  assert (P : positive (tally_all keys [])) by (apply F3; intros k n []).
  split; [exact F1|]. split; [exact ND|].
  intros k n. split.
  - intro H. split; [apply (P k); exact H|].
    rewrite <- (@tally_of_in k n (tally_all keys []) ND H), F4. reflexivity.
  - intros [Hn ->].
    assert (Hk : In k (map fst (tally_all keys []))).
    { apply F5. right. unfold count in Hn.
      destruct (filter (eqb k) keys) as [|x xs] eqn:E; [cbn in Hn; lia|].
      assert (Hx : In x (filter (eqb k) keys)) by (rewrite E; left; reflexivity).
      apply filter_In in Hx. destruct Hx as [Hx Ex].
      apply eqb_eq in Ex. subst x. exact Hx. }
    apply (@in_tally_of k (tally_all keys [])) in Hk. rewrite F4 in Hk. exact Hk.
Qed.

End Tally.

Lemma fold_left_keys {A K} (eqb : K -> K -> bool) (f : A -> list K)
      (l : list A) (d : list (K * nat)) :
  fold_left (fun d x => fold_left (fun d k => tally eqb k d) (f x) d) l d
  = tally_all eqb (flat_map f l) d.
Proof.
  revert d. induction l as [|a l IH]; intro d; [reflexivity|].
  cbn [fold_left flat_map]. unfold tally_all. rewrite fold_left_app.
  apply IH.
Qed.

(** *** [get_category_distribution] *)

(** The distribution counts every name once: the counts add up to the
    number of names, every category is listed once, and the count of a
    listed category is the number, at least 1, of names detected as in it.
    A category in which no name is detected is not listed. *)
Theorem category_distribution_counts {D : Detector} (names : list pystr) :
  let distribution := get_category_distribution names in
  list_sum (map snd distribution) = List.length names /\
  NoDup (map fst distribution) /\
  (forall c n,
      In (c, n) distribution <->
      (1 <= n)%nat /\
      n = count (fun name => category_eqb c (fst (detect_category name))) names).
Proof.
  cbv zeta. unfold get_category_distribution. cbv zeta.
  change (fold_left (fun counter c => tally category_eqb c counter)
                    (map (fun p => fst (detect_category p)) names) [])
    with (tally_all category_eqb (map (fun p => fst (detect_category p)) names) []).
  destruct (tally_all_spec category_eqb Learning.category_eqb_iff
                           (map (fun p => fst (detect_category p)) names))
    as [S1 [S2 S3]].
  split; [rewrite S1; apply length_map|]. split; [exact S2|].
  intros c n. rewrite S3. unfold count. rewrite !filter_map_swap, !length_map.
  reflexivity.
Qed.

(** *** [suggest_category_keywords] *)

Lemma flat_map_nil {A B} (f : A -> list B) (l : list A) :
  flat_map f l = [] <-> forall x, In x l -> f x = [].
Proof.
  induction l as [|a l IH]; cbn [flat_map].
  - split; [intros _ x []|reflexivity].
  - split.
    + intro H. apply app_eq_nil in H. destruct H as [Ha Hl].
      intros x [<-|Hx]; [exact Ha|]. apply IH; assumption.
    + intro H. rewrite (H a (or_introl eq_refl)).
      apply IH. intros x Hx. apply H. right. exact Hx.
Qed.

(** The keywords of all configured categories. *)
Definition all_keywords : list pystr :=
  flat_map (fun entry => keywords (snd entry)) PRODUCT_CATEGORIES.

(** Keywords are suggested only for a product of unknown category.  For
    such a product there is one suggestion for every configured keyword
    that occurs in the name, case ignored; so there is no suggestion exactly
    when no configured keyword occurs in the name. *)
Theorem suggest_category_keywords_spec (product_name : pystr)
        (category : ProductCategory) :
  (category <> UNKNOWN -> suggest_category_keywords product_name category = []) /\
  List.length (suggest_category_keywords product_name UNKNOWN)
  = count (fun keyword => contains (lower product_name) (lower keyword)) all_keywords /\
  (suggest_category_keywords product_name UNKNOWN = [] <->
   forall keyword, In keyword all_keywords ->
                   contains (lower product_name) (lower keyword) = false).
Proof.
  assert (L : forall cat ks,
             List.length
               (flat_map
                  (fun keyword =>
                     if contains (lower product_name) (lower keyword)
                     then [py "Contains '" ++ keyword ++ py "' - might be "
                              ++ key_str cat]
                     else []) ks)
             = count (fun keyword => contains (lower product_name) (lower keyword)) ks).
  { intros cat ks. unfold count. induction ks as [|k ks IH]; [reflexivity|].
    cbn [flat_map filter].
    destruct (contains (lower product_name) (lower k));
      cbn [app List.length]; rewrite IH; reflexivity. }
  assert (N : List.length (suggest_category_keywords product_name UNKNOWN)
              = count (fun keyword => contains (lower product_name) (lower keyword))
                      all_keywords).
  { unfold suggest_category_keywords, all_keywords. cbn [category_eqb].
    change (category_eqb UNKNOWN UNKNOWN) with true. cbv iota.
    generalize PRODUCT_CATEGORIES. intro d.
    induction d as [|[cat config] d IH]; [reflexivity|].
    cbn [flat_map snd]. rewrite length_app, L. unfold count in *.
    rewrite filter_app, length_app. f_equal. exact IH. }
  split; [|split; [exact N|]].
  - intro H. unfold suggest_category_keywords.
    replace (category_eqb category UNKNOWN) with false
      by (destruct category; try reflexivity; contradiction H; reflexivity).
    reflexivity.
  - rewrite <- length_zero_iff_nil, N. split.
    + intros H keyword Hk. unfold count in H. apply length_zero_iff_nil in H.
      apply (ValidationFacts.filter_nil _ _ H). exact Hk.
    + intro H. apply Learning.count_zero. exact H.
Qed.

(** *** [_search_okpd2_codes] *)

Lemma str_in_In (x : pystr) (l : list pystr) : str_in x l = true <-> In x l.
Proof.
  unfold str_in. rewrite existsb_exists. split.
  - intros [y [Hy E]]. apply Learning.str_eqb_eq in E. subst y. exact Hy.
  - intro H. exists x. split; [exact H|]. apply Learning.str_eqb_eq. reflexivity.
Qed.

Lemma unique_from_spec (all_candidates : list Candidate) (seen : list pystr) :
  NoDup (map c_code (unique_from seen all_candidates)) /\
  (forall c, In c (unique_from seen all_candidates) ->
             ~ In (c_code c) seen /\
             exists before after,
               all_candidates = before ++ c :: after /\
               ~ In (c_code c) (map c_code before)) /\
  (forall c, In c all_candidates ->
             In (c_code c) seen \/
             In (c_code c) (map c_code (unique_from seen all_candidates))).
Proof.
  revert seen. induction all_candidates as [|a l IH]; intro seen.
  - cbn [unique_from map]. split; [constructor|]. split; intros c [].
  - cbn [unique_from]. destruct (str_in (c_code a) seen) eqn:E.
    + apply str_in_In in E. destruct (IH seen) as [I1 [I2 I3]].
      split; [exact I1|]. split.
      * intros c Hc. destruct (I2 c Hc) as [N [before [after [-> B]]]].
        split; [exact N|]. exists (a :: before), after. split; [reflexivity|].
        cbn [map In]. intros [X|X]; [|exact (B X)].
        apply N. rewrite <- X. exact E.
      * intros c [<-|Hc]; [left; exact E|apply I3; exact Hc].
    + assert (N : ~ In (c_code a) seen).
      { intro X. apply str_in_In in X. congruence. }
      destruct (IH (c_code a :: seen)) as [I1 [I2 I3]].
      split; [|split].
      * cbn [map]. constructor; [|exact I1].
        intro X. apply in_map_iff in X. destruct X as [c [Ec Hc]].
        destruct (I2 c Hc) as [M _]. apply M. left. symmetry. exact Ec.
      * intros c [<-|Hc].
        -- split; [exact N|]. exists [], l. split; [reflexivity|intros []].
        -- destruct (I2 c Hc) as [M [before [after [-> B]]]].
           split; [intro X; apply M; right; exact X|].
           exists (a :: before), after. split; [reflexivity|].
           cbn [map In]. intros [X|X]; [|exact (B X)].
           apply M. left. exact X.
      * intros c [<-|Hc]; [right; left; reflexivity|].
        destruct (I3 c Hc) as [[X|X]|X].
        -- right. left. exact X.
        -- left. exact X.
        -- right. right. exact X.
Qed.

Section Search.
Variable llm_suggestions : list pystr -> result (list Candidate).

(** The candidates of a search term: the cached ones, if any, and the
    scraped ones otherwise. *)
Definition candidates_of (okpd2_cache : list (pystr * list Candidate))
           (term : pystr) : list Candidate :=
  match str_get term okpd2_cache with
  | Some cached => cached
  | None => _scrape_classifikators term
  end.

Lemma search_terms_fold (search_terms : list pystr)
      (okpd2_cache : list (pystr * list Candidate)) (acc : list Candidate) :
  exists cache',
    fold_left search_term_step search_terms (okpd2_cache, acc)
    = (cache', acc ++ flat_map (candidates_of okpd2_cache) search_terms) /\
    (forall t, candidates_of cache' t = candidates_of okpd2_cache t) /\
    (forall t cs, str_get t okpd2_cache = Some cs -> str_get t cache' = Some cs) /\
    (forall t, In t search_terms ->
               str_get t cache' = Some (candidates_of okpd2_cache t)).
Proof.
  revert okpd2_cache acc.
  induction search_terms as [|term terms IH]; intros cache acc.
  - exists cache. cbn [fold_left flat_map]. rewrite app_nil_r.
    split; [reflexivity|]. split; [reflexivity|]. split; [tauto|intros t []].
  - cbn [fold_left flat_map]. unfold search_term_step at 2.
    destruct (str_get term cache) as [cached|] eqn:G.
    + destruct (IH cache (acc ++ cached)) as [cache' [F [C [K T]]]].
      exists cache'. rewrite F.
      assert (E : candidates_of cache term = cached)
        by (unfold candidates_of; rewrite G; reflexivity).
      rewrite E, <- app_assoc.
      split; [reflexivity|]. split; [exact C|]. split; [exact K|].
      intros t [<-|Ht]; [|apply T; exact Ht].
      rewrite E. apply K. exact G.
    + cbv zeta.
      set (cache1 := dict_set term (_scrape_classifikators term) cache).
      assert (C1 : forall t, candidates_of cache1 t = candidates_of cache t).
      { intro t. unfold candidates_of, cache1.
        destruct (str_eqb t term) eqn:E.
        - apply Learning.str_eqb_eq in E. subst t.
          rewrite ProcessorFacts.str_get_dict_set_same, G. reflexivity.
        - rewrite ProcessorFacts.str_get_dict_set_other by exact E. reflexivity. }
      assert (K1 : forall t cs, str_get t cache = Some cs -> str_get t cache1 = Some cs).
      { intros t cs H. unfold cache1.
        destruct (str_eqb t term) eqn:E.
        - apply Learning.str_eqb_eq in E. subst t. congruence.
        - rewrite ProcessorFacts.str_get_dict_set_other by exact E. exact H. }
      destruct (IH cache1 (acc ++ _scrape_classifikators term))
        as [cache' [F [C [K T]]]].
      exists cache'. rewrite F.
      assert (E : candidates_of cache term = _scrape_classifikators term)
        by (unfold candidates_of; rewrite G; reflexivity).
      rewrite E, <- app_assoc.
      rewrite (flat_map_ext _ _ C1).
      split; [reflexivity|].
      split; [intro t; rewrite C; apply C1|].
      split; [intros t cs H; apply K, K1, H|].
      intros t [<-|Ht].
      * rewrite E. apply K. unfold cache1.
        apply ProcessorFacts.str_get_dict_set_same.
      * rewrite <- C1. apply T. exact Ht.
Qed.

(** The search returns candidates of pairwise distinct codes: of all the
    candidates found for the terms, cached or scraped, and suggested by the
    LLM, in this order, the first one of every code.  After the search the
    cache holds the candidates of every search term, and what it held
    before is unchanged. *)
Theorem search_okpd2_codes_unique (okpd2_cache : list (pystr * list Candidate))
        (search_terms : list pystr) :
  let found := snd (_search_okpd2_codes llm_suggestions okpd2_cache search_terms) in
  let cache' := fst (_search_okpd2_codes llm_suggestions okpd2_cache search_terms) in
  let all_candidates :=
    flat_map (candidates_of okpd2_cache) search_terms
    ++ _get_llm_suggestions llm_suggestions search_terms in
  NoDup (map c_code found) /\
  (forall c, In c found ->
             exists before after,
               all_candidates = before ++ c :: after /\
               ~ In (c_code c) (map c_code before)) /\
  (forall c, In c all_candidates -> In (c_code c) (map c_code found)) /\
  (forall t, In t search_terms ->
             str_get t cache' = Some (candidates_of okpd2_cache t)) /\
  (forall t cs, str_get t okpd2_cache = Some cs -> str_get t cache' = Some cs).
Proof.
  cbv zeta. unfold _search_okpd2_codes.
  destruct (search_terms_fold search_terms okpd2_cache []) as [cache' [F [_ [K T]]]].
  rewrite F. cbn [fst snd app].
  destruct (unique_from_spec
              (flat_map (candidates_of okpd2_cache) search_terms
               ++ _get_llm_suggestions llm_suggestions search_terms) [])
    as [U1 [U2 U3]].
  split; [exact U1|]. split; [|split; [|split; [exact T|exact K]]].
  - intros c Hc. destruct (U2 c Hc) as [_ H]. exact H.
  - intros c Hc. destruct (U3 c Hc) as [[]|H]. exact H.
Qed.

End Search.

(** *** [_generate_summary] *)

Section SummaryFacts.
Context {V : Type}.

Lemma count_status_total (l : list (Product V)) :
  (count_status COMPLETED l + count_status REJECTED l + count_status FAILED l
   + count_status PENDING l + count_status PROCESSING l = List.length l)%nat.
Proof.
  induction l as [|p l IH]; [reflexivity|].
  rewrite !ProcessorFacts.count_status_cons. cbn [List.length].
  destruct (status p); lia.
Qed.

(** The reason that a product adds to the count of rejection reasons. *)
Definition counted_reason (p : Product V) : list pystr :=
  match status p, comment p with
  | REJECTED, Some ((_ :: _) as reason) => [reason]
  | _, _ => []
  end.

Lemma rejection_reason_counts_tally (products : list (Product V)) :
  rejection_reason_counts (_generate_summary products)
  = tally_all str_eqb (flat_map counted_reason products) [].
Proof.
  unfold _generate_summary. cbn [rejection_reason_counts].
  rewrite <- fold_left_keys. generalize (@nil (pystr * nat)).
  induction products as [|p l IH]; intro d; [reflexivity|].
  cbn [fold_left]. rewrite <- IH. f_equal. unfold counted_reason.
  destruct (status p); try reflexivity.
  destruct (comment p) as [[|a r]|]; reflexivity.
Qed.

Lemma category_distribution_tally (products : list (Product V)) :
  category_distribution (_generate_summary products)
  = tally_all str_eqb (map (fun p => value (category p)) products) [].
Proof.
  unfold _generate_summary. cbn [category_distribution]. unfold tally_all.
  generalize (@nil (pystr * nat)).
  induction products as [|p l IH]; intro d; [reflexivity|].
  cbn [fold_left map]. apply IH.
Qed.

Lemma counted_reasons_le (l : list (Product V)) :
  (List.length (flat_map counted_reason l) <= count_status REJECTED l)%nat.
Proof.
  induction l as [|p l IH]; [apply Nat.le_refl|].
  cbn [flat_map]. rewrite length_app, ProcessorFacts.count_status_cons.
  unfold counted_reason at 1.
  destruct (status p); cbn [List.length]; try lia.
  destruct (comment p) as [[|a r]|]; cbn [List.length]; lia.
Qed.

Lemma processing_errors_length (l : list (Product V)) :
  List.length (processing_errors (_generate_summary l)) = count_status FAILED l.
Proof.
  unfold _generate_summary. cbn [processing_errors]. rewrite length_map.
  reflexivity.
Qed.

(** The summary of any product list: the four counters of the statistics
    do not exceed the total; the counts of the category distribution add up
    to the total, one entry for every category that occurs, with the number
    of its products; the counts of the rejection reasons do not exceed the
    number of rejected products; there is one processing error for every
    failed product. *)
Theorem generate_summary_adds_up (products : list (Product V)) :
  let summary := _generate_summary products in
  total_products summary = List.length products /\
  (completed summary + rejected summary + failed summary + pending summary
   <= total_products summary)%nat /\
  list_sum (map snd (category_distribution summary)) = total_products summary /\
  NoDup (map fst (category_distribution summary)) /\
  (forall name n,
      In (name, n) (category_distribution summary) <->
      (1 <= n)%nat /\
      n = count (fun p => str_eqb name (value (category p))) products) /\
  (list_sum (map snd (rejection_reason_counts summary)) <= rejected summary)%nat /\
  List.length (processing_errors summary) = failed summary.
Proof.
  cbv zeta.
  destruct (tally_all_spec str_eqb Learning.str_eqb_eq
                           (map (fun p => value (category p)) products))
    as [D1 [D2 D3]].
  destruct (tally_all_spec str_eqb Learning.str_eqb_eq
                           (flat_map counted_reason products))
    as [R1 _].
  rewrite category_distribution_tally, rejection_reason_counts_tally,
    processing_errors_length.
  unfold _generate_summary.
  cbn [total_products completed rejected failed pending].
  split; [reflexivity|].
  split; [pose proof (count_status_total products); lia|].
  split; [rewrite D1; apply length_map|]. split; [exact D2|].
  split; [|split; [rewrite R1; apply counted_reasons_le|reflexivity]].
  intros name n. rewrite D3. unfold count.
  rewrite !filter_map_swap, !length_map. reflexivity.
Qed.

End SummaryFacts.

(** *** The summary of a run *)

Section RunSummary.
Import Pipeline Orchestrator.
Context {V : Type} {PV : PyValue V}.
Variable learned_patterns : dict (list pystr).
Variable research : Product V -> ProductCategory -> result (option (ResearchResult V)).
Variable find_candidates :
  Product V -> ProductCategory -> option (ResearchDict V) -> result (list Candidate).
Variable call_llm : pystr -> list pystr -> result pystr.

Lemma canonical_reason_nonempty (reason : pystr) :
  In reason Validation.canonical_reasons -> reason <> [].
Proof.
  unfold Validation.canonical_reasons. cbn [map In].
  intros [<-|[<-|[<-|[<-|[<-|[<-|[]]]]]]]; vm_compute; discriminate.
Qed.

Lemma marker_nonempty (first : pystr) : Validation.rejection_marker ++ first <> [].
Proof.
  destruct Validation.rejection_marker as [|a m] eqn:E;
    [vm_compute in E; discriminate E|discriminate].
Qed.

Lemma rejected_has_comment (products : list (Product V)) (p : Product V) :
  In p (process_file learned_patterns research find_candidates call_llm products) ->
  status p = REJECTED -> exists a r, comment p = Some (a :: r).
Proof.
  intros Hp S.
  destruct (in_process_file _ _ _ _ _ _ Hp) as [p0 [_ ->]].
  destruct (finish_cases research find_candidates call_llm p0)
    as [[q [Hq E]]|[e [_ E]]]; rewrite E in *; [|discriminate S].
  destruct (run_stages_ok _ _ _ _ _ Hq)
    as [_ [_ [_ [_ [_ [[S' _]|[_ [first [rest [reason [D [C _]]]]]]]]]]]];
    [congruence|].
  destruct (Validation.determine_rejection_reason_cases first rest q)
    as [reason' [D' N]].
  rewrite D' in D. injection D as ->.
  assert (NE : reason <> []).
  { destruct N as [N | ->]; [apply canonical_reason_nonempty; exact N|].
    apply marker_nonempty. }
  destruct reason as [|a r]; [contradiction NE; reflexivity|].
  exists a, r. exact C.
Qed.

Lemma failed_has_message (products : list (Product V)) (p : Product V) :
  In p (process_file learned_patterns research find_candidates call_llm products) ->
  status p = FAILED -> exists message, error_message p = Some message.
Proof.
  intros Hp S.
  destruct (in_process_file _ _ _ _ _ _ Hp) as [p0 [_ ->]].
  destruct (finish_cases research find_candidates call_llm p0)
    as [[q [Hq E]]|[e [_ E]]]; rewrite E in *.
  - destruct (finish_ok _ _ _ _ Hq) as [_ [T|T]]; congruence.
  - exists e. reflexivity.
Qed.

Lemma counted_reasons_all (l : list (Product V)) :
  (forall p, In p l -> status p = REJECTED -> exists a r, comment p = Some (a :: r)) ->
  List.length (flat_map counted_reason l) = count_status REJECTED l.
Proof.
  induction l as [|p l IH]; intro H; [reflexivity|].
  cbn [flat_map]. rewrite length_app, ProcessorFacts.count_status_cons.
  rewrite IH by (intros q Hq; apply H; right; exact Hq).
  unfold counted_reason at 1.
  destruct (status p) eqn:S; try reflexivity.
  destruct (H p (or_introl eq_refl) S) as [a [r ->]]. reflexivity.
Qed.

(** The summary written after a run: its total is the number of products
    read; the completed, rejected and failed products add up to it and none
    is pending; every rejected product is counted under its rejection
    reason; every processing error carries the message of its exception. *)
Theorem summary_of_process_file (products : list (Product V)) :
  let summary :=
    _generate_summary
      (process_file learned_patterns research find_candidates call_llm products) in
  total_products summary = List.length products /\
  (completed summary + rejected summary + failed summary
   = total_products summary)%nat /\
  pending summary = 0%nat /\
  list_sum (map snd (rejection_reason_counts summary)) = rejected summary /\
  (forall e, In e (processing_errors summary) ->
             exists message, error e = Some message).
Proof.
  cbv zeta.
  set (out := process_file learned_patterns research find_candidates call_llm products).
  assert (T : forall p, In p out ->
                        status p = COMPLETED \/ status p = REJECTED \/ status p = FAILED).
  { intros p Hp. destruct (in_process_file _ _ _ _ _ _ Hp) as [p0 [_ ->]].
    apply ProcessorFacts.finish_terminal. }
  destruct (ProcessorFacts.count_terminal out T) as [C1 [C2 _]].
  assert (Len : List.length out = List.length products).
  { unfold out. rewrite process_file_spec, length_map.
    rewrite (Permutation_length
               (Grouping.regroup_permutation (categorized learned_patterns products))).
    unfold categorized. apply length_map. }
  destruct (tally_all_spec str_eqb Learning.str_eqb_eq (flat_map counted_reason out))
    as [R1 _].
  rewrite rejection_reason_counts_tally, R1.
  split; [exact Len|]. split; [exact C1|]. split; [exact C2|].
  split.
  - apply counted_reasons_all. intros p Hp. apply (@rejected_has_comment products p Hp).
  - intros e He. unfold _generate_summary in He. cbn [processing_errors] in He.
    apply in_map_iff in He. destruct He as [p [<- Hp]].
    apply filter_In in Hp. destruct Hp as [Hp S]. cbn [error].
    apply (@failed_has_message products p Hp).
    destruct (status p); try discriminate S. reflexivity.
Qed.

End RunSummary.

End ReportFacts.
